(** * LibFS: a shallow embedding of [LibFS.c]

    The development follows the C file top to bottom: the disk layout
    macros, the bitmap helpers, the path resolver, inode creation and
    removal, the open-file table and the [File_*] / [Dir_*] API.

    Conventions of the embedding.
    - A C [int] is a [Z]; divisions and remainders of [int]s are the
      truncating [Z.quot] and [Z.rem].  Where the source mixes an [int] with
      a [sizeof]-typed macro the usual arithmetic conversions are written
      out with [to_size_t] and [to_int] (32-bit [int], 64-bit [size_t]).
    - A byte is a [Z] in [0, 256); a sector buffer is a list of bytes.
    - A C function that may stop the process (a failed [assert], an access
      outside an array, a missing [return]) yields [Fault].
    - A local [int] that is read before anything was stored in it holds an
      arbitrary value; the functions that do so take that value as an
      extra argument [junk].

    The file has three parts: the model of the C code, the vocabulary of
    the statements together with a concrete volume, and the properties. *)

From Stdlib Require Import ZArith Lia Bool Ascii String.
From stdpp Require Import base list.

Local Open Scope Z_scope.

(** ** Constants of the missing headers *)

(** [LibDisk.h] and [LibFS.h] are not part of the sources.  The two sizes
    that the C file never spells out are kept as parameters of the whole
    development. *)
Class Geometry := {
  TOTAL_SECTORS : Z;   (* number of sectors of the simulated disk *)
  MAX_FILES : Z        (* capacity of the inode table *)
}.

(** The sector size is written as the literal 512 wherever the C file
    allocates a sector buffer ([calloc(512, ...)]), and the comment at the
    inode loop of [remove_inode] records [MAX_SECTORS_PER_FILE=30]. *)
Definition SECTOR_SIZE : Z := 512.
Definition MAX_SECTORS_PER_FILE : Z := 30.

Definition MAX_PATH : Z := 256.
Definition MAX_NAME : Z := 16.
Definition MAX_OPEN_FILES : Z := 256.

(** Modelled from the spec: the error tags of [LibFS.h] (section 7 lists
    them as distinct enumerated tags). *)
Inductive FS_Error :=
| E_GENERAL | E_CREATE | E_NO_SUCH_FILE | E_NO_SUCH_DIR | E_FILE_IN_USE
| E_TOO_MANY_OPEN_FILES | E_BAD_FD | E_NO_SPACE | E_FILE_TOO_BIG
| E_SEEK_OUT_OF_BOUNDS | E_BUFFER_TOO_SMALL | E_DIR_NOT_EMPTY | E_ROOT_DIR.

(** ** Machine integers *)

Definition to_int (z : Z) : Z := (z + 2 ^ 31) mod 2 ^ 32 - 2 ^ 31.
Definition to_size_t (z : Z) : Z := z mod 2 ^ 64.

(** [sizeof(inode_t)] and [sizeof(dirent_t)]: two [int]s followed by the
    sector index array; sixteen name bytes followed by an [int]. *)
Definition sizeof_inode : Z := 4 + 4 + 4 * MAX_SECTORS_PER_FILE.
Definition sizeof_dirent : Z := MAX_NAME + 4.

Definition INODES_PER_SECTOR : Z := SECTOR_SIZE / sizeof_inode.
Definition DIRENTS_PER_SECTOR : Z := SECTOR_SIZE / sizeof_dirent.

(** ** Byte buffers *)

Definition zeros (n : Z) : list Z := replicate (Z.to_nat n) 0.

Definition byte_at (buf : list Z) (i : Z) : Z := nth (Z.to_nat i) buf 0.

Definition set_byte (buf : list Z) (i : Z) (b : Z) : list Z :=
  <[Z.to_nat i := b]> buf.

(** [memset(buf, c, n)] on the first [n] bytes. *)
Definition memset (buf : list Z) (c : Z) (n : Z) : list Z :=
  replicate (Z.to_nat n) c ++ drop (Z.to_nat n) buf.

(** [memset(buf + off, 0, n)]. *)
Definition memzero_at (buf : list Z) (off n : Z) : list Z :=
  take (Z.to_nat off) buf ++ memset (drop (Z.to_nat off) buf) 0 n.

(** An [int] stored at byte offset [off], least significant byte first. *)
Definition get_int (buf : list Z) (off : Z) : Z :=
  to_int (byte_at buf off + 2 ^ 8 * byte_at buf (off + 1)
          + 2 ^ 16 * byte_at buf (off + 2) + 2 ^ 24 * byte_at buf (off + 3)).

Definition put_int (buf : list Z) (off : Z) (v : Z) : list Z :=
  let u := v mod 2 ^ 32 in
  set_byte (set_byte (set_byte (set_byte buf off (u mod 256))
                               (off + 1) ((u / 2 ^ 8) mod 256))
                     (off + 2) ((u / 2 ^ 16) mod 256))
           (off + 3) ((u / 2 ^ 24) mod 256).

(** The C string that starts at the head of a byte list. *)
Fixpoint take_cstr (l : list Z) : list Z :=
  match l with
  | [] => []
  | b :: r => if b =? 0 then [] else b :: take_cstr r
  end.

Definition cstr_at (buf : list Z) (off : Z) : list Z :=
  take_cstr (drop (Z.to_nat off) buf).

Fixpoint bytes_eqb (a b : list Z) : bool :=
  match a, b with
  | [], [] => true
  | x :: a', y :: b' => (x =? y) && bytes_eqb a' b'
  | _, _ => false
  end.

Fixpoint bytes_of_string (s : string) : list Z :=
  match s with
  | EmptyString => []
  | String c r => Z.of_N (N_of_ascii c) :: bytes_of_string r
  end.

(** The characters a [char*] argument designates: up to the first NUL. *)
Definition c_str (s : string) : list Z := take_cstr (bytes_of_string s).

(** [strncpy(dst + off, src, n)] for a NUL-terminated [src]: the string,
    then zero padding up to [n] bytes. *)
Definition strncpy_at (buf : list Z) (off : Z) (src : list Z) (n : Z) : list Z :=
  let body := take (Z.to_nat n) (src ++ zeros n) in
  take (Z.to_nat off) buf ++ body ++ drop (Z.to_nat off + length body) buf.

(** ** Records inside sector buffers *)

(** [inode_t] fields of the record at byte offset [base]. *)
Definition inode_size (buf : list Z) (base : Z) : Z := get_int buf base.
Definition inode_type (buf : list Z) (base : Z) : Z := get_int buf (base + 4).
Definition inode_data (buf : list Z) (base i : Z) : Z :=
  get_int buf (base + 8 + 4 * i).

Definition set_inode_size (buf : list Z) (base v : Z) := put_int buf base v.
Definition set_inode_type (buf : list Z) (base v : Z) := put_int buf (base + 4) v.
Definition set_inode_data (buf : list Z) (base i v : Z) :=
  put_int buf (base + 8 + 4 * i) v.

(** [dirent_t] fields of the [k]-th record of a directory sector. *)
Definition dirent_fname (buf : list Z) (k : Z) : list Z :=
  cstr_at buf (k * sizeof_dirent).
Definition dirent_inode (buf : list Z) (k : Z) : Z :=
  get_int buf (k * sizeof_dirent + MAX_NAME).

(** ** Results *)

Inductive fault :=
| AssertFailed      (* a failed [assert] aborts the process *)
| OutOfBounds       (* an array is indexed outside its bounds *)
| BadPointer        (* a pointer that designates no object is dereferenced *)
| NoReturnValue     (* control reaches the end of a non-void function *)
| Diverges.         (* a loop that never exits *)

Inductive result (A : Type) :=
| Done (a : A)
| Fault (f : fault).
Arguments Done {A} a.
Arguments Fault {A} f.

Definition rbind {A B} (r : result A) (k : A → result B) : result B :=
  match r with
  | Done a => k a
  | Fault f => Fault f
  end.

(** ** The block device *)

(** Modelled from the spec: [Disk_Read] of [LibDisk.c] (section 6, block
    device contract).  The disk is the list of its sectors; a read
    transfers one whole sector and succeeds exactly on the sector numbers
    of the disk ([None] stands for a negative return, which leaves the
    caller's buffer as it was). *)
Definition Disk_Read (d : list (list Z)) (sector : Z) : option (list Z) :=
  if sector <? 0 then None else d !! Z.to_nat sector.

(** Modelled from the spec: [Disk_Write] of [LibDisk.c] (same contract):
    [None] stands for a negative return, on a sector number outside the
    disk. *)
Definition Disk_Write (d : list (list Z)) (sector : Z) (buf : list Z)
  : option (list (list Z)) :=
  if (0 <=? sector) && (sector <? Z.of_nat (length d))
  then Some (<[Z.to_nat sector := buf]> d)
  else None.

(** A write whose status the caller ignores. *)
Definition Disk_Write_ (d : list (list Z)) (sector : Z) (buf : list Z)
  : list (list Z) :=
  match Disk_Write d sector buf with
  | Some d' => d'
  | None => d
  end.

(** A read into [buf] whose status the caller ignores. *)
Definition Disk_Read_ (d : list (list Z)) (sector : Z) (buf : list Z) : list Z :=
  match Disk_Read d sector with
  | Some b => b
  | None => buf
  end.

(** ** Disk layout *)

Section Layout.
Context {geo : Geometry}.

Definition SUPERBLOCK_START_SECTOR : Z := 0.
Definition OS_MAGIC : Z := 0xdeadbeef.
Definition INODE_BITMAP_START_SECTOR : Z := 1.
Definition INODE_BITMAP_SIZE : Z := (MAX_FILES + 7) ÷ 8.
Definition INODE_BITMAP_SECTORS : Z :=
  (INODE_BITMAP_SIZE + SECTOR_SIZE - 1) ÷ SECTOR_SIZE.
Definition SECTOR_BITMAP_START_SECTOR : Z :=
  INODE_BITMAP_START_SECTOR + INODE_BITMAP_SECTORS.
Definition SECTOR_BITMAP_SIZE : Z := (TOTAL_SECTORS + 7) ÷ 8.
Definition SECTOR_BITMAP_SECTORS : Z :=
  (SECTOR_BITMAP_SIZE + SECTOR_SIZE - 1) ÷ SECTOR_SIZE.
Definition INODE_TABLE_START_SECTOR : Z :=
  SECTOR_BITMAP_START_SECTOR + SECTOR_BITMAP_SECTORS.
Definition INODE_TABLE_SECTORS : Z :=
  to_size_t (MAX_FILES + INODES_PER_SECTOR - 1) / INODES_PER_SECTOR.
Definition DATABLOCK_START_SECTOR : Z :=
  INODE_TABLE_START_SECTOR + INODE_TABLE_SECTORS.

(** [INODE_TABLE_START_SECTOR + n / INODES_PER_SECTOR], assigned to an
    [int]. *)
Definition inode_sector_of (n : Z) : Z :=
  to_int (to_size_t (INODE_TABLE_START_SECTOR + to_size_t n / INODES_PER_SECTOR)).

(** [(sector - INODE_TABLE_START_SECTOR) * INODES_PER_SECTOR], assigned to
    an [int]. *)
Definition inode_start_entry_of (sector : Z) : Z :=
  to_int (to_size_t ((sector - INODE_TABLE_START_SECTOR) * INODES_PER_SECTOR)).

(** [0 <= offset && offset < INODES_PER_SECTOR]. *)
Definition offset_in_sector (offset : Z) : bool :=
  (0 <=? offset) && (to_size_t offset <? INODES_PER_SECTOR).

End Layout.

(** ** Bitmaps *)

(** The bit loop of [bitmap_init]: for [beginBit = 0 .. 7], while [mod] is
    positive, [bitmap[temp] = (1 << (7 - beginBit))]. *)
Fixpoint bitmap_init_bits (bits : list Z) (bitmap : list Z) (temp md : Z)
  : list Z :=
  match bits with
  | [] => bitmap
  | beginBit :: rest =>
      if 0 <? md
      then bitmap_init_bits rest (set_byte bitmap temp (Z.shiftl 1 (7 - beginBit)))
                            temp (md - 1)
      else bitmap_init_bits rest bitmap temp md
  end.

Definition bit_indices : list Z := [0; 1; 2; 3; 4; 5; 6; 7].

(** One round of the sector loop of [bitmap_init]: the buffer written and
    the remaining [nbits]. *)
Definition bitmap_init_sector (nbits : Z) : list Z * Z :=
  let bitmap := zeros 512 in
  if 512 * 8 <? nbits then (memset bitmap 255 512, nbits - 512)
  else if (nbits <? 512 * 8) && (0 <? nbits) then
    let temp := nbits ÷ 8 in
    let md := Z.rem nbits 8 in
    (bitmap_init_bits bit_indices (memset bitmap 255 temp) temp md, 0)
  else (bitmap, nbits).

Fixpoint bitmap_init_loop (rounds : nat) (start beginSector nbits : Z)
  (d : list (list Z)) : list (list Z) :=
  match rounds with
  | O => d
  | S rounds' =>
      let '(bitmap, nbits') := bitmap_init_sector nbits in
      bitmap_init_loop rounds' start (beginSector + 1) nbits'
        (Disk_Write_ d (start + beginSector) bitmap)
  end.

Definition bitmap_init (start num nbits : Z) (d : list (list Z))
  : list (list Z) :=
  bitmap_init_loop (Z.to_nat num) start 0 nbits d.

(** The bit loop of [bitmap_first_unused] on one byte: the first
    [beginBit] whose bit [7 - beginBit] is zero. *)
Fixpoint first_zero_bit (bits : list Z) (b : Z) : option Z :=
  match bits with
  | [] => None
  | beginBit :: rest =>
      if Z.land b (Z.shiftl 1 (7 - beginBit)) =? 0 then Some beginBit
      else first_zero_bit rest b
  end.

Inductive scan_result :=
| Found (beginByte beginBit position : Z)
| Exhausted (position nbits : Z).

(** The byte loop of [bitmap_first_unused] over one sector.  A byte that
    reads as [-1] (all ones) is skipped; [position] and [nbits] move by
    eight for every byte without a zero bit. *)
Fixpoint scan_bytes (todo : nat) (bitmap : list Z) (beginByte position nbits : Z)
  : scan_result :=
  match todo with
  | O => Exhausted position nbits
  | S todo' =>
      let b := byte_at bitmap beginByte in
      if b =? 255 then
        scan_bytes todo' bitmap (beginByte + 1) (position + 8) (nbits - 8)
      else
        match first_zero_bit bit_indices b with
        | Some beginBit => Found beginByte beginBit (position + beginBit)
        | None =>
            scan_bytes todo' bitmap (beginByte + 1) (position + 8) (nbits - 8)
        end
  end.

(** The sector loop of [bitmap_first_unused].  A round whose [Disk_Read]
    fails only advances [beginSector], so the loop never exits once the
    sector number has run past the disk; [fuel] bounds the rounds. *)
Fixpoint bitmap_first_unused_loop (fuel : nat) (d : list (list Z))
  (start beginSector position nbits : Z) : result (Z * list (list Z)) :=
  match fuel with
  | O => Fault Diverges
  | S fuel' =>
      if 0 <? nbits then
        match Disk_Read d (start + beginSector) with
        | Some bitmap =>
            match scan_bytes 512 bitmap 0 position nbits with
            | Found beginByte beginBit pos =>
                let b := byte_at bitmap beginByte in
                let bitmap' :=
                  set_byte bitmap beginByte (Z.lor b (Z.shiftl 1 (7 - beginBit))) in
                Done (pos, Disk_Write_ d (start + beginSector) bitmap')
            | Exhausted position' nbits' =>
                bitmap_first_unused_loop fuel' d start (beginSector + 1)
                  position' nbits'
            end
        | None =>
            if 0 <=? start + beginSector then Fault Diverges
            else bitmap_first_unused_loop fuel' d start (beginSector + 1)
                   position nbits
        end
      else Done (-1, d)
  end.

(** Every round that reads a sector lowers [nbits] by 4096 and every failed
    round moves a negative sector number up by one, so this many rounds
    are enough. *)
Definition bitmap_first_unused (start num nbits : Z) (d : list (list Z))
  : result (Z * list (list Z)) :=
  bitmap_first_unused_loop (S (Z.to_nat nbits + Z.to_nat (- start))) d start 0 0 nbits.

(** The bit loop of [bitmap_reset]: the [beginBit] at which the countdown
    [bit] reaches zero. *)
Fixpoint bitmap_reset_bits (bits : list Z) (bit : Z) : option Z :=
  match bits with
  | [] => None
  | beginBit :: rest =>
      if bit =? 0 then Some beginBit else bitmap_reset_bits rest (bit - 1)
  end.

Definition bitmap_reset (start num ibit : Z) (d : list (list Z))
  : result (Z * list (list Z)) :=
  let Sector := ibit ÷ (512 * 8) in
  let bit := Z.rem ibit 8 in
  let beginByte := ibit ÷ 512 in
  let bitmap := Disk_Read_ d (start + Sector) (zeros 512) in
  match bitmap_reset_bits bit_indices bit with
  | Some beginBit =>
      if (0 <=? beginByte) && (beginByte <? 512) then
        let b := Z.land (byte_at bitmap beginByte)
                        (Z.lnot (Z.shiftl 1 (7 - beginBit))) in
        Done (0, Disk_Write_ d (start + Sector) (set_byte bitmap beginByte b))
      else Fault OutOfBounds
  | None => Done (-1, d)
  end.

(** ** File names and paths *)

Definition isdigit (c : Z) : bool := (48 <=? c) && (c <=? 57).
Definition isalpha (c : Z) : bool :=
  ((65 <=? c) && (c <=? 90)) || ((97 <=? c) && (c <=? 122)).

Definition legal_char (c : Z) : bool :=
  isdigit c || isalpha c || (c =? 46) || (c =? 45) || (c =? 95).

(** [illegal_filename]: [true] stands for the C result 1. *)
Definition illegal_filename (name : list Z) : bool :=
  if MAX_NAME - 1 <? Z.of_nat (length name) then true
  else negb (forallb legal_char name).

(** The successive tokens [strsep(&lpath, "/")] returns, empty ones
    included. *)
Fixpoint strsep_all (l : list Z) (cur : list Z) : list (list Z) :=
  match l with
  | [] => [rev cur]
  | c :: r =>
      if c =? 47 then rev cur :: strsep_all r [] else strsep_all r (c :: cur)
  end.

Section Resolver.
Context {geo : Geometry}.

(** The [for] loop of [find_child_inode] over the entries of one
    directory sector. *)
Fixpoint scan_dirents (idxs : list Z) (buf fname : list Z) (nentries : Z)
  : option Z :=
  match idxs with
  | [] => None
  | i :: rest =>
      if nentries <? i then None
      else if bytes_eqb (dirent_fname buf i) fname then Some (dirent_inode buf i)
      else scan_dirents rest buf fname nentries
  end.

(** The [while] loop of [find_child_inode]; [left] counts the entries of
    [parent->data] not yet visited.  The result carries the returned
    [int] and the inode cache. *)
Fixpoint find_child_loop (left : nat) (d : list (list Z))
  (pbuf : list Z) (parent : Z) (fname : list Z) (nentries idx : Z)
  (cached_sector : Z) (cached_buffer : list Z)
  : result (Z * Z * list Z) :=
  if 0 <? nentries then
    match left with
    | O => Fault OutOfBounds
    | S left' =>
        match Disk_Read d (inode_data pbuf parent idx) with
        | None => Done (-2, cached_sector, cached_buffer)
        | Some buf =>
            match scan_dirents (seqZ 0 DIRENTS_PER_SECTOR) buf fname nentries with
            | Some child_inode =>
                let sector := inode_sector_of child_inode in
                if sector =? cached_sector
                then Done (child_inode, cached_sector, cached_buffer)
                else
                  match Disk_Read d sector with
                  | None => Done (-2, sector, cached_buffer)
                  | Some b => Done (child_inode, sector, b)
                  end
            | None =>
                find_child_loop left' d pbuf parent fname
                  (nentries - DIRENTS_PER_SECTOR) (idx + 1)
                  cached_sector cached_buffer
            end
        end
    end
  else Done (-1, cached_sector, cached_buffer).

Definition find_child_inode (d : list (list Z)) (parent_inode : Z)
  (fname : list Z) (cached_inode_sector : Z) (cached_inode_buffer : list Z)
  : result (Z * Z * list Z) :=
  let cached_start_entry := inode_start_entry_of cached_inode_sector in
  let offset := parent_inode - cached_start_entry in
  if offset_in_sector offset then
    let parent := offset * sizeof_inode in
    if inode_type cached_inode_buffer parent =? 1 then
      find_child_loop (Z.to_nat MAX_SECTORS_PER_FILE) d cached_inode_buffer parent
        fname (inode_size cached_inode_buffer parent) 0
        cached_inode_sector cached_inode_buffer
    else Done (-2, cached_inode_sector, cached_inode_buffer)
  else Fault AssertFailed.

(** What [follow_path] hands back: the returned [int], the value stored
    through [last_inode] ([None] when nothing was stored) and the last
    name copied to [last_fname] ([None] when nothing was copied). *)
Record path_result := {
  fp_ret : Z;
  fp_last_inode : option Z;
  fp_last_fname : option (list Z)
}.

(** The token loop of [follow_path] and the code after it. *)
Fixpoint follow_tokens (d : list (list Z)) (tokens : list (list Z))
  (parent_inode child_inode : Z) (cached_sector : Z) (cached_buffer : list Z)
  (last_fname : option (list Z)) : result path_result :=
  match tokens with
  | [] =>
      if child_inode <? -1 then Done (Build_path_result (-1) None last_fname)
      else
        let parent_inode :=
          if (parent_inode =? -1) && (child_inode =? 0) then 0 else parent_inode in
        Done (Build_path_result parent_inode (Some child_inode) last_fname)
  | token :: rest =>
      match token with
      | [] => follow_tokens d rest parent_inode child_inode
                cached_sector cached_buffer last_fname
      | _ =>
          if illegal_filename token
          then Done (Build_path_result (-1) None last_fname)
          else if child_inode <? 0
          then Done (Build_path_result (-1) None last_fname)
          else
            match find_child_inode d child_inode token cached_sector cached_buffer with
            | Fault f => Fault f
            | Done (c, cs, cb) =>
                follow_tokens d rest child_inode c cs cb (Some token)
            end
      end
  end.

(** [path] is a valid C string (the null-pointer test of the source never
    fires). *)
Definition follow_path (d : list (list Z)) (path : string) : result path_result :=
  match c_str path with
  | 47 :: rest =>
      let pathstore := take (Z.to_nat (MAX_PATH - 1)) rest in
      match Disk_Read d INODE_TABLE_START_SECTOR with
      | None => Done (Build_path_result (-1) None None)
      | Some cached_buffer =>
          follow_tokens d (strsep_all pathstore []) (-1) 0
            INODE_TABLE_START_SECTOR cached_buffer None
      end
  | _ => Done (Build_path_result (-1) None None)
  end.

End Resolver.

(** ** State of the library *)

(** [open_file_t]; an entry whose [inode] is 0 is not in use. *)
Record open_file_t := {
  f_inode : Z;   (* inode of the file (0 means entry not used) *)
  f_size : Z;    (* file size cached here *)
  f_pos : Z      (* read/write position *)
}.

(** The simulated disk, the table [open_files] and the global [osErrno]. *)
Record fs_state := {
  disk : list (list Z);
  open_files : list open_file_t;
  osErrno : FS_Error
}.

Definition set_disk (d : list (list Z)) (s : fs_state) : fs_state :=
  {| disk := d; open_files := open_files s; osErrno := osErrno s |}.
Definition set_open_files (t : list open_file_t) (s : fs_state) : fs_state :=
  {| disk := disk s; open_files := t; osErrno := osErrno s |}.
Definition set_errno (e : FS_Error) (s : fs_state) : fs_state :=
  {| disk := disk s; open_files := open_files s; osErrno := e |}.

(** A C function over the library state. *)
Definition M (A : Type) : Type := fs_state → result (A * fs_state).

Definition ret {A} (a : A) : M A := λ s, Done (a, s).
Definition bind {A B} (m : M A) (k : A → M B) : M B :=
  λ s, match m s with
       | Done (a, s') => k a s'
       | Fault f => Fault f
       end.
Definition crash {A} (f : fault) : M A := λ _, Fault f.
Definition get_disk : M (list (list Z)) := λ s, Done (disk s, s).
Definition put_disk (d : list (list Z)) : M unit := λ s, Done (tt, set_disk d s).
Definition get_files : M (list open_file_t) := λ s, Done (open_files s, s).
Definition put_files (t : list open_file_t) : M unit :=
  λ s, Done (tt, set_open_files t s).
Definition fail_with {A} (e : FS_Error) (a : A) : M A :=
  λ s, Done (a, set_errno e s).
Definition get_errno : M FS_Error := λ s, Done (osErrno s, s).
(** Run a function of the disk alone. *)
Definition on_disk {A} (f : list (list Z) → result (A * list (list Z))) : M A :=
  λ s, match f (disk s) with
       | Done (a, d) => Done (a, set_disk d s)
       | Fault x => Fault x
       end.
Definition pure_disk {A} (f : list (list Z) → result A) : M A :=
  λ s, match f (disk s) with
       | Done a => Done (a, s)
       | Fault x => Fault x
       end.

Declare Scope fs_scope.
Delimit Scope fs_scope with fs.
Notation "x <- m ;; k" := (bind m (λ x, k))
  (at level 20, m at level 99, k at level 200) : fs_scope.
Local Open Scope fs_scope.

(** [open_files[fd]] read and written; an index outside the array is a
    fault when it is read. *)
Definition lookup_fd (t : list open_file_t) (fd : Z) : option open_file_t :=
  if fd <? 0 then None else t !! Z.to_nat fd.

Definition store_fd (t : list open_file_t) (fd : Z) (e : open_file_t)
  : list open_file_t :=
  <[Z.to_nat fd := e]> t.

Definition file_entry (fd : Z) : M open_file_t :=
  λ s, match lookup_fd (open_files s) fd with
       | Some e => Done (e, s)
       | None => Fault OutOfBounds
       end.

Definition set_file_entry (fd : Z) (e : open_file_t) : M unit :=
  λ s, Done (tt, set_open_files (store_fd (open_files s) fd e) s).

Section FS.
Context {geo : Geometry}.

(** ** Creating inodes *)

(** The tail of [add_inode]: write the new [dirent_t] and bump the size of
    the parent. *)
Definition add_dirent (d : list (list Z)) (inode_sector : Z)
  (inode_buffer : list Z) (parent group : Z) (dirent_buffer : list Z)
  (file : list Z) (child_inode : Z) : result (Z * list (list Z)) :=
  let start_entry := to_int (to_size_t (group * DIRENTS_PER_SECTOR)) in
  let offset := inode_size inode_buffer parent - start_entry in
  if (0 <=? offset) && (offset <? DIRENTS_PER_SECTOR) then
    let dirent := offset * sizeof_dirent in
    let dirent_buffer := strncpy_at dirent_buffer dirent file MAX_NAME in
    let dirent_buffer := put_int dirent_buffer (dirent + MAX_NAME) child_inode in
    match Disk_Write d (inode_data inode_buffer parent group) dirent_buffer with
    | None => Done (-1, d)
    | Some d =>
        let inode_buffer :=
          set_inode_size inode_buffer parent (inode_size inode_buffer parent + 1) in
        match Disk_Write d inode_sector inode_buffer with
        | None => Done (-1, d)
        | Some d => Done (0, d)
        end
    end
  else Fault OutOfBounds.

Definition add_inode (type parent_inode : Z) (file : list Z) (d : list (list Z))
  : result (Z * list (list Z)) :=
  rbind (bitmap_first_unused INODE_BITMAP_START_SECTOR INODE_BITMAP_SECTORS
           INODE_BITMAP_SIZE d) (λ '(child_inode, d),
  if child_inode <? 0 then Done (-1, d) else
  let inode_sector := inode_sector_of child_inode in
  match Disk_Read d inode_sector with
  | None => Done (-1, d)
  | Some inode_buffer =>
  let inode_start_entry := inode_start_entry_of inode_sector in
  let offset := child_inode - inode_start_entry in
  if negb (offset_in_sector offset) then Fault AssertFailed else
  let child := offset * sizeof_inode in
  let inode_buffer := memzero_at inode_buffer child sizeof_inode in
  let inode_buffer := set_inode_type inode_buffer child type in
  match Disk_Write d inode_sector inode_buffer with
  | None => Done (-1, d)
  | Some d =>
  let inode_sector := inode_sector_of parent_inode in
  match Disk_Read d inode_sector with
  | None => Done (-1, d)
  | Some inode_buffer =>
  let inode_start_entry := inode_start_entry_of inode_sector in
  let offset := parent_inode - inode_start_entry in
  if negb (offset_in_sector offset) then Fault AssertFailed else
  let parent := offset * sizeof_inode in
  if negb (inode_type inode_buffer parent =? 1) then Done (-2, d) else
  let group :=
    to_int (to_size_t (inode_size inode_buffer parent) / DIRENTS_PER_SECTOR) in
  if to_size_t (group * DIRENTS_PER_SECTOR)
     =? to_size_t (inode_size inode_buffer parent)
  then
    rbind (bitmap_first_unused SECTOR_BITMAP_START_SECTOR SECTOR_BITMAP_SECTORS
             SECTOR_BITMAP_SIZE d) (λ '(newsec, d),
    if newsec <? 0 then Done (-1, d) else
    if (0 <=? group) && (group <? MAX_SECTORS_PER_FILE) then
      let inode_buffer := set_inode_data inode_buffer parent group newsec in
      add_dirent d inode_sector inode_buffer parent group (zeros SECTOR_SIZE)
        file child_inode
    else Fault OutOfBounds)
  else
    if (0 <=? group) && (group <? MAX_SECTORS_PER_FILE) then
      match Disk_Read d (inode_data inode_buffer parent group) with
      | None => Done (-1, d)
      | Some dirent_buffer =>
          add_dirent d inode_sector inode_buffer parent group dirent_buffer
            file child_inode
      end
    else Fault OutOfBounds
  end end end).

(** The value the caller's [child_inode] holds after [follow_path]: the
    variable is not initialised, so after a failed resolution it holds
    whatever [junk] was in its stack slot. *)
Definition child_of (junk : Z) (r : path_result) : Z :=
  match fp_last_inode r with
  | Some c => c
  | None => junk
  end.

(** The name [follow_path] left in [last_fname].  Whenever the callers
    below read it a token has been copied. *)
Definition fname_of (r : path_result) : list Z := default [] (fp_last_fname r).

(** Here [child_inode] is read only after [follow_path] returned a parent,
    and then it has been stored ([follow_path_stores_child] below). *)
Definition create_file_or_directory (junk : Z) (type : Z) (pathname : string)
  : M Z :=
  r <- pure_disk (λ d, follow_path d pathname) ;;
  let child_inode := child_of junk r in
  let parent_inode := fp_ret r in
  if 0 <=? parent_inode then
    if 0 <=? child_inode then fail_with E_CREATE (-1)
    else
      rc <- on_disk (add_inode type parent_inode (fname_of r)) ;;
      if 0 <=? rc then ret 0 else fail_with E_CREATE (-1)
  else fail_with E_CREATE (-1).

(** ** Removing inodes *)

(** [getInodeHelper] returns a pointer into its own local buffer, which
    is gone when the caller uses the pointer.  The pointer is modelled by
    the bytes of that buffer when the helper returned; [None] stands for
    the pointer [-1] it returns when the sector cannot be read (after
    setting [osErrno]).  The reads of [type] and [size] that callers make
    right after the call see these bytes.  [remove_inode] goes on to read
    [data[]] through the same pointer after other calls have used the
    stack; C promises nothing for those reads, and the model keeps the
    same bytes for them.  What is said of a removal that gets past the
    size test therefore holds only as long as the stale buffer has
    survived.  The general statements below stay on the paths that return
    before; the only runs that go past it remove an empty regular file
    that is inode 1 ([unlink_empty], scenario S5). *)
Definition getInodeHelper (child_inode : Z) : M (option (list Z * Z)) :=
  d <- get_disk ;;
  let inode_sector := inode_sector_of child_inode in
  match Disk_Read d inode_sector with
  | None => fail_with E_GENERAL None
  | Some inode_buffer =>
      let inode_start_entry := inode_start_entry_of inode_sector in
      let offset := child_inode - inode_start_entry in
      if offset_in_sector offset
      then ret (Some (inode_buffer, offset * sizeof_inode))
      else crash AssertFailed
  end.

(** First loop of [remove_inode]: every nonzero [childnode->data[i]] is
    reset in the sector bitmap.  ([cbuf] is the stale buffer of
    [getInodeHelper], see there.) *)
Fixpoint release_sectors (idxs : list Z) (cbuf : list Z) (childnode : Z)
  (d : list (list Z)) : result (unit * list (list Z)) :=
  match idxs with
  | [] => Done (tt, d)
  | i :: rest =>
      let sec := inode_data cbuf childnode i in
      if sec =? 0 then release_sectors rest cbuf childnode d
      else
        match bitmap_reset SECTOR_BITMAP_START_SECTOR SECTOR_BITMAP_SECTORS sec d with
        | Fault f => Fault f
        | Done (_, d) => release_sectors rest cbuf childnode d
        end
  end.

(** Inner loop of the directory scan: the first [k] whose entry names
    [child_inode]. *)
Fixpoint find_dirent (ks : list Z) (dirent_buffer : list Z) (child_inode : Z)
  : option Z :=
  match ks with
  | [] => None
  | k :: rest =>
      if dirent_inode dirent_buffer k =? child_inode then Some k
      else find_dirent rest dirent_buffer child_inode
  end.

(** Outer loop of the directory scan of [remove_inode]. *)
Fixpoint remove_dirent (js : list Z) (d : list (list Z)) (sector : Z)
  (inode_buffer : list Z) (parent child_inode : Z)
  : result (Z * list (list Z)) :=
  match js with
  | [] => Done (-1, d)
  | j :: rest =>
      let sec := inode_data inode_buffer parent j in
      if sec =? 0 then remove_dirent rest d sector inode_buffer parent child_inode
      else
        match Disk_Read d sec with
        | None => Done (-1, d)
        | Some dirent_buffer =>
            match find_dirent (seqZ 0 DIRENTS_PER_SECTOR) dirent_buffer child_inode with
            | Some k =>
                let dirent_buffer :=
                  memzero_at dirent_buffer (k * sizeof_dirent) sizeof_dirent in
                match Disk_Write d sec dirent_buffer with
                | None => Done (-1, d)
                | Some d =>
                    let inode_buffer :=
                      if 0 <? inode_size inode_buffer parent
                      then set_inode_size inode_buffer parent
                             (inode_size inode_buffer parent - 1)
                      else inode_buffer in
                    match Disk_Write d sector inode_buffer with
                    | None => Done (-1, d)
                    | Some d => Done (0, d)
                    end
                end
            | None =>
                remove_dirent rest d sector inode_buffer parent child_inode
            end
        end
  end.

(** The part of [remove_inode] that works on the parent directory. *)
Definition remove_from_parent (parent_inode child_inode : Z) (d : list (list Z))
  : result (Z * list (list Z)) :=
  let sector := inode_sector_of parent_inode in
  match Disk_Read d sector with
  | None => Done (-1, d)
  | Some inode_buffer =>
      let inode_start_entry := inode_start_entry_of sector in
      let offset := parent_inode - inode_start_entry in
      if offset_in_sector offset then
        let parent := offset * sizeof_inode in
        if inode_type inode_buffer parent =? 1 then
          remove_dirent (seqZ 0 MAX_SECTORS_PER_FILE) d sector inode_buffer
            parent child_inode
        else Done (-2, d)
      else Fault AssertFailed
  end.

Definition remove_inode (type parent_inode child_inode : Z) : M Z :=
  p <- getInodeHelper child_inode ;;
  match p with
  | None => crash BadPointer
  | Some (cbuf, childnode) =>
      if negb (inode_type cbuf childnode =? type) then ret (-3)
      else if negb (inode_size cbuf childnode =? 0) then ret (-2)
      else
        _ <- on_disk (release_sectors (seqZ 0 MAX_SECTORS_PER_FILE) cbuf childnode) ;;
        _ <- on_disk (bitmap_reset INODE_BITMAP_START_SECTOR INODE_BITMAP_SECTORS
                        child_inode) ;;
        (* [memset(childnode, 0, sizeof(inode_t))] clears the helper's stale
           buffer only; nothing of it is written to the disk *)
        on_disk (remove_from_parent parent_inode child_inode)
  end.

(** ** The open-file table *)

Definition is_file_open (inode : Z) (t : list open_file_t) : Z :=
  if existsb (λ e, f_inode e =? inode) t then 1 else 0.

Fixpoint new_file_fd_from (i : Z) (t : list open_file_t) : Z :=
  match t with
  | [] => -1
  | e :: rest => if f_inode e <=? 0 then i else new_file_fd_from (i + 1) rest
  end.

Definition new_file_fd (t : list open_file_t) : Z := new_file_fd_from 0 t.

Definition free_entry : open_file_t := {| f_inode := 0; f_size := 0; f_pos := 0 |}.

(** ** Volume lifecycle *)

(** Modelled from the spec: what [Disk_Load] finds in the backstore file
    (section 4.7): no file, a file that cannot be read, or an image of some
    byte length. *)
Inductive backstore :=
| NoBackstore
| BadBackstore
| Backstore (file_size : Z) (image : list (list Z)).

Definition check_magic (d : list (list Z)) : Z :=
  match Disk_Read d SUPERBLOCK_START_SECTOR with
  | None => 0
  | Some buf => if get_int buf 0 mod 2 ^ 32 =? OS_MAGIC then 1 else 0
  end.

(** The inode table loop of [FS_Boot]: whether every sector was written,
    and the disk as the loop leaves it (on a failed write, with the sectors
    written before it). *)
Fixpoint format_inode_table (n : nat) (i : Z) (d : list (list Z))
  : bool * list (list Z) :=
  match n with
  | O => (true, d)
  | S n' =>
      let buf := zeros SECTOR_SIZE in
      let buf := if i =? 0 then set_inode_type (set_inode_size buf 0 0) 0 1 else buf in
      match Disk_Write d (INODE_TABLE_START_SECTOR + i) buf with
      | None => (false, d)
      | Some d => format_inode_table n' (i + 1) d
      end
  end.

(** [Disk_Init] hands out a zeroed disk; [save_ok] tells whether
    [Disk_Save] succeeds. *)
Definition FS_Boot (bs : backstore) (save_ok : bool) : M Z :=
  _ <- put_disk (replicate (Z.to_nat TOTAL_SECTORS) (zeros SECTOR_SIZE)) ;;
  match bs with
  | NoBackstore =>
      d <- get_disk ;;
      let buf := put_int (zeros SECTOR_SIZE) 0 OS_MAGIC in
      match Disk_Write d SUPERBLOCK_START_SECTOR buf with
      | None => fail_with E_GENERAL (-1)
      | Some d =>
          let d := bitmap_init INODE_BITMAP_START_SECTOR INODE_BITMAP_SECTORS 1 d in
          let d := bitmap_init SECTOR_BITMAP_START_SECTOR SECTOR_BITMAP_SECTORS
                     DATABLOCK_START_SECTOR d in
          match format_inode_table (Z.to_nat INODE_TABLE_SECTORS) 0 d with
          | (false, d) => _ <- put_disk d ;; fail_with E_GENERAL (-1)
          | (true, d) =>
              _ <- put_disk d ;;
              if save_ok then
                _ <- put_files (replicate (Z.to_nat MAX_OPEN_FILES) free_entry) ;;
                ret 0
              else fail_with E_GENERAL (-1)
          end
      end
  | BadBackstore => fail_with E_GENERAL (-1)
  | Backstore sz image =>
      _ <- put_disk image ;;
      if negb (sz =? SECTOR_SIZE * TOTAL_SECTORS) then fail_with E_GENERAL (-1)
      else if check_magic image =? 1 then
        _ <- put_files (replicate (Z.to_nat MAX_OPEN_FILES) free_entry) ;;
        ret 0
      else fail_with E_GENERAL (-1)
  end.

Definition File_Create (junk : Z) (file : string) : M Z :=
  create_file_or_directory junk 0 file.

Definition Dir_Create (junk : Z) (path : string) : M Z :=
  create_file_or_directory junk 1 path.

(** ** Opening and closing *)

Definition File_Open (junk : Z) (file : string) : M Z :=
  t <- get_files ;;
  let fd := new_file_fd t in
  if fd <? 0 then fail_with E_TOO_MANY_OPEN_FILES (-1)
  else
    r <- pure_disk (λ d, follow_path d file) ;;
    let child_inode := child_of junk r in
    if 0 <=? child_inode then
      d <- get_disk ;;
      let inode_sector := inode_sector_of child_inode in
      match Disk_Read d inode_sector with
      | None => fail_with E_GENERAL (-1)
      | Some inode_buffer =>
          let inode_start_entry := inode_start_entry_of inode_sector in
          let offset := child_inode - inode_start_entry in
          if offset_in_sector offset then
            let child := offset * sizeof_inode in
            if negb (inode_type inode_buffer child =? 0) then fail_with E_GENERAL (-1)
            else
              _ <- set_file_entry fd
                     {| f_inode := child_inode;
                        f_size := inode_size inode_buffer child;
                        f_pos := 0 |} ;;
              ret fd
          else crash AssertFailed
      end
    else fail_with E_NO_SUCH_FILE (-1).

Definition File_Close (fd : Z) : M Z :=
  if (fd <? 0) || (MAX_OPEN_FILES <? fd) then fail_with E_BAD_FD (-1)
  else
    e <- file_entry fd ;;
    if f_inode e <=? 0 then fail_with E_BAD_FD (-1)
    else
      _ <- set_file_entry fd
             {| f_inode := 0; f_size := f_size e; f_pos := f_pos e |} ;;
      ret 0.

(** [File_Seek].  The second test of the source is the assignment
    [open_files[fd].inode = 0]: it stores 0 and its value, 0, is false. *)
Definition File_Seek (fd offset : Z) : M Z :=
  if offset <? 0 then fail_with E_SEEK_OUT_OF_BOUNDS (-1)
  else
    e <- file_entry fd ;;
    if f_size e <? offset then fail_with E_SEEK_OUT_OF_BOUNDS (-1)
    else
      _ <- set_file_entry fd
             {| f_inode := 0; f_size := f_size e; f_pos := f_pos e |} ;;
      _ <- set_file_entry fd
             {| f_inode := 0; f_size := f_size e; f_pos := offset |} ;;
      ret 0.

(** ** Reading and writing *)

(** Inner loop of [File_Read]: [data[count++] = temp[beginByte]] while
    [beginByte < 512 && count < size].  [data] collects the bytes stored in
    the caller's buffer so far. *)
Fixpoint read_bytes (fuel : nat) (temp : list Z) (beginByte count size : Z)
  (data : list Z) : Z * list Z :=
  match fuel with
  | O => (count, data)
  | S fuel' =>
      if (beginByte <? 512) && (count <? size)
      then read_bytes fuel' temp (beginByte + 1) (count + 1) size
             (data ++ [byte_at temp beginByte])
      else (count, data)
  end.

(** Outer loop of [File_Read]; [left] counts the entries of [node->data]
    from [beginSector] on.  The test reads [node->data[beginSector]] only
    when [count < size]. *)
Fixpoint file_read_loop (left : nat) (d : list (list Z)) (nbuf : list Z)
  (node : Z) (pos size : Z) (beginSector count : Z) (temp data : list Z)
  : result (Z * list Z) :=
  if count <? size then
    match left with
    | O => Fault OutOfBounds
    | S left' =>
        let sec := inode_data nbuf node beginSector in
        if sec =? 0 then Done (count, data)
        else
          let temp := Disk_Read_ d sec temp in
          let beginByte := if count =? 0 then Z.rem pos 512 else 0 in
          if beginByte <? 0 then Fault OutOfBounds
          else
            let '(count, data) := read_bytes 512 temp beginByte count size data in
            file_read_loop left' d nbuf node pos size (beginSector + 1) count temp data
    end
  else Done (count, data).

(** [File_Read] returns its [int] together with the bytes it stored at the
    start of [buffer]. *)
Definition File_Read (fd : Z) (size : Z) : M (Z * list Z) :=
  e <- file_entry fd ;;
  if f_inode e =? 0 then fail_with E_BAD_FD (-1, [])
  else
    d <- get_disk ;;
    let fi := f_inode e in
    let inode_sector := inode_sector_of fi in
    match Disk_Read d inode_sector with
    | None => ret (-1, [])
    | Some inode_buffer =>
        let inode_start_entry := inode_start_entry_of inode_sector in
        let offset := fi - inode_start_entry in
        if offset_in_sector offset then
          let node := offset * sizeof_inode in
          let beginSector := f_pos e ÷ 512 in
          if (beginSector <? 0) && (0 <? size) then crash OutOfBounds
          else
            match file_read_loop (Z.to_nat (MAX_SECTORS_PER_FILE - beginSector))
                    d inode_buffer node (f_pos e) size beginSector 0
                    (zeros 512) [] with
            | Fault f => crash f
            | Done (count, data) =>
                _ <- set_file_entry fd
                       {| f_inode := f_inode e; f_size := f_size e;
                          f_pos := f_pos e + count |} ;;
                ret (count, data)
            end
        else crash AssertFailed
    end.

(** Inner loop of [File_Write]: [writeBuffer[beginByte] = temp[count++]]
    while [beginByte < 512 && tempsize > 0]. *)
Fixpoint write_bytes (fuel : nat) (buffer writeBuffer : list Z)
  (beginByte count tempsize : Z) : list Z * Z * Z :=
  match fuel with
  | O => (writeBuffer, count, tempsize)
  | S fuel' =>
      if (beginByte <? 512) && (0 <? tempsize)
      then write_bytes fuel' buffer
             (set_byte writeBuffer beginByte (byte_at buffer count))
             (beginByte + 1) (count + 1) (tempsize - 1)
      else (writeBuffer, count, tempsize)
  end.

(** Outer loop of [File_Write].  Every round takes a fresh sector from the
    sector bitmap, records it in the local copy of the inode and writes one
    sector of data. *)
Fixpoint file_write_loop (left : nat) (d : list (list Z)) (nbuf : list Z)
  (node : Z) (pos size : Z) (buffer : list Z) (beginSector count tempsize : Z)
  : result (Z * list Z * list (list Z)) :=
  if count <? size then
    match bitmap_first_unused SECTOR_BITMAP_START_SECTOR SECTOR_BITMAP_SECTORS
            SECTOR_BITMAP_SIZE d with
    | Fault f => Fault f
    | Done (firstUnused, d) =>
        match left with
        | O => Fault OutOfBounds
        | S left' =>
            let nbuf := set_inode_data nbuf node beginSector firstUnused in
            let beginByte := if count =? 0 then Z.rem pos 512 else 0 in
            if beginByte <? 0 then Fault OutOfBounds
            else
              let '(writeBuffer, count, tempsize) :=
                write_bytes 512 buffer (zeros 512) beginByte count tempsize in
              let d := Disk_Write_ d (inode_data nbuf node beginSector) writeBuffer in
              file_write_loop left' d nbuf node pos size buffer
                (beginSector + 1) count tempsize
        end
    end
  else Done (count, nbuf, d).

(** [buffer] holds the bytes the caller's pointer designates; asking for
    more than it holds reads outside it. *)
Definition File_Write (fd : Z) (buffer : list Z) (size : Z) : M Z :=
  e <- file_entry fd ;;
  if f_inode e =? 0 then fail_with E_BAD_FD (-1)
  else
    d <- get_disk ;;
    let fi := f_inode e in
    let inode_sector := inode_sector_of fi in
    match Disk_Read d inode_sector with
    | None => ret (-1)
    | Some inode_buffer =>
        let inode_start_entry := inode_start_entry_of inode_sector in
        let offset := fi - inode_start_entry in
        if offset_in_sector offset then
          let node := offset * sizeof_inode in
          let beginSector := f_pos e ÷ SECTOR_SIZE in
          if Z.of_nat (length buffer) <? size then crash OutOfBounds
          else if (beginSector <? 0) && (0 <? size) then crash OutOfBounds
          else
            match file_write_loop (Z.to_nat (MAX_SECTORS_PER_FILE - beginSector))
                    d inode_buffer node (f_pos e) size buffer beginSector 0 size with
            | Fault f => crash f
            | Done (count, inode_buffer, d) =>
                let inode_buffer :=
                  set_inode_size inode_buffer node
                    (inode_size inode_buffer node + count) in
                _ <- put_disk (Disk_Write_ d inode_sector inode_buffer) ;;
                _ <- set_file_entry fd
                       {| f_inode := f_inode e; f_size := f_size e + count;
                          f_pos := f_pos e + count |} ;;
                ret count
            end
        else crash AssertFailed
    end.

(** ** Unlinking *)

(** [delete_helper] calls [remove_inode] once, and again for each of the
    two tests of its result.  With a negative [parent_inode] control runs
    off the end of the function. *)
Definition delete_helper (junk : Z) (type : Z) (pathname : string) : M Z :=
  r <- pure_disk (λ d, follow_path d pathname) ;;
  let child_inode := child_of junk r in
  let parent_inode := fp_ret r in
  t <- get_files ;;
  if is_file_open child_inode t =? 1 then fail_with E_FILE_IN_USE (-1)
  else if child_inode <? 0 then
    if negb (type =? 0) then fail_with E_NO_SUCH_FILE (-1)
    else fail_with E_NO_SUCH_DIR (-1)
  else if 0 <=? parent_inode then
    rc <- remove_inode type parent_inode child_inode ;;
    if rc =? 0 then ret 0
    else
      rc <- remove_inode type parent_inode child_inode ;;
      if rc =? -2 then fail_with E_DIR_NOT_EMPTY (-1)
      else
        rc <- remove_inode type parent_inode child_inode ;;
        if rc =? -3 then fail_with E_GENERAL (-1)
        else fail_with E_GENERAL (-1)
  else crash NoReturnValue.

Definition File_Unlink (junk : Z) (file : string) : M Z :=
  delete_helper junk 0 file.

(** A [char*] argument of [Dir_Unlink]: either the very string literal
    against which the function compares its argument, or any other object
    that holds a string. *)
Inductive path_ptr :=
| RootLiteral
| Chars (s : string).

Definition chars_of (p : path_ptr) : string :=
  match p with
  | RootLiteral => "/"
  | Chars s => s
  end.

(** [path == "/"] compares the two pointers. *)
Definition same_pointer_as_root_literal (p : path_ptr) : bool :=
  match p with
  | RootLiteral => true
  | Chars _ => false
  end.

Definition Dir_Unlink (junk : Z) (path : path_ptr) : M Z :=
  if same_pointer_as_root_literal path then fail_with E_ROOT_DIR (-1)
  else delete_helper junk 1 (chars_of path).

(** ** Directories *)

Definition Dir_Size (junk : Z) (path : string) : M Z :=
  r <- pure_disk (λ d, follow_path d path) ;;
  let child_inode := child_of junk r in
  if 0 <=? child_inode then
    p <- getInodeHelper child_inode ;;
    match p with
    | None => crash BadPointer
    | Some (dbuf, directory) =>
        ret (to_int (to_size_t (inode_size dbuf directory * sizeof_dirent)))
    end
  else ret 0.

(** The loop of [Dir_Read]: every sector of the directory is read into a
    scratch buffer; [left] counts the entries of [directory->data] from [i]
    on. *)
Fixpoint dir_read_loop (left : nat) (d : list (list Z)) (dbuf : list Z)
  (directory : Z) (i : Z) (temp : list Z) : result (list Z) :=
  match left with
  | O => Fault OutOfBounds
  | S left' =>
      let sec := inode_data dbuf directory i in
      if sec =? 0 then Done temp
      else dir_read_loop left' d dbuf directory (i + 1) (Disk_Read_ d sec temp)
  end.

(** [Dir_Read] returns its [int] together with the caller's buffer as the
    call leaves it. *)
Definition Dir_Read (junk junk' : Z) (path : string) (buffer : list Z) (size : Z)
  : M (Z * list Z) :=
  r <- pure_disk (λ d, follow_path d path) ;;
  let d_inode := child_of junk r in
  d <- get_disk ;;
  let inode_sector := inode_sector_of d_inode in
  match Disk_Read d inode_sector with
  | None => ret (-1, buffer)
  | Some inode_buffer =>
      let inode_start_entry := inode_start_entry_of inode_sector in
      let offset := d_inode - inode_start_entry in
      if offset_in_sector offset then
        let directory := offset * sizeof_inode in
        sz <- Dir_Size junk' path ;;
        if size <? sz then fail_with E_BUFFER_TOO_SMALL (-1, buffer)
        else
          match dir_read_loop (Z.to_nat MAX_SECTORS_PER_FILE) d inode_buffer
                  directory 0 (zeros 512) with
          | Fault f => crash f
          | Done _ => ret (-1, buffer)
          end
      else crash AssertFailed
    end.

End FS.

(** * Vocabulary of the statements *)

(** Bit [i] of a bitmap stored from sector [start] on, most significant bit
    of each byte first. *)
Definition bitmap_bit (d : list (list Z)) (start i : Z) : Z :=
  match Disk_Read d (start + i / (SECTOR_SIZE * 8)) with
  | Some bm =>
      Z.land (Z.shiftr (byte_at bm ((i mod (SECTOR_SIZE * 8)) / 8)) (7 - i mod 8)) 1
  | None => 0
  end.

(** The number of consecutive nonzero entries of [node->data] from index
    [i] on, among the [left] entries that remain in the array. *)
Fixpoint data_run (left : nat) (nbuf : list Z) (node i : Z) : nat :=
  match left with
  | O => O
  | S left' =>
      if inode_data nbuf node i =? 0 then O
      else S (data_run left' nbuf node (i + 1))
  end.

(** The bytes between position [pos] and the end of the last sector of
    that run. *)
Definition bytes_in_run (nbuf : list Z) (node pos : Z) : Z :=
  let b := pos ÷ 512 in
  let run := data_run (Z.to_nat (MAX_SECTORS_PER_FILE - b)) nbuf node b in
  Z.max 0 (512 * Z.of_nat run - Z.rem pos 512).

(** The run from [pos] on ends at a zero entry inside [node->data]. *)
Definition run_ends_in_array (nbuf : list Z) (node pos : Z) : Prop :=
  let b := pos ÷ 512 in
  b + Z.of_nat (data_run (Z.to_nat (MAX_SECTORS_PER_FILE - b)) nbuf node b)
  < MAX_SECTORS_PER_FILE.

(** The inode record [n] of disk [d] lies at byte [base] of the sector
    image [buf]: its sector can be read and the offset passes the
    [assert] of the source. *)
Definition inode_at `{Geometry} (d : list (list Z)) (n : Z) (buf : list Z)
  (base : Z) : Prop :=
  Disk_Read d (inode_sector_of n) = Some buf
  ∧ offset_in_sector (n - inode_start_entry_of (inode_sector_of n)) = true
  ∧ base = (n - inode_start_entry_of (inode_sector_of n)) * sizeof_inode.

(** What a caller sees of a run: the returned value and [osErrno]. *)
Definition observe {A} (r : result (A * fs_state)) : result (A * FS_Error) :=
  match r with
  | Done (a, s) => Done (a, osErrno s)
  | Fault f => Fault f
  end.

(** The state a run ends in ([s0] if it faults). *)
Definition final_state {A} (s0 : fs_state) (r : result (A * fs_state)) : fs_state :=
  match r with
  | Done (_, s) => s
  | Fault _ => s0
  end.

(** ** A concrete volume *)

(** Sizes for the concrete runs below: ten thousand sectors and a thousand
    inodes. *)
#[export] Instance lab_geometry : Geometry :=
  {| TOTAL_SECTORS := 10000; MAX_FILES := 1000 |}.

(** The process before [FS_Boot]: no disk yet, a zeroed table, and some tag
    [e0] in [osErrno]. *)
Definition initial_state (e0 : FS_Error) : fs_state :=
  {| disk := [];
     open_files := replicate (Z.to_nat MAX_OPEN_FILES) free_entry;
     osErrno := e0 |}.

(** [FS_Boot] on a backstore file that does not exist yet. *)
Definition format : M Z := FS_Boot NoBackstore true.

(** Scenario S2 of the specification. *)
Definition write_seek_read (junk : Z) : M (list Z * (Z * list Z)) :=
  b <- format ;;
  c <- File_Create junk "/a.txt" ;;
  fd <- File_Open junk "/a.txt" ;;
  w <- File_Write fd (c_str "hello") 5 ;;
  k <- File_Seek fd 0 ;;
  r <- File_Read fd 5 ;;
  ret ([b; c; fd; w; k], r).

(** A file is created, written, closed and unlinked. *)
Definition unlink_written (junk : Z) : M (list Z) :=
  b <- format ;;
  c <- File_Create junk "/f" ;;
  fd <- File_Open junk "/f" ;;
  w <- File_Write fd (c_str "hello") 5 ;;
  cl <- File_Close fd ;;
  u <- File_Unlink junk "/f" ;;
  ret [b; c; fd; w; cl; u].

(** A file is created and unlinked at once. *)
Definition unlink_empty (junk : Z) : M (list Z) :=
  b <- format ;;
  c <- File_Create junk "/f" ;;
  u <- File_Unlink junk "/f" ;;
  ret [b; c; u].

(** Scenario S1 of the specification. *)
Definition read_root (junk junk' : Z) (buffer : list Z) (n : Z)
  : M (Z * Z * (Z * list Z)) :=
  b <- format ;;
  sz <- Dir_Size junk "/" ;;
  r <- Dir_Read junk junk' "/" buffer n ;;
  ret (b, sz, r).

(** [Dir_Unlink] on a caller's own string ["/"]. *)
Definition unlink_root (junk : Z) : M (Z * Z) :=
  b <- format ;;
  u <- Dir_Unlink junk (Chars "/") ;;
  ret (b, u).

(** [File_Seek] on a descriptor that was never opened. *)
Definition seek_unopened : M (Z * Z) :=
  b <- format ;;
  k <- File_Seek 0 0 ;;
  ret (b, k).

(** Scenario S3: an illegal name. *)
Definition create_bad_name (junk : Z) : M (list Z) :=
  b <- format ;;
  c <- File_Create junk "/bad name" ;;
  ret [b; c].

(** Scenario S4, up to the unlink of the directory that is not empty. *)
Definition unlink_directory (junk : Z) : M (list Z * FS_Error) :=
  b <- format ;;
  c <- Dir_Create junk "/d" ;;
  x <- File_Create junk "/d/x" ;;
  u <- Dir_Unlink junk (Chars "/d") ;;
  e <- get_errno ;;
  ret ([b; c; x; u], e).

(** Scenario S5: an open file cannot be unlinked. *)
Definition unlink_open_file (junk : Z) : M (list Z * FS_Error) :=
  b <- format ;;
  c <- File_Create junk "/f" ;;
  fd <- File_Open junk "/f" ;;
  u <- File_Unlink junk "/f" ;;
  e <- get_errno ;;
  cl <- File_Close fd ;;
  v <- File_Unlink junk "/f" ;;
  ret ([b; c; fd; u; cl; v], e).

(** Scenario S6: the bounds of [File_Seek] on a file of ten bytes. *)
Definition seek_bounds (junk : Z) : M (list Z * FS_Error) :=
  b <- format ;;
  c <- File_Create junk "/f" ;;
  fd <- File_Open junk "/f" ;;
  w <- File_Write fd (c_str "0123456789") 10 ;;
  k <- File_Seek fd 11 ;;
  e <- get_errno ;;
  k' <- File_Seek fd 10 ;;
  ret ([b; c; fd; w; k; k'], e).

(** The volume right after formatting. *)
Definition fresh_volume : fs_state :=
  final_state (initial_state E_GENERAL) (format (initial_state E_GENERAL)).

(** ["/a.txt"] holds five bytes and is open on descriptor 0, at position 5. *)
Definition opened_volume : fs_state :=
  final_state fresh_volume
    ((c <- File_Create 0 "/a.txt" ;;
      fd <- File_Open 0 "/a.txt" ;;
      File_Write fd (c_str "hello") 5) fresh_volume).

(** The same file closed and opened again: descriptor 0, position 0. *)
Definition reopened_volume : fs_state :=
  final_state opened_volume
    ((c <- File_Close 0 ;; File_Open 0 "/a.txt") opened_volume).

(** ** More vocabulary *)

(** A small volume for the examples of the general statements: 64 sectors
    and 24 inodes, so that the data blocks start at sector 9. *)
Definition small_geometry : Geometry :=
  {| TOTAL_SECTORS := 64; MAX_FILES := 24 |}.

(** Every sector of the disk holds 512 bytes. *)
Definition wf_disk (d : list (list Z)) : Prop :=
  Forall (λ b, length b = 512%nat) d.

(** The components of an absolute path as [follow_path] walks them: the
    nonempty tokens of the first 255 characters after the leading slash
    ([None] for a path that does not start with a slash). *)
Definition nonempty_token (t : list Z) : bool :=
  match t with
  | [] => false
  | _ => true
  end.

Definition path_components (path : string) : option (list (list Z)) :=
  match c_str path with
  | 47 :: rest =>
      Some (List.filter nonempty_token
              (strsep_all (take (Z.to_nat (MAX_PATH - 1)) rest) []))
  | _ => None
  end.

(** The small volume right after formatting. *)
Definition small_fresh : fs_state :=
  final_state (initial_state E_GENERAL)
    (FS_Boot (geo := small_geometry) NoBackstore true (initial_state E_GENERAL)).

(** On it, ["/d"] is a directory that holds the empty file ["/d/x"], and
    ["/a.txt"] holds five bytes and is open on descriptor 0, at position
    5. *)
Definition small_opened : fs_state :=
  final_state small_fresh
    ((_ <- Dir_Create (geo := small_geometry) 0 "/d" ;;
      _ <- File_Create (geo := small_geometry) 0 "/d/x" ;;
      _ <- File_Create (geo := small_geometry) 0 "/a.txt" ;;
      fd <- File_Open (geo := small_geometry) 0 "/a.txt" ;;
      File_Write (geo := small_geometry) fd (c_str "hello") 5) small_fresh).

(** [wf_disk], as a test. *)
Definition wf_diskb (d : list (list Z)) : bool :=
  forallb (λ b, Nat.eqb (length b) 512) d.

(** The bit [bitmap_reset] clears when asked for [ibit]: the byte index it
    uses is [ibit / 512]. *)
Definition reset_target (ibit : Z) : Z :=
  4096 * (ibit / 4096) + 8 * (ibit / 512) + ibit mod 8.

(** On the small volume, ["/a.txt"] is empty and open twice, on the
    descriptors 0 and 1, both at position 0. *)
Definition small_shared : fs_state :=
  final_state small_fresh
    ((_ <- File_Create (geo := small_geometry) 0 "/a.txt" ;;
      _ <- File_Open (geo := small_geometry) 0 "/a.txt" ;;
      File_Open (geo := small_geometry) 0 "/a.txt") small_fresh).


(** The first sector of the inode table as [FS_Boot] formats it: the root
    directory, empty, then free inodes. *)
Definition root_sector : list Z :=
  set_inode_type (set_inode_size (zeros SECTOR_SIZE) 0 0) 0 1.

(** The sector the sector bitmap of a freshly formatted volume hands out
    first: [bitmap_init] has marked the whole bytes below
    [DATABLOCK_START_SECTOR] and its last bit. *)
Definition first_free_sector `{Geometry} : Z :=
  if DATABLOCK_START_SECTOR mod 8 <=? 1 then DATABLOCK_START_SECTOR
  else 8 * (DATABLOCK_START_SECTOR / 8).

(** The volume [small_shared] with a sector bitmap that has no free bit
    left. *)
Definition small_full : fs_state :=
  set_disk (Disk_Write_ (disk small_shared) 2 (replicate 512 255)) small_shared.

(** The volume [small_opened] with ["/a.txt"] opened once more: descriptor
    0 is at position 5, descriptor 1 at position 0. *)
Definition small_reopened : fs_state :=
  final_state small_opened
    (File_Open (geo := small_geometry) 0 "/a.txt" small_opened).

(** * Properties *)

(** ** The model on the scenarios of the specification *)

(** S3, S5 and S6 come out as the specification lists them, and S4 up to
    the [Dir_Unlink] that is refused.  (The rest of S4 unlinks a directory
    that has held an entry: there [remove_inode] hands [data[0]], read
    through the pointer of [getInodeHelper], to [bitmap_reset]; see the
    remark at [getInodeHelper].) *)
Example scenario_S3_illegal_name :
  ∀ e0 junk,
    observe (create_bad_name junk (initial_state e0)) = Done ([0; -1], E_CREATE).
Proof. intros e0 junk. vm_compute. reflexivity. Qed.

Example scenario_S4_directory_not_empty :
  ∀ e0 junk,
    observe (unlink_directory junk (initial_state e0))
    = Done (([0; 0; 0; -1], E_DIR_NOT_EMPTY), E_DIR_NOT_EMPTY).
Proof. intros e0 junk. vm_compute. reflexivity. Qed.

Example scenario_S5_open_prevents_unlink :
  ∀ e0 junk,
    observe (unlink_open_file junk (initial_state e0))
    = Done (([0; 0; 0; -1; 0; 0], E_FILE_IN_USE), E_FILE_IN_USE).
Proof. intros e0 junk. vm_compute. reflexivity. Qed.

Example scenario_S6_seek_bounds :
  ∀ e0 junk,
    observe (seek_bounds junk (initial_state e0))
    = Done (([0; 0; 0; 10; -1; 0], E_SEEK_OUT_OF_BOUNDS), E_SEEK_OUT_OF_BOUNDS).
Proof. intros e0 junk. vm_compute. reflexivity. Qed.

(** ** The open-file table *)

Lemma lookup_fd_nonneg t fd e : lookup_fd t fd = Some e → 0 ≤ fd.
Proof.
  unfold lookup_fd. destruct (fd <? 0) eqn:E; [discriminate|]. lia.
Qed.

Lemma lookup_store_eq t fd e e' :
  lookup_fd t fd = Some e → lookup_fd (store_fd t fd e') fd = Some e'.
Proof.
  unfold lookup_fd, store_fd. destruct (fd <? 0); [discriminate|].
  intros H. apply list_lookup_insert_eq. by eapply lookup_lt_Some.
Qed.

Lemma lookup_store_ne t fd fd' e :
  0 ≤ fd → fd ≠ fd' → lookup_fd (store_fd t fd e) fd' = lookup_fd t fd'.
Proof.
  unfold lookup_fd, store_fd. intros Hfd Hne.
  destruct (fd' <? 0) eqn:E; [done|].
  apply list_lookup_insert_ne. lia.
Qed.

Lemma store_fd_twice t fd e e' :
  store_fd (store_fd t fd e) fd e' = store_fd t fd e'.
Proof. unfold store_fd. apply list_insert_insert_eq. Qed.

Lemma new_file_fd_from_first i t k ek :
  t !! k = Some ek → f_inode ek ≤ 0 →
  ∃ k0 e0, new_file_fd_from i t = i + Z.of_nat k0
           ∧ t !! k0 = Some e0 ∧ f_inode e0 ≤ 0.
Proof.
  revert i k. induction t as [|e t IH]; intros i k Hk Hfree; [done|].
  simpl. destruct (f_inode e <=? 0) eqn:E.
  - exists 0%nat, e. split; [lia|]. split; [done|lia].
  - destruct k as [|k]; simpl in Hk.
    + injection Hk as ->. lia.
    + destruct (IH (i + 1) k Hk Hfree) as (k0 & e0 & Heq & Hl & Hf).
      exists (S k0), e0. split; [lia|]. done.
Qed.

Lemma is_file_open_entry t k ek :
  t !! k = Some ek → is_file_open (f_inode ek) t = 1.
Proof.
  intros Hk. unfold is_file_open.
  replace (existsb _ t) with true; [done|].
  symmetry. apply existsb_exists. exists ek. split.
  - apply list_elem_of_In. by eapply list_elem_of_lookup_2.
  - apply Z.eqb_refl.
Qed.

Lemma file_entry_outside_table s fd :
  fd < 0 ∨ Z.of_nat (length (open_files s)) ≤ fd →
  file_entry fd s = Fault OutOfBounds.
Proof.
  intros Hfd. unfold file_entry, lookup_fd.
  destruct (fd <? 0) eqn:E; [done|].
  rewrite lookup_ge_None_2; [done|lia].
Qed.

(** ** Path resolution *)

Section Paths.
Context {geo : Geometry}.

Lemma follow_tokens_stores_child d tokens parent child cs cb lf r :
  follow_tokens d tokens parent child cs cb lf = Done r →
  fp_last_inode r = None → fp_ret r = -1.
Proof.
  revert parent child cs cb lf.
  induction tokens as [|token tokens IH]; intros parent child cs cb lf; simpl.
  - destruct (child <? -1); intros [= <-]; [done|discriminate].
  - destruct token as [|c token]; [apply IH|].
    destruct (illegal_filename (c :: token)); [by intros [= <-]|].
    destruct (child <? 0); [by intros [= <-]|].
    destruct (find_child_inode d child (c :: token) cs cb) as [[[c' cs'] cb']|];
      [apply IH|discriminate].
Qed.

(** Whenever [follow_path] returns a parent inode it has stored the child
    through [last_inode]. *)
Lemma follow_path_stores_child d path r :
  follow_path d path = Done r → 0 ≤ fp_ret r → is_Some (fp_last_inode r).
Proof.
  intros Hpath Hret. destruct (fp_last_inode r) eqn:E; [done|].
  exfalso. revert Hpath. unfold follow_path.
  destruct (c_str path) as [|c rest]; [intros [= <-]; simpl in Hret; lia|].
  destruct c as [|p|p]; try (intros [= <-]; simpl in Hret; lia).
  do 6 (destruct p as [p|p|]; try (intros [= <-]; simpl in Hret; lia)).
  destruct (Disk_Read d INODE_TABLE_START_SECTOR);
    [|intros [= <-]; simpl in Hret; lia].
  intros H. apply follow_tokens_stores_child in H; [lia|done].
Qed.

End Paths.

(** ** Inode numbers *)

Section InodeTable.
Context {geo : Geometry}.

(** For an inode number that fits the table, the sector and the offset the
    source computes are the quotient and the remainder by
    [INODES_PER_SECTOR], and the [assert] holds. *)
Lemma inode_at_intro d n buf :
  0 ≤ n < 2 ^ 31 →
  0 ≤ INODE_TABLE_START_SECTOR →
  INODE_TABLE_START_SECTOR + n / INODES_PER_SECTOR < 2 ^ 31 →
  Disk_Read d (INODE_TABLE_START_SECTOR + n / INODES_PER_SECTOR) = Some buf →
  inode_at d n buf (n mod INODES_PER_SECTOR * sizeof_inode).
Proof.
  change INODES_PER_SECTOR with 4. intros Hn Hits Hfit Hread.
  assert (Hq : 0 ≤ n / 4) by (apply Z.div_pos; lia).
  assert (Hsec : inode_sector_of n = INODE_TABLE_START_SECTOR + n / 4).
  { unfold inode_sector_of, to_int, to_size_t.
    change INODES_PER_SECTOR with 4.
    rewrite (Z.mod_small n) by lia.
    rewrite (Z.mod_small (_ + n / 4)) by lia.
    rewrite Z.mod_small by lia. lia. }
  assert (Hent : n - inode_start_entry_of (inode_sector_of n) = n mod 4).
  { rewrite Hsec. unfold inode_start_entry_of, to_int, to_size_t.
    change INODES_PER_SECTOR with 4.
    replace (INODE_TABLE_START_SECTOR + n / 4 - INODE_TABLE_START_SECTOR)
      with (n / 4) by lia.
    pose proof (Z.div_mod n 4 ltac:(lia)) as Hdm.
    pose proof (Z.mod_pos_bound n 4 ltac:(lia)) as Hmb.
    rewrite (Z.mod_small (n / 4 * 4)) by lia.
    rewrite Z.mod_small by lia. lia. }
  pose proof (Z.mod_pos_bound n 4 ltac:(lia)) as Hmb.
  unfold inode_at. rewrite Hent. split; [by rewrite Hsec|]. split; [|done].
  unfold offset_in_sector, to_size_t. change INODES_PER_SECTOR with 4.
  rewrite (Z.mod_small (n mod 4)) by lia.
  apply andb_true_intro. split; [apply Z.leb_le|apply Z.ltb_lt]; lia.
Qed.

End InodeTable.

(** ** Seeking *)

(** [File_Seek] with an offset inside the cached size: what the call
    returns and what it leaves in the table. *)
Lemma File_Seek_in_bounds s fd e offset :
  lookup_fd (open_files s) fd = Some e →
  0 ≤ offset ≤ f_size e →
  File_Seek fd offset s
  = Done (0, set_open_files
               (store_fd (open_files s) fd
                  {| f_inode := 0; f_size := f_size e; f_pos := offset |}) s).
Proof.
  intros Hfd [Hlo Hhi]. unfold File_Seek, bind, file_entry, set_file_entry, ret.
  destruct (offset <? 0) eqn:E1; [lia|]. rewrite Hfd.
  destruct (f_size e <? offset) eqn:E2; [lia|]. simpl.
  by rewrite store_fd_twice.
Qed.

(** C4: [File_Seek] on an entry of the table, with an offset inside the
    cached size, returns 0 and stores the offset, but it also stores 0 in
    the [inode] field of the entry: whatever inode the entry held, the
    descriptor is no longer open afterwards. *)
Theorem File_Seek_frees_descriptor s fd e offset :
  lookup_fd (open_files s) fd = Some e →
  0 ≤ offset ≤ f_size e →
  ∃ s',
    File_Seek fd offset s = Done (0, s')
    ∧ lookup_fd (open_files s') fd
      = Some {| f_inode := 0; f_size := f_size e; f_pos := offset |}
    ∧ (∀ i, i ≠ fd → lookup_fd (open_files s') i = lookup_fd (open_files s) i)
    ∧ disk s' = disk s ∧ osErrno s' = osErrno s.
Proof.
  intros Hfd Hoff. eexists. split; [by apply File_Seek_in_bounds|].
  simpl. split; [by eapply lookup_store_eq|]. split; [|done].
  intros i Hi. apply lookup_store_ne; [by eapply lookup_fd_nonneg|done].
Qed.

Lemma File_Seek_frees_descriptor_witness :
  lookup_fd (open_files opened_volume) 0
  = Some {| f_inode := 1; f_size := 5; f_pos := 5 |}
  ∧ ∃ s',
      File_Seek 0 0 opened_volume = Done (0, s')
      ∧ lookup_fd (open_files s') 0
        = Some {| f_inode := 0; f_size := 5; f_pos := 0 |}
      ∧ (∀ i, i ≠ 0 → lookup_fd (open_files s') i
                      = lookup_fd (open_files opened_volume) i)
      ∧ disk s' = disk opened_volume ∧ osErrno s' = osErrno opened_volume.
Proof.
  split; [vm_compute; reflexivity|].
  apply (File_Seek_frees_descriptor opened_volume 0
           {| f_inode := 1; f_size := 5; f_pos := 5 |} 0).
  - vm_compute; reflexivity.
  - simpl; lia.
Defined.

(** [File_Seek] past the cached size fails and leaves the table alone. *)
Lemma File_Seek_out_of_bounds s fd e offset :
  lookup_fd (open_files s) fd = Some e →
  f_size e < offset →
  File_Seek fd offset s = Done (-1, set_errno E_SEEK_OUT_OF_BOUNDS s).
Proof.
  intros Hfd Hhi. unfold File_Seek, bind, file_entry, fail_with.
  destruct (offset <? 0) eqn:E1; [done|]. rewrite Hfd.
  destruct (f_size e <? offset) eqn:E2; [done|lia].
Qed.

(** No call of [File_Seek] stores [E_BAD_FD]. *)
Lemma File_Seek_never_bad_fd s fd offset r s' :
  File_Seek fd offset s = Done (r, s') →
  osErrno s' = osErrno s ∨ osErrno s' = E_SEEK_OUT_OF_BOUNDS.
Proof.
  unfold File_Seek, bind, file_entry, set_file_entry, fail_with, ret.
  destruct (offset <? 0); [intros [= _ <-]; by right|].
  destruct (lookup_fd (open_files s) fd) as [e|]; [|discriminate].
  destruct (f_size e <? offset); intros [= _ <-]; [by right|by left].
Qed.

(** C8: [File_Seek] does not reject a descriptor whose entry is free.  On
    the table as [FS_Boot] leaves it, [File_Seek(0, 0)] returns 0 and
    [osErrno] keeps its value. *)
Theorem File_Seek_accepts_free_entry :
  ∀ e0, observe (seek_unopened (initial_state e0)) = Done ((0, 0), e0).
Proof. intros e0. vm_compute. reflexivity. Qed.

(** [File_Read], [File_Write] and [File_Close] on an entry whose [inode]
    is 0. *)
Lemma File_Read_free_entry `{Geometry} s fd e n :
  lookup_fd (open_files s) fd = Some e →
  f_inode e = 0 →
  File_Read fd n s = Done ((-1, []), set_errno E_BAD_FD s).
Proof.
  intros Hfd He. unfold File_Read, bind, file_entry, fail_with.
  rewrite Hfd, He. reflexivity.
Qed.

Lemma File_Write_free_entry `{Geometry} s fd e buffer n :
  lookup_fd (open_files s) fd = Some e →
  f_inode e = 0 →
  File_Write fd buffer n s = Done (-1, set_errno E_BAD_FD s).
Proof.
  intros Hfd He. unfold File_Write, bind, file_entry, fail_with.
  rewrite Hfd, He. reflexivity.
Qed.

Lemma File_Close_free_entry s fd e :
  lookup_fd (open_files s) fd = Some e →
  f_inode e = 0 →
  File_Close fd s = Done (-1, set_errno E_BAD_FD s).
Proof.
  intros Hfd He. unfold File_Close, bind, file_entry, fail_with.
  destruct (_ || _); [done|]. rewrite Hfd, He. reflexivity.
Qed.

(** Descriptors outside the table.  [File_Close] tests the range, with
    [fd > MAX_OPEN_FILES] for the upper end; [File_Read] and [File_Write]
    index the table at once. *)
Lemma File_Close_out_of_range s fd :
  fd < 0 ∨ MAX_OPEN_FILES < fd →
  File_Close fd s = Done (-1, set_errno E_BAD_FD s).
Proof.
  intros Hfd. unfold File_Close, fail_with.
  destruct ((fd <? 0) || (MAX_OPEN_FILES <? fd)) eqn:E; [done|].
  apply orb_false_elim in E as [E1 E2]. lia.
Qed.

Lemma File_Close_at_table_end s :
  Z.of_nat (length (open_files s)) = MAX_OPEN_FILES →
  File_Close MAX_OPEN_FILES s = Fault OutOfBounds.
Proof.
  intros Hlen. unfold File_Close, bind.
  change ((MAX_OPEN_FILES <? 0) || (MAX_OPEN_FILES <? MAX_OPEN_FILES)) with false.
  cbv beta iota. rewrite file_entry_outside_table; [done|lia].
Qed.

Lemma File_Read_outside_table `{Geometry} s fd n :
  fd < 0 ∨ Z.of_nat (length (open_files s)) ≤ fd →
  File_Read fd n s = Fault OutOfBounds.
Proof.
  intros Hfd. unfold File_Read, bind. by rewrite file_entry_outside_table.
Qed.

Lemma File_Write_outside_table `{Geometry} s fd buffer n :
  fd < 0 ∨ Z.of_nat (length (open_files s)) ≤ fd →
  File_Write fd buffer n s = Fault OutOfBounds.
Proof.
  intros Hfd. unfold File_Write, bind. by rewrite file_entry_outside_table.
Qed.

(** After a successful [File_Seek] every [File_Read] on the descriptor
    fails with [E_BAD_FD]. *)
Lemma File_Read_after_Seek `{Geometry} s fd e offset n :
  lookup_fd (open_files s) fd = Some e →
  0 ≤ offset ≤ f_size e →
  ∃ s1, File_Seek fd offset s = Done (0, s1)
        ∧ File_Read fd n s1 = Done ((-1, []), set_errno E_BAD_FD s1).
Proof.
  intros Hfd Hoff. eexists. split; [by apply File_Seek_in_bounds|].
  apply (File_Read_free_entry _ fd
           {| f_inode := 0; f_size := f_size e; f_pos := offset |}); [|done].
  simpl. by eapply lookup_store_eq.
Qed.

(** C1: the round trip of scenario S2 on a freshly formatted volume.
    Creating, opening and writing five bytes succeed and [File_Seek(fd, 0)]
    returns 0, but the [File_Read] that follows returns -1 with
    [E_BAD_FD] and transfers nothing. *)
Theorem write_seek_read_ends_in_bad_fd :
  ∀ e0 junk,
    observe (write_seek_read junk (initial_state e0))
    = Done (([0; 0; 0; 5; 0], (-1, [])), E_BAD_FD).
Proof. intros e0 junk. vm_compute. reflexivity. Qed.

(** ** Bitmaps *)

(** C5: [bitmap_init] with a prefix of two bits on a one-sector bitmap
    that starts at sector 1.  The bit loop assigns [1 << (7 - beginBit)] to
    the last byte at every round, so only the last bit of the prefix
    survives: the byte is 0x40, bit 0 reads 0 and bit 1 reads 1. *)
Theorem bitmap_init_loses_prefix_bits :
  bitmap_bit (bitmap_init 1 1 2 (replicate 4 (zeros 512))) 1 0 = 0
  ∧ bitmap_bit (bitmap_init 1 1 2 (replicate 4 (zeros 512))) 1 1 = 1
  ∧ byte_at (Disk_Read_ (bitmap_init 1 1 2 (replicate 4 (zeros 512))) 1 []) 0 = 64.
Proof. repeat split; vm_compute; reflexivity. Qed.

Lemma byte_at_set_byte buf i b :
  0 ≤ i < Z.of_nat (length buf) → byte_at (set_byte buf i b) i = b.
Proof.
  intros Hi. unfold byte_at, set_byte. rewrite nth_lookup.
  rewrite list_lookup_insert_eq by lia. reflexivity.
Qed.

(** The bit loop of [bitmap_init] leaves in the partial byte only the
    value of its last round. *)
Lemma bitmap_init_bits_last bitmap temp md :
  1 ≤ md ≤ 7 →
  bitmap_init_bits bit_indices bitmap temp md
  = set_byte bitmap temp (2 ^ (8 - md)).
Proof.
  intros Hmd.
  assert (md = 1 ∨ md = 2 ∨ md = 3 ∨ md = 4 ∨ md = 5 ∨ md = 6 ∨ md = 7)
    as [->|[->|[->|[->|[->|[->| ->]]]]]] by lia;
    cbn; unfold set_byte; rewrite ?list_insert_insert_eq; reflexivity.
Qed.

(** [bitmap_init] on a one-sector bitmap, for every prefix that ends two
    bits or more into a byte: the first bit of that byte is left at 0
    although it belongs to the prefix. *)
Lemma bitmap_init_partial_byte d start nbits :
  0 ≤ start < Z.of_nat (length d) →
  0 < nbits < 512 * 8 →
  2 ≤ nbits mod 8 →
  8 * (nbits / 8) < nbits
  ∧ bitmap_bit (bitmap_init start 1 nbits d) start (8 * (nbits / 8)) = 0.
Proof.
  intros Hstart Hn Hmod.
  pose proof (Z.div_mod nbits 8 ltac:(lia)) as Hdm.
  pose proof (Z.mod_pos_bound nbits 8 ltac:(lia)) as Hmb.
  split; [lia|].
  assert (Hq : 0 ≤ nbits / 8 < 512) by (split; [apply Z.div_pos|apply Z.div_lt_upper_bound]; lia).
  unfold bitmap_init. change (Z.to_nat 1) with 1%nat. cbn [bitmap_init_loop].
  unfold bitmap_init_sector.
  destruct (512 * 8 <? nbits) eqn:E1; [lia|].
  destruct ((nbits <? 512 * 8) && (0 <? nbits)) eqn:E2.
  2: { apply andb_false_iff in E2 as [E2|E2]; lia. }
  rewrite Z.quot_div_nonneg, Z.rem_mod_nonneg by lia.
  rewrite bitmap_init_bits_last by lia.
  unfold bitmap_bit, Disk_Write_, Disk_Write, Disk_Read.
  rewrite Z.add_0_r.
  replace (8 * (nbits / 8) / (SECTOR_SIZE * 8)) with 0.
  2: { symmetry. apply Z.div_small. change (SECTOR_SIZE * 8) with 4096. lia. }
  rewrite Z.add_0_r.
  destruct ((0 <=? start) && (start <? Z.of_nat (length d))) eqn:E3.
  2: { apply andb_false_iff in E3 as [E3|E3]; lia. }
  destruct (start <? 0) eqn:E4; [lia|].
  rewrite list_lookup_insert_eq by lia.
  replace (8 * (nbits / 8) mod (SECTOR_SIZE * 8) / 8) with (nbits / 8).
  2: { rewrite Z.mod_small by (change (SECTOR_SIZE * 8) with 4096; lia).
       rewrite Z.mul_comm, Z.div_mul by lia. reflexivity. }
  replace (8 * (nbits / 8) mod 8) with 0.
  2: { rewrite Z.mul_comm, Z.mod_mul by lia. reflexivity. }
  rewrite byte_at_set_byte.
  2: { unfold memset, zeros. rewrite length_app, length_replicate, length_drop,
         length_replicate. lia. }
  assert (nbits mod 8 = 2 ∨ nbits mod 8 = 3 ∨ nbits mod 8 = 4 ∨ nbits mod 8 = 5
          ∨ nbits mod 8 = 6 ∨ nbits mod 8 = 7)
    as [->|[->|[->|[->|[->| ->]]]]] by lia; reflexivity.
Qed.

(** The sector bitmap [FS_Boot] writes with it: of the 255 sectors that
    hold the superblock, the bitmaps and the inode table, the sectors 248
    to 253 are left marked free. *)
Lemma format_leaves_metadata_sectors_free :
  DATABLOCK_START_SECTOR = 255
  ∧ map (bitmap_bit (disk fresh_volume) SECTOR_BITMAP_START_SECTOR)
        [247; 248; 249; 250; 251; 252; 253; 254; 255]
    = [1; 0; 0; 0; 0; 0; 0; 1; 0].
Proof. split; vm_compute; reflexivity. Qed.

(** ** Unlinking *)

(** C2: [File_Unlink] of a closed regular file that holds five bytes
    returns -1 with [E_DIR_NOT_EMPTY]; the same file unlinked before
    anything is written to it is removed. *)
Theorem File_Unlink_refuses_nonempty_file :
  ∀ e0 junk,
    observe (unlink_written junk (initial_state e0))
    = Done ([0; 0; 0; 5; 0; -1], E_DIR_NOT_EMPTY)
    ∧ observe (unlink_empty junk (initial_state e0)) = Done ([0; 0; 0], e0).
Proof. intros e0 junk. split; vm_compute; reflexivity. Qed.

(** [remove_inode] applies its size test whatever the type. *)
Lemma remove_inode_nonempty `{Geometry} type parent_inode child_inode s buf base :
  inode_at (disk s) child_inode buf base →
  inode_type buf base = type →
  inode_size buf base ≠ 0 →
  remove_inode type parent_inode child_inode s = Done (-2, s).
Proof.
  intros (Hread & Hassert & ->) Htype Hsize.
  unfold remove_inode, getInodeHelper, bind, get_disk, ret.
  rewrite Hread, Hassert, Htype, Z.eqb_refl. cbn [negb].
  destruct (inode_size buf _ =? 0) eqn:E; [lia|]. reflexivity.
Qed.

(** [File_Unlink] of any closed regular file that is not empty. *)
Lemma File_Unlink_nonempty `{Geometry} junk file s r c buf base :
  follow_path (disk s) file = Done r →
  fp_last_inode r = Some c → 0 ≤ fp_ret r → 0 ≤ c →
  is_file_open c (open_files s) = 0 →
  inode_at (disk s) c buf base →
  inode_type buf base = 0 →
  inode_size buf base ≠ 0 →
  File_Unlink junk file s = Done (-1, set_errno E_DIR_NOT_EMPTY s).
Proof.
  intros Hpath Hc Hparent Hchild Hclosed Hat Htype Hsize.
  unfold File_Unlink, delete_helper, bind, pure_disk, get_files, fail_with.
  rewrite Hpath. unfold child_of. rewrite Hc, Hclosed.
  change (0 =? 1) with false. cbv iota.
  destruct (c <? 0) eqn:E1; [lia|].
  destruct (0 <=? fp_ret r) eqn:E2; [|lia].
  pose proof (remove_inode_nonempty 0 (fp_ret r) c s buf base Hat Htype Hsize)
    as Hrm.
  rewrite Hrm. change (-2 =? 0) with false. cbv beta iota.
  rewrite Hrm. reflexivity.
Qed.

(** [Dir_Unlink] called with the address of the literal itself. *)
Lemma Dir_Unlink_root_literal `{Geometry} junk s :
  Dir_Unlink junk RootLiteral s = Done (-1, set_errno E_ROOT_DIR s).
Proof. reflexivity. Qed.

(** The path ["/"] resolves to the root itself. *)
Lemma follow_path_root `{Geometry} d cb :
  Disk_Read d INODE_TABLE_START_SECTOR = Some cb →
  follow_path d "/" = Done (Build_path_result 0 (Some 0) None).
Proof.
  intros Hread. unfold follow_path. change (c_str "/") with [47].
  cbv iota. rewrite Hread. reflexivity.
Qed.

(** [Dir_Unlink] on any other pointer to ["/"], as long as one entry of
    the open-file table is free. *)
Lemma Dir_Unlink_root_chars `{Geometry} junk s cb k ek :
  Disk_Read (disk s) INODE_TABLE_START_SECTOR = Some cb →
  open_files s !! k = Some ek → f_inode ek = 0 →
  Dir_Unlink junk (Chars "/") s = Done (-1, set_errno E_FILE_IN_USE s).
Proof.
  intros Hread Hk Hfree.
  unfold Dir_Unlink, delete_helper, bind, pure_disk, get_files, fail_with.
  cbn [same_pointer_as_root_literal chars_of].
  rewrite (follow_path_root _ _ Hread). cbn [child_of fp_last_inode].
  rewrite <- Hfree, (is_file_open_entry _ _ _ Hk). reflexivity.
Qed.

(** C7: [Dir_Unlink] on a string ["/"] held in the caller's own storage.
    The pointer differs from the literal's, so the call goes on to
    [delete_helper], where [is_file_open(0)] matches a free entry of the
    table: on a fresh volume the result is -1 with [E_FILE_IN_USE]. *)
Theorem Dir_Unlink_root_string_in_use :
  ∀ e0 junk,
    chars_of (Chars "/") = chars_of RootLiteral
    ∧ observe (unlink_root junk (initial_state e0)) = Done ((0, -1), E_FILE_IN_USE).
Proof. intros e0 junk. split; [reflexivity|]. vm_compute. reflexivity. Qed.

(** ** Directories *)

(** Whenever [Dir_Read] returns, it returns -1 and the caller's buffer is
    as it was. *)
Lemma Dir_Read_returns_minus_one `{Geometry} junk junk' path buffer n s r s' :
  Dir_Read junk junk' path buffer n s = Done (r, s') → r = (-1, buffer).
Proof.
  unfold Dir_Read, bind, pure_disk, get_disk, ret, fail_with, crash.
  destruct (follow_path (disk s) path) as [p|]; [|discriminate].
  destruct (Disk_Read _ _); [|by intros [= <- _]].
  destruct (offset_in_sector _); [|discriminate].
  destruct (Dir_Size junk' path s) as [[sz s1]|]; [|discriminate].
  destruct (n <? sz); [by intros [= <- _]|].
  destruct (dir_read_loop _ _ _ _ _ _); [by intros [= <- _]|discriminate].
Qed.

(** C3: [Dir_Read] of the root of a freshly formatted volume, with a
    buffer of 512 bytes: [Dir_Size] is 0, and [Dir_Read] returns -1, not
    0; the buffer and [osErrno] are untouched. *)
Theorem Dir_Read_root_returns_minus_one :
  ∀ e0 junk junk' buffer,
    observe (read_root junk junk' buffer 512 (initial_state e0))
    = Done ((0, 0, (-1, buffer)), e0).
Proof. intros e0 junk junk' buffer. vm_compute. reflexivity. Qed.

(** ** Reading *)

Lemma read_bytes_count fuel temp bb count size data :
  0 ≤ bb → 512 - bb ≤ Z.of_nat fuel →
  ∃ data',
    read_bytes fuel temp bb count size data
    = (count + Z.max 0 (Z.min (512 - bb) (size - count)), data')
    ∧ Z.of_nat (length data')
      = Z.of_nat (length data) + Z.max 0 (Z.min (512 - bb) (size - count)).
Proof.
  revert bb count data.
  induction fuel as [|fuel IH]; intros bb count data Hbb Hfuel; simpl.
  - exists data. split; [f_equal|]; lia.
  - destruct ((bb <? 512) && (count <? size)) eqn:E.
    + apply andb_prop in E as [E1 E2].
      destruct (IH (bb + 1) (count + 1) (data ++ [byte_at temp bb]))
        as (data' & Heq & Hlen); [lia..|].
      exists data'. rewrite Heq. rewrite Hlen, length_app. simpl.
      split; [f_equal|]; lia.
    + exists data. apply andb_false_iff in E.
      split; [f_equal|]; destruct E; lia.
Qed.

Lemma file_read_loop_eq left d nbuf node pos size bs count temp data :
  file_read_loop left d nbuf node pos size bs count temp data =
  if count <? size then
    match left with
    | O => Fault OutOfBounds
    | S left' =>
        let sec := inode_data nbuf node bs in
        if sec =? 0 then Done (count, data)
        else
          let temp := Disk_Read_ d sec temp in
          let beginByte := if count =? 0 then Z.rem pos 512 else 0 in
          if beginByte <? 0 then Fault OutOfBounds
          else
            let '(count, data) := read_bytes 512 temp beginByte count size data in
            file_read_loop left' d nbuf node pos size (bs + 1) count temp data
    end
  else Done (count, data).
Proof. destruct left; reflexivity. Qed.

(** The count the outer loop of [File_Read] ends with: the request, cut at
    the end of the run of nonzero entries of [node->data]. *)
Lemma file_read_loop_count d nbuf node pos size :
  0 ≤ pos →
  ∀ left bs count temp data,
    0 ≤ count ≤ size →
    let o := if count =? 0 then Z.rem pos 512 else 0 in
    let total :=
      Z.min size
        (count + Z.max 0 (512 * Z.of_nat (data_run left nbuf node bs) - o)) in
    (size ≤ count + Z.max 0 (512 * Z.of_nat (data_run left nbuf node bs) - o)
     ∨ (data_run left nbuf node bs < left)%nat) →
    ∃ data',
      file_read_loop left d nbuf node pos size bs count temp data
      = Done (total, data')
      ∧ Z.of_nat (length data') = Z.of_nat (length data) + (total - count).
Proof.
  intros Hpos.
  assert (Hrem : 0 ≤ Z.rem pos 512 < 512) by (apply Z.rem_bound_pos; lia).
  induction left as [|left IH]; intros bs count temp data Hcount o total Hstop;
    rewrite file_read_loop_eq; subst total;
    assert (Ho : 0 ≤ o < 512) by (subst o; destruct (count =? 0); lia);
    cbn [data_run] in *.
  - destruct (count <? size) eqn:E; [lia|].
    exists data. split; [f_equal; f_equal|]; lia.
  - destruct (count <? size) eqn:E.
    2: { exists data. split; [f_equal; f_equal|]; lia. }
    cbv zeta.
    destruct (inode_data nbuf node bs =? 0) eqn:Esec.
    { exists data. split; [f_equal; f_equal|]; lia. }
    fold o.
    destruct (o <? 0) eqn:Eo; [lia|].
    destruct (read_bytes_count 512
                (Disk_Read_ d (inode_data nbuf node bs) temp) o count size data)
      as (data1 & Heq & Hlen); [lia..|].
    rewrite Heq.
    set (k := Z.max 0 (Z.min (512 - o) (size - count))) in *.
    assert (Hk : 0 < k) by lia.
    specialize (IH (bs + 1) (count + k)
                  (Disk_Read_ d (inode_data nbuf node bs) temp) data1).
    cbv zeta in IH. destruct (count + k =? 0) eqn:Ez; [lia|].
    destruct IH as (data' & Heq' & Hlen'); [lia|lia|].
    exists data'. rewrite Heq'.
    split; [f_equal; f_equal|]; lia.
Qed.

Section Read.
Context {geo : Geometry}.

(** C6, as the code has it: for an open descriptor at position [pos]
    and a request of [n >= 0] bytes, [File_Read] transfers
    [min(n, bytes_in_run)] bytes, where [bytes_in_run] counts the bytes
    from [pos] to the end of the last sector of the run of nonzero
    [data[]] entries that starts at index [pos / 512]; it returns that
    count and advances [pos] by it.  The size of the inode plays no part,
    so a request that reaches beyond the size of the file is served past
    its end and leaves [pos] above the size.
    (The run must end inside [data[]] unless the request ends first.) *)
Theorem File_Read_count_by_sector_run s fd e n buf base :
  lookup_fd (open_files s) fd = Some e →
  f_inode e ≠ 0 →
  inode_at (disk s) (f_inode e) buf base →
  0 ≤ f_pos e → 0 ≤ n →
  n ≤ bytes_in_run buf base (f_pos e) ∨ run_ends_in_array buf base (f_pos e) →
  ∃ data,
    File_Read fd n s
    = Done ((Z.min n (bytes_in_run buf base (f_pos e)), data),
            set_open_files
              (store_fd (open_files s) fd
                 {| f_inode := f_inode e; f_size := f_size e;
                    f_pos := f_pos e + Z.min n (bytes_in_run buf base (f_pos e)) |})
              s)
    ∧ Z.of_nat (length data) = Z.min n (bytes_in_run buf base (f_pos e)).
Proof.
  intros Hfd Hopen (Hread & Hassert & ->) Hpos Hn Hstop.
  assert (Hq : 0 ≤ f_pos e ÷ 512) by (apply Z.quot_pos; lia).
  unfold bytes_in_run, run_ends_in_array in *.
  set (b := f_pos e ÷ 512) in *.
  set (left := Z.to_nat (MAX_SECTORS_PER_FILE - b)) in *.
  set (node := (f_inode e - inode_start_entry_of (inode_sector_of (f_inode e)))
               * sizeof_inode) in *.
  destruct (file_read_loop_count (disk s) buf node (f_pos e) n Hpos
              left b 0 (zeros 512) []) as (data & Heq & Hlen).
  { lia. }
  { change (0 =? 0) with true. cbv iota.
    destruct Hstop as [H|H]; [left; lia|right; subst left; lia]. }
  change (0 =? 0) with true in Heq, Hlen. cbv iota in Heq, Hlen.
  rewrite Z.add_0_l in Heq, Hlen.
  exists data. split; [|simpl in Hlen; lia].
  unfold File_Read, bind, file_entry, get_disk, ret, set_file_entry, crash.
  rewrite Hfd. destruct (f_inode e =? 0) eqn:E0; [lia|].
  rewrite Hread, Hassert. fold node b left.
  destruct (b <? 0) eqn:Eb; [lia|]. cbn [andb].
  rewrite Heq. reflexivity.
Qed.

End Read.

Lemma File_Read_count_by_sector_run_witness :
  ∃ data,
    File_Read 0 10 reopened_volume
    = Done ((10, data),
            set_open_files
              (store_fd (open_files reopened_volume) 0
                 {| f_inode := 1; f_size := 5; f_pos := 10 |})
              reopened_volume)
    ∧ Z.of_nat (length data) = 10.
Proof.
  destruct (File_Read_count_by_sector_run reopened_volume 0
              {| f_inode := 1; f_size := 5; f_pos := 0 |} 10
              (Disk_Read_ (disk reopened_volume) 5 []) 128)
    as (data & Heq & Hlen).
  - vm_compute; reflexivity.
  - simpl; lia.
  - unfold inode_at. split; [|split]; vm_compute; reflexivity.
  - simpl; lia.
  - lia.
  - left. vm_compute. discriminate.
  - exists data. cbn [f_inode f_size f_pos] in Heq, Hlen.
    assert (Hc : Z.min 10 (bytes_in_run (Disk_Read_ (disk reopened_volume) 5 []) 128 0)
                 = 10) by (vm_compute; reflexivity).
    rewrite Hc in Heq, Hlen. split; [exact Heq|exact Hlen].
Defined.

(** C6 as stated fails on a file of five bytes opened afresh: with
    [pos = 0] and [size = 5], both in the table and in the inode,
    [File_Read(fd, buf, 10)] returns 10, not [min(10, 5 - 0)], and hands
    over the five bytes of the file followed by five bytes that lie past
    its end. *)
Lemma File_Read_reads_past_size :
  lookup_fd (open_files reopened_volume) 0
  = Some {| f_inode := 1; f_size := 5; f_pos := 0 |}
  ∧ inode_size (Disk_Read_ (disk reopened_volume) (inode_sector_of 1) []) 128 = 5
  ∧ observe (File_Read 0 10 reopened_volume)
    = Done ((10, c_str "hello" ++ [0; 0; 0; 0; 0]), E_GENERAL)
  ∧ 10 ≠ Z.min 10 (5 - 0).
Proof.
  split; [|split; [|split]]; vm_compute; (reflexivity || discriminate).
Qed.

(** The over-read leaves the descriptor at position 10 of a file of five
    bytes, a position that [File_Seek] refuses on the same descriptor. *)
Lemma File_Read_leaves_position_past_size :
  lookup_fd (open_files (final_state reopened_volume
                           (File_Read 0 10 reopened_volume))) 0
  = Some {| f_inode := 1; f_size := 5; f_pos := 10 |}
  ∧ observe (File_Seek 0 10 (final_state reopened_volume
                               (File_Read 0 10 reopened_volume)))
    = Done (-1, E_SEEK_OUT_OF_BOUNDS).
Proof. split; vm_compute; reflexivity. Qed.

(** ** Opening files *)

Section Open.
Context {geo : Geometry}.

(** [File_Open] on a path that resolves to no inode. *)
Lemma File_Open_not_found junk file s r c :
  0 ≤ new_file_fd (open_files s) →
  follow_path (disk s) file = Done r →
  fp_last_inode r = Some c → c < 0 →
  File_Open junk file s = Done (-1, set_errno E_NO_SUCH_FILE s).
Proof.
  intros Hfd Hpath Hc Hneg.
  unfold File_Open, bind, get_files, pure_disk, fail_with.
  destruct (new_file_fd (open_files s) <? 0) eqn:E; [lia|].
  rewrite Hpath. unfold child_of. rewrite Hc.
  destruct (0 <=? c) eqn:Ec; [lia|]. reflexivity.
Qed.

(** [File_Open] with no free entry, and on a path that resolves to
    something else than a regular file. *)
Lemma File_Open_table_full junk file s :
  new_file_fd (open_files s) < 0 →
  File_Open junk file s = Done (-1, set_errno E_TOO_MANY_OPEN_FILES s).
Proof.
  intros Hfull. unfold File_Open, bind, get_files, fail_with.
  destruct (new_file_fd (open_files s) <? 0) eqn:E; [done|lia].
Qed.

Lemma File_Open_on_directory junk file s r c buf base :
  0 ≤ new_file_fd (open_files s) →
  follow_path (disk s) file = Done r →
  fp_last_inode r = Some c → 0 ≤ c →
  inode_at (disk s) c buf base →
  inode_type buf base ≠ 0 →
  File_Open junk file s = Done (-1, set_errno E_GENERAL s).
Proof.
  intros Hfd Hpath Hc Hpos (Hread & Hassert & ->) Htype.
  unfold File_Open, bind, get_files, pure_disk, get_disk, fail_with.
  destruct (new_file_fd (open_files s) <? 0) eqn:E; [lia|].
  rewrite Hpath. unfold child_of. rewrite Hc.
  destruct (0 <=? c) eqn:Ec; [|lia].
  rewrite Hread, Hassert.
  destruct (inode_type buf _ =? 0) eqn:Et; [lia|]. reflexivity.
Qed.

(** C10: a call of [File_Open] that returns -1 leaves every entry of the
    open-file table (and the disk) as it was. *)
Theorem File_Open_failure_keeps_table junk file s s' :
  File_Open junk file s = Done (-1, s') →
  open_files s' = open_files s ∧ disk s' = disk s.
Proof.
  unfold File_Open, bind, get_files, pure_disk, get_disk, fail_with,
    set_file_entry, ret, crash.
  destruct (new_file_fd (open_files s) <? 0) eqn:Efd.
  { intros [= <-]. done. }
  destruct (follow_path (disk s) file) as [r|f]; [|discriminate].
  destruct (0 <=? child_of junk r); [|intros [= <-]; done].
  destruct (Disk_Read (disk s) (inode_sector_of (child_of junk r)));
    [|intros [= <-]; done].
  destruct (offset_in_sector _); [|discriminate].
  destruct (negb _); [intros [= <-]; done|].
  intros [= Hfd _]. lia.
Qed.

(** C9: a file that is already open on descriptor [j] can be opened again.
    When the path resolves to inode [c], a regular file, and some entry of
    the table is free, [File_Open] returns a descriptor [fd] other than
    [j]; the entry [fd] holds [c], the size of the inode and position 0,
    and no other entry, nor the disk, nor [osErrno] changes. *)
Theorem File_Open_already_open junk file s r c buf base j ej k ek :
  follow_path (disk s) file = Done r →
  fp_last_inode r = Some c →
  inode_at (disk s) c buf base →
  inode_type buf base = 0 →
  lookup_fd (open_files s) j = Some ej → f_inode ej = c → 0 < c →
  lookup_fd (open_files s) k = Some ek → f_inode ek ≤ 0 →
  ∃ fd s',
    File_Open junk file s = Done (fd, s')
    ∧ 0 ≤ fd ∧ fd ≠ j
    ∧ lookup_fd (open_files s') fd
      = Some {| f_inode := c; f_size := inode_size buf base; f_pos := 0 |}
    ∧ (∀ i, i ≠ fd → lookup_fd (open_files s') i = lookup_fd (open_files s) i)
    ∧ disk s' = disk s ∧ osErrno s' = osErrno s.
Proof.
  intros Hpath Hc (Hread & Hassert & ->) Htype Hj Hjc Hpos Hk Hfree.
  assert (Hk0 : 0 ≤ k) by (by eapply lookup_fd_nonneg).
  unfold lookup_fd in Hk. destruct (k <? 0) eqn:Ek; [lia|].
  destruct (new_file_fd_from_first 0 _ _ _ Hk Hfree) as (k0 & e0 & Hfd & Hl0 & Hf0).
  set (fd := Z.of_nat k0).
  assert (Hlfd : lookup_fd (open_files s) fd = Some e0).
  { unfold lookup_fd, fd. destruct (Z.of_nat k0 <? 0) eqn:E; [lia|].
    by rewrite Nat2Z.id. }
  exists fd. eexists. split.
  - unfold File_Open, bind, get_files, pure_disk, get_disk, fail_with,
      set_file_entry, ret, crash.
    unfold new_file_fd. rewrite Hfd. rewrite Z.add_0_l. fold fd.
    destruct (fd <? 0) eqn:E; [lia|].
    rewrite Hpath. unfold child_of. rewrite Hc.
    destruct (0 <=? c) eqn:Ec; [|lia].
    rewrite Hread, Hassert, Htype. simpl. reflexivity.
  - simpl. split; [lia|]. split.
    { intros ->. rewrite Hlfd in Hj. injection Hj as ->. lia. }
    split; [by eapply lookup_store_eq|].
    split; [|done].
    intros i Hi. apply lookup_store_ne; [lia|done].
Qed.

End Open.

Lemma File_Open_failure_keeps_table_witness :
  File_Open 0 "/nope" fresh_volume
  = Done (-1, set_errno E_NO_SUCH_FILE fresh_volume)
  ∧ open_files (set_errno E_NO_SUCH_FILE fresh_volume) = open_files fresh_volume
  ∧ disk (set_errno E_NO_SUCH_FILE fresh_volume) = disk fresh_volume.
Proof.
  assert (H : File_Open 0 "/nope" fresh_volume
              = Done (-1, set_errno E_NO_SUCH_FILE fresh_volume)).
  { apply (File_Open_not_found 0 "/nope" fresh_volume
             (Build_path_result 0 (Some (-1)) (Some (c_str "nope"))) (-1)).
    - vm_compute; discriminate.
    - vm_compute; reflexivity.
    - reflexivity.
    - lia. }
  split; [exact H|].
  exact (File_Open_failure_keeps_table 0 "/nope" fresh_volume
           (set_errno E_NO_SUCH_FILE fresh_volume) H).
Defined.

Lemma File_Open_already_open_witness :
  ∃ fd s',
    File_Open 0 "/a.txt" opened_volume = Done (fd, s')
    ∧ 0 ≤ fd ∧ fd ≠ 0
    ∧ lookup_fd (open_files s') fd
      = Some {| f_inode := 1;
                f_size := inode_size (Disk_Read_ (disk opened_volume) 5 []) 128;
                f_pos := 0 |}
    ∧ (∀ i, i ≠ fd → lookup_fd (open_files s') i
                     = lookup_fd (open_files opened_volume) i)
    ∧ disk s' = disk opened_volume ∧ osErrno s' = osErrno opened_volume.
Proof.
  apply (File_Open_already_open 0 "/a.txt" opened_volume
           (Build_path_result 0 (Some 1) (Some (c_str "a.txt"))) 1
           (Disk_Read_ (disk opened_volume) 5 []) 128
           0 {| f_inode := 1; f_size := 5; f_pos := 5 |}
           1 free_entry).
  - vm_compute; reflexivity.
  - reflexivity.
  - unfold inode_at. split; [|split]; vm_compute; reflexivity.
  - vm_compute; reflexivity.
  - vm_compute; reflexivity.
  - reflexivity.
  - lia.
  - vm_compute; reflexivity.
  - simpl; lia.
Defined.

(** * Further properties *)

(** ** Paths *)

Lemma c_str_slash s : c_str (String "/" s) = 47 :: c_str s.
Proof. reflexivity. Qed.

Section PathProps.
Context {geo : Geometry}.

(** Empty tokens play no part in the walk. *)
Lemma follow_tokens_skip_empty d tokens parent child cs cb lf :
  follow_tokens d (List.filter nonempty_token tokens) parent child cs cb lf
  = follow_tokens d tokens parent child cs cb lf.
Proof.
  revert parent child cs cb lf.
  induction tokens as [|t tokens IH]; intros parent child cs cb lf; [done|].
  destruct t as [|c t]; simpl; [apply IH|].
  destruct (illegal_filename (c :: t)); [done|].
  destruct (child <? 0); [done|].
  destruct (find_child_inode d child (c :: t) cs cb) as [[[c' cs'] cb']|]; [|done].
  apply IH.
Qed.

Lemma path_components_Some p cs :
  path_components p = Some cs →
  ∃ rest, c_str p = 47 :: rest
          ∧ cs = List.filter nonempty_token
                   (strsep_all (take (Z.to_nat (MAX_PATH - 1)) rest) []).
Proof.
  unfold path_components.
  destruct (c_str p) as [|a rest]; [discriminate|].
  destruct a as [|a|a]; try discriminate.
  do 6 (destruct a as [a|a|]; try discriminate).
  intros [= <-]. by exists rest.
Qed.

(** X1: two absolute paths with the same nonempty components resolve
    alike: doubled and trailing slashes are ignored. *)
Theorem follow_path_same_components d p q cs :
  path_components p = Some cs →
  path_components q = Some cs →
  follow_path d p = follow_path d q.
Proof.
  intros (rp & Hp & Hcp)%path_components_Some (rq & Hq & Hcq)%path_components_Some.
  unfold follow_path. rewrite Hp, Hq.
  destruct (Disk_Read d INODE_TABLE_START_SECTOR); [|done].
  rewrite <- (follow_tokens_skip_empty d (strsep_all (take _ rp) _)).
  rewrite <- (follow_tokens_skip_empty d (strsep_all (take _ rq) _)).
  by rewrite <- Hcp, <- Hcq.
Qed.

(** A walk over tokens one of which has an illegal name never stores a
    child. *)
Lemma follow_tokens_illegal d tokens parent child cs cb lf t r :
  t ∈ tokens → nonempty_token t = true → illegal_filename t = true →
  follow_tokens d tokens parent child cs cb lf = Done r →
  fp_ret r = -1 ∧ fp_last_inode r = None.
Proof.
  revert parent child cs cb lf.
  induction tokens as [|u tokens IH]; intros parent child cs cb lf Hin Hne Hill.
  { by apply elem_of_nil in Hin. }
  apply elem_of_cons in Hin as [<-|Hin].
  - destruct t as [|c t]; [discriminate|]. simpl. rewrite Hill.
    by intros [= <-].
  - destruct u as [|c u]; simpl; [by apply IH|].
    destruct (illegal_filename (c :: u)); [by intros [= <-]|].
    destruct (child <? 0); [by intros [= <-]|].
    destruct (find_child_inode d child (c :: u) cs cb) as [[[c' cs'] cb']|];
      [by apply IH|discriminate].
Qed.

(** X2: a path that is not absolute, or one of whose components has an
    illegal name, never resolves: if [follow_path] returns, it returns -1
    and stores no child. *)
Theorem follow_path_bad_path d p r :
  (path_components p = None
   ∨ ∃ cs t, path_components p = Some cs ∧ t ∈ cs ∧ illegal_filename t = true) →
  follow_path d p = Done r →
  fp_ret r = -1 ∧ fp_last_inode r = None.
Proof.
  intros [Hbad|(cs & t & (rest & Hp & ->)%path_components_Some & Hin & Hill)].
  - revert Hbad. unfold path_components, follow_path.
    destruct (c_str p) as [|a rp]; [by intros _ [= <-]|].
    destruct a as [|a|a]; try by intros _ [= <-].
    do 6 (destruct a as [a|a|]; try by intros _ [= <-]).
    discriminate.
  - unfold follow_path. rewrite Hp.
    destruct (Disk_Read d INODE_TABLE_START_SECTOR); [|by intros [= <-]].
    apply list_elem_of_In, filter_In in Hin as [Hin Hne].
    apply list_elem_of_In in Hin.
    by eapply follow_tokens_illegal.
Qed.

(** The walk keeps a parent that is an inode number, and a child that is
    at least -1 when it ends well. *)
Lemma follow_tokens_range d tokens parent child cs cb lf r c :
  (parent = -1 ∧ child = 0) ∨ 0 ≤ parent →
  follow_tokens d tokens parent child cs cb lf = Done r →
  fp_last_inode r = Some c →
  0 ≤ fp_ret r ∧ -1 ≤ c.
Proof.
  revert parent child cs cb lf.
  induction tokens as [|u tokens IH]; intros parent child cs cb lf Hinv; simpl.
  - destruct (child <? -1) eqn:E; intros [= <-]; [discriminate|].
    simpl. intros [= <-]. split; [|lia].
    destruct Hinv as [[-> ->]|Hinv]; [done|].
    destruct ((parent =? -1) && (child =? 0)); lia.
  - destruct u as [|a u]; [by apply IH|].
    destruct (illegal_filename (a :: u)); [by intros [= <-]|].
    destruct (child <? 0) eqn:E; [by intros [= <-]|].
    destruct (find_child_inode d child (a :: u) cs cb) as [[[c' cs'] cb']|];
      [|discriminate].
    apply IH. right. lia.
Qed.

(** X3: what [follow_path] hands back.  Either it returns -1 and stores
    nothing, or it returns a parent inode number [>= 0] and stores a child
    that is an inode number or -1. *)
Theorem follow_path_result d p r :
  follow_path d p = Done r →
  (fp_ret r = -1 ∧ fp_last_inode r = None)
  ∨ (∃ c, fp_last_inode r = Some c ∧ 0 ≤ fp_ret r ∧ -1 ≤ c).
Proof.
  intros Hpath. destruct (fp_last_inode r) as [c|] eqn:Hc.
  - right. exists c. split; [done|]. revert Hpath. unfold follow_path.
    destruct (c_str p) as [|a rp]; [intros [= <-]; discriminate|].
    destruct a as [|a|a]; try (intros [= <-]; discriminate).
    do 6 (destruct a as [a|a|]; try (intros [= <-]; discriminate)).
    destruct (Disk_Read d INODE_TABLE_START_SECTOR);
      [|intros [= <-]; discriminate].
    intros H. eapply follow_tokens_range; [|exact H|exact Hc]. by left.
  - left. split; [|done].
    destruct (Z_lt_le_dec (fp_ret r) 0) as [Hneg|Hpos].
    + revert Hpath Hc. unfold follow_path.
      destruct (c_str p) as [|a rp]; [by intros [= <-]|].
      destruct a as [|a|a]; try by intros [= <-].
      do 6 (destruct a as [a|a|]; try by intros [= <-]).
      destruct (Disk_Read d INODE_TABLE_START_SECTOR); [|by intros [= <-]].
      intros H Hc. by eapply follow_tokens_stores_child.
    + destruct (follow_path_stores_child d p r Hpath Hpos) as [c' Hc'].
      congruence.
Qed.

End PathProps.

Lemma follow_path_same_components_witness :
  follow_path (geo := small_geometry) (disk small_opened) "//a.txt/"
  = follow_path (geo := small_geometry) (disk small_opened) "/a.txt".
Proof.
  apply (follow_path_same_components (geo := small_geometry)
           (disk small_opened) "//a.txt/" "/a.txt" [c_str "a.txt"]).
  - vm_compute; reflexivity.
  - vm_compute; reflexivity.
Defined.

Lemma follow_path_bad_path_witness :
  fp_ret (Build_path_result (-1) None (Some (c_str "d"))) = -1
  ∧ fp_last_inode (Build_path_result (-1) None (Some (c_str "d"))) = None.
Proof.
  apply (follow_path_bad_path (geo := small_geometry)
           (disk small_opened) "/d/bad name"
           (Build_path_result (-1) None (Some (c_str "d")))).
  - right. exists [c_str "d"; c_str "bad name"], (c_str "bad name").
    split; [vm_compute; reflexivity|]. split; [|vm_compute; reflexivity].
    apply elem_of_cons; right; apply elem_of_cons; by left.
  - vm_compute; reflexivity.
Defined.

Lemma follow_path_result_witness :
  (fp_ret (Build_path_result 0 (Some 3) (Some (c_str "a.txt"))) = -1
   ∧ fp_last_inode (Build_path_result 0 (Some 3) (Some (c_str "a.txt"))) = None)
  ∨ (∃ c, fp_last_inode (Build_path_result 0 (Some 3) (Some (c_str "a.txt")))
          = Some c
          ∧ 0 ≤ fp_ret (Build_path_result 0 (Some 3) (Some (c_str "a.txt")))
          ∧ -1 ≤ c).
Proof.
  apply (follow_path_result (geo := small_geometry)
           (disk small_opened) "/a.txt"
           (Build_path_result 0 (Some 3) (Some (c_str "a.txt")))).
  vm_compute; reflexivity.
Defined.

(** ** Creating *)

Section CreateProps.
Context {geo : Geometry}.

(** X4: [File_Create] and [Dir_Create] on a path that is not absolute, or
    that has a component with an illegal name, create nothing: unless the
    walk stops the process, the call returns -1 with [E_CREATE] and leaves
    the disk and the open-file table as they were. *)
Theorem create_bad_path junk type p s :
  (path_components p = None
   ∨ ∃ cs t, path_components p = Some cs ∧ t ∈ cs ∧ illegal_filename t = true) →
  create_file_or_directory junk type p s = Done (-1, set_errno E_CREATE s)
  ∨ ∃ f, create_file_or_directory junk type p s = Fault f.
Proof.
  intros Hbad. unfold create_file_or_directory, bind, pure_disk, fail_with.
  destruct (follow_path (disk s) p) as [r|f] eqn:Hpath; [|right; by exists f].
  destruct (follow_path_bad_path _ _ _ Hbad Hpath) as [Hret Hnone].
  rewrite Hret. left. reflexivity.
Qed.

End CreateProps.

Lemma create_bad_path_witness :
  create_file_or_directory (geo := small_geometry) 0 0 "/bad name" small_opened
  = Done (-1, set_errno E_CREATE small_opened)
  ∨ ∃ f, create_file_or_directory (geo := small_geometry) 0 0 "/bad name"
           small_opened = Fault f.
Proof.
  apply (create_bad_path (geo := small_geometry) 0 0 "/bad name" small_opened).
  right. exists [c_str "bad name"], (c_str "bad name").
  split; [vm_compute; reflexivity|]. split; [|vm_compute; reflexivity].
  apply elem_of_cons; by left.
Defined.

(** ** Descriptors *)

Lemma new_file_fd_from_cases i t :
  (new_file_fd_from i t = -1 ∧ Forall (λ e, 0 < f_inode e) t)
  ∨ (∃ k e, new_file_fd_from i t = i + Z.of_nat k ∧ t !! k = Some e
            ∧ f_inode e ≤ 0 ∧ Forall (λ e', 0 < f_inode e') (take k t)).
Proof.
  revert i. induction t as [|e t IH]; intros i; simpl.
  - left. split; [done|constructor].
  - destruct (f_inode e <=? 0) eqn:E.
    + right. exists 0%nat, e. repeat split; [lia|lia|constructor].
    + destruct (IH (i + 1)) as [[Hm Hall]|(k & e' & Heq & Hl & Hf & Hall)].
      * left. split; [done|]. constructor; [lia|done].
      * right. exists (S k), e'. rewrite Heq. repeat split; [lia|done|done|].
        simpl. constructor; [lia|done].
Qed.

(** X5: [new_file_fd] returns the lowest index whose entry has
    [inode <= 0], and -1 exactly when every entry is in use. *)
Theorem new_file_fd_lowest_free t :
  (new_file_fd t = -1 ∧ Forall (λ e, 0 < f_inode e) t)
  ∨ (∃ k e, new_file_fd t = Z.of_nat k ∧ t !! k = Some e
            ∧ f_inode e ≤ 0 ∧ Forall (λ e', 0 < f_inode e') (take k t)).
Proof.
  destruct (new_file_fd_from_cases 0 t) as [H|(k & e & Heq & H)]; [by left|].
  right. exists k, e. split; [|done]. unfold new_file_fd. lia.
Qed.

Lemma new_file_fd_le t k ek :
  t !! k = Some ek → f_inode ek ≤ 0 → 0 ≤ new_file_fd t ≤ Z.of_nat k.
Proof.
  intros Hk Hfree.
  destruct (new_file_fd_lowest_free t) as [[_ Hall]|(k0 & e0 & -> & Hl & Hf & Hall)].
  - rewrite Forall_lookup in Hall. specialize (Hall _ _ Hk). simpl in Hall. lia.
  - split; [lia|]. destruct (decide (k0 ≤ k)%nat) as [|Hgt]; [lia|].
    rewrite Forall_lookup in Hall.
    assert (take k0 t !! k = Some ek) as Hin by (rewrite lookup_take_lt; [done|lia]).
    specialize (Hall _ _ Hin). simpl in Hall. lia.
Qed.

Lemma new_file_fd_entry t fd :
  new_file_fd t = fd → 0 ≤ fd → ∃ e, lookup_fd t fd = Some e ∧ f_inode e ≤ 0.
Proof.
  intros Hfd Hpos.
  destruct (new_file_fd_lowest_free t) as [[Hm _]|(k & e & Heq & Hl & Hf & _)];
    [lia|].
  exists e. split; [|done]. unfold lookup_fd. rewrite <- Hfd, Heq.
  destruct (Z.of_nat k <? 0) eqn:E; [lia|]. by rewrite Nat2Z.id.
Qed.

(** X6: [File_Close] on an open descriptor returns 0 and frees exactly
    that entry (its size and position stay, the disk and [osErrno] too);
    a second [File_Close] on it returns -1 with [E_BAD_FD], and the next
    descriptor [new_file_fd] hands out is not above the one closed. *)
Theorem File_Close_twice s fd e :
  lookup_fd (open_files s) fd = Some e →
  0 < f_inode e →
  fd ≤ MAX_OPEN_FILES →
  ∃ s1,
    File_Close fd s = Done (0, s1)
    ∧ lookup_fd (open_files s1) fd
      = Some {| f_inode := 0; f_size := f_size e; f_pos := f_pos e |}
    ∧ (∀ i, i ≠ fd → lookup_fd (open_files s1) i = lookup_fd (open_files s) i)
    ∧ disk s1 = disk s ∧ osErrno s1 = osErrno s
    ∧ File_Close fd s1 = Done (-1, set_errno E_BAD_FD s1)
    ∧ 0 ≤ new_file_fd (open_files s1) ≤ fd.
Proof.
  intros Hfd Hopen Hmax.
  pose proof (lookup_fd_nonneg _ _ _ Hfd) as Hpos.
  assert (Hrange : (fd <? 0) || (MAX_OPEN_FILES <? fd) = false).
  { apply orb_false_intro; [apply Z.ltb_ge|apply Z.ltb_ge]; lia. }
  eexists. split.
  { unfold File_Close, bind, file_entry, set_file_entry, ret.
    rewrite Hrange, Hfd. destruct (f_inode e <=? 0) eqn:E; [lia|]. reflexivity. }
  cbn [open_files set_open_files disk osErrno].
  assert (Hnew : lookup_fd (store_fd (open_files s) fd
                   {| f_inode := 0; f_size := f_size e; f_pos := f_pos e |}) fd
                 = Some {| f_inode := 0; f_size := f_size e; f_pos := f_pos e |})
    by (by eapply lookup_store_eq).
  split; [done|]. split.
  { intros i Hi. by apply lookup_store_ne. }
  split; [done|]. split; [done|]. split.
  { eapply File_Close_free_entry; [exact Hnew|done]. }
  unfold lookup_fd in Hnew. destruct (fd <? 0) eqn:E; [lia|].
  pose proof (new_file_fd_le _ _ _ Hnew) as Hle. simpl in Hle. lia.
Qed.

Lemma File_Close_twice_witness :
  ∃ s1,
    File_Close 0 small_opened = Done (0, s1)
    ∧ lookup_fd (open_files s1) 0
      = Some {| f_inode := 0; f_size := 5; f_pos := 5 |}
    ∧ (∀ i, i ≠ 0 → lookup_fd (open_files s1) i
                    = lookup_fd (open_files small_opened) i)
    ∧ disk s1 = disk small_opened ∧ osErrno s1 = osErrno small_opened
    ∧ File_Close 0 s1 = Done (-1, set_errno E_BAD_FD s1)
    ∧ 0 ≤ new_file_fd (open_files s1) ≤ 0.
Proof.
  apply (File_Close_twice small_opened 0 {| f_inode := 3; f_size := 5; f_pos := 5 |}).
  - vm_compute; reflexivity.
  - simpl; lia.
  - vm_compute; discriminate.
Defined.

(** ** Unlinking, continued *)

Section UnlinkProps.
Context {geo : Geometry}.

(** X7: a file that has just been opened cannot be unlinked.  When the
    path resolves and [File_Open] returns a descriptor, [File_Unlink] and
    [Dir_Unlink] on the same path return -1 with [E_FILE_IN_USE] and change
    nothing else. *)
Theorem unlink_after_open junk junk' type p s r c fd s1 :
  follow_path (disk s) p = Done r →
  fp_last_inode r = Some c →
  File_Open junk p s = Done (fd, s1) →
  0 ≤ fd →
  delete_helper junk' type p s1 = Done (-1, set_errno E_FILE_IN_USE s1).
Proof.
  intros Hpath Hc Hopen Hfd.
  assert (Hs1 : disk s1 = disk s
                ∧ ∃ k e, open_files s1 !! k = Some e ∧ f_inode e = c).
  { revert Hopen.
    unfold File_Open, bind, get_files, pure_disk, get_disk, fail_with,
      set_file_entry, ret, crash.
    destruct (new_file_fd (open_files s) <? 0) eqn:Efd;
      [intros [= <- _]; lia|].
    rewrite Hpath. unfold child_of. rewrite Hc.
    destruct (0 <=? c); [|intros [= <- _]; lia].
    destruct (Disk_Read (disk s) (inode_sector_of c)); [|intros [= <- _]; lia].
    destruct (offset_in_sector _); [|discriminate].
    destruct (negb _); [intros [= <- _]; lia|].
    intros [= Hnew <-]. split; [done|].
    destruct (new_file_fd_entry _ _ Hnew Hfd) as (e0 & Hl & _).
    eapply lookup_store_eq in Hl. unfold lookup_fd in Hl.
    destruct (fd <? 0); [discriminate|]. rewrite <- Hnew in Hl.
    eexists _, _. split; [exact Hl|done]. }
  destruct Hs1 as (Hdisk & k & e & Hk & He).
  unfold delete_helper, bind, pure_disk, get_files, fail_with.
  rewrite Hdisk, Hpath. unfold child_of. rewrite Hc.
  rewrite <- He, (is_file_open_entry _ _ _ Hk). reflexivity.
Qed.

(** X8: an unlink of the wrong kind is refused and changes nothing:
    [File_Unlink] on a directory, or [Dir_Unlink] on a regular file, that
    is not open returns -1 with [E_GENERAL]. *)
Theorem unlink_wrong_type junk type p s r c buf base :
  follow_path (disk s) p = Done r →
  fp_last_inode r = Some c → 0 ≤ c →
  is_file_open c (open_files s) = 0 →
  inode_at (disk s) c buf base →
  inode_type buf base ≠ type →
  delete_helper junk type p s = Done (-1, set_errno E_GENERAL s).
Proof.
  intros Hpath Hc Hchild Hclosed (Hread & Hassert & ->) Htype.
  assert (Hparent : 0 ≤ fp_ret r).
  { destruct (follow_path_result _ _ _ Hpath) as [[_ Hn]|(c' & _ & Hp & _)];
      [congruence|done]. }
  assert (Hrm : remove_inode type (fp_ret r) c s = Done (-3, s)).
  { unfold remove_inode, getInodeHelper, bind, get_disk, ret.
    rewrite Hread, Hassert.
    destruct (inode_type buf _ =? type) eqn:E; [lia|]. reflexivity. }
  unfold delete_helper, bind, pure_disk, get_files, fail_with.
  rewrite Hpath. unfold child_of. rewrite Hc, Hclosed.
  change (0 =? 1) with false. cbv iota.
  destruct (c <? 0) eqn:E1; [lia|].
  destruct (0 <=? fp_ret r) eqn:E2; [|lia].
  rewrite Hrm. change (-3 =? 0) with false. cbv beta iota.
  rewrite Hrm. change (-3 =? -2) with false. cbv beta iota.
  rewrite Hrm. reflexivity.
Qed.

(** X9: [Dir_Unlink] of a directory that still has entries returns -1
    with [E_DIR_NOT_EMPTY] and changes nothing. *)
Theorem Dir_Unlink_not_empty junk s p r c buf base :
  follow_path (disk s) p = Done r →
  fp_last_inode r = Some c → 0 ≤ c →
  is_file_open c (open_files s) = 0 →
  inode_at (disk s) c buf base →
  inode_type buf base = 1 →
  inode_size buf base ≠ 0 →
  Dir_Unlink junk (Chars p) s = Done (-1, set_errno E_DIR_NOT_EMPTY s).
Proof.
  intros Hpath Hc Hchild Hclosed Hat Htype Hsize.
  assert (Hparent : 0 ≤ fp_ret r).
  { destruct (follow_path_result _ _ _ Hpath) as [[_ Hn]|(c' & _ & Hp & _)];
      [congruence|done]. }
  pose proof (remove_inode_nonempty 1 (fp_ret r) c s buf base Hat Htype Hsize)
    as Hrm.
  unfold Dir_Unlink, delete_helper, bind, pure_disk, get_files, fail_with.
  cbn [same_pointer_as_root_literal chars_of].
  rewrite Hpath. unfold child_of. rewrite Hc, Hclosed.
  change (0 =? 1) with false. cbv iota.
  destruct (c <? 0) eqn:E1; [lia|].
  destruct (0 <=? fp_ret r) eqn:E2; [|lia].
  rewrite Hrm. change (-2 =? 0) with false. cbv beta iota.
  rewrite Hrm. reflexivity.
Qed.

(** X10: unlinking a name that is not in its directory returns -1 and
    changes nothing; the tag it stores is [E_NO_SUCH_DIR] for
    [File_Unlink] and [E_NO_SUCH_FILE] for [Dir_Unlink]. *)
Theorem unlink_missing junk s p r :
  follow_path (disk s) p = Done r →
  fp_last_inode r = Some (-1) →
  is_file_open (-1) (open_files s) = 0 →
  File_Unlink junk p s = Done (-1, set_errno E_NO_SUCH_DIR s)
  ∧ Dir_Unlink junk (Chars p) s = Done (-1, set_errno E_NO_SUCH_FILE s).
Proof.
  intros Hpath Hc Hclosed.
  unfold File_Unlink, Dir_Unlink, delete_helper, bind, pure_disk, get_files,
    fail_with.
  cbn [same_pointer_as_root_literal chars_of].
  rewrite Hpath. unfold child_of. rewrite Hc, Hclosed. done.
Qed.

End UnlinkProps.

Lemma unlink_after_open_witness :
  delete_helper (geo := small_geometry) 0 0 "/a.txt"
    (set_open_files
       (store_fd (open_files small_opened) 1
          {| f_inode := 3; f_size := 5; f_pos := 0 |}) small_opened)
  = Done (-1, set_errno E_FILE_IN_USE
                (set_open_files
                   (store_fd (open_files small_opened) 1
                      {| f_inode := 3; f_size := 5; f_pos := 0 |}) small_opened)).
Proof.
  apply (unlink_after_open (geo := small_geometry) 0 0 0 "/a.txt" small_opened
           (Build_path_result 0 (Some 3) (Some (c_str "a.txt"))) 3 1).
  - vm_compute; reflexivity.
  - reflexivity.
  - vm_compute; reflexivity.
  - lia.
Defined.

Lemma unlink_wrong_type_witness :
  delete_helper (geo := small_geometry) 0 0 "/d" small_opened
  = Done (-1, set_errno E_GENERAL small_opened).
Proof.
  apply (unlink_wrong_type (geo := small_geometry) 0 0 "/d" small_opened
           (Build_path_result 0 (Some 1) (Some (c_str "d"))) 1
           (Disk_Read_ (disk small_opened) 3 []) 128).
  - vm_compute; reflexivity.
  - reflexivity.
  - lia.
  - vm_compute; reflexivity.
  - unfold inode_at. split; [|split]; vm_compute; reflexivity.
  - vm_compute; discriminate.
Defined.

Lemma Dir_Unlink_not_empty_witness :
  Dir_Unlink (geo := small_geometry) 0 (Chars "/d") small_opened
  = Done (-1, set_errno E_DIR_NOT_EMPTY small_opened).
Proof.
  apply (Dir_Unlink_not_empty (geo := small_geometry) 0 small_opened "/d"
           (Build_path_result 0 (Some 1) (Some (c_str "d"))) 1
           (Disk_Read_ (disk small_opened) 3 []) 128).
  - vm_compute; reflexivity.
  - reflexivity.
  - lia.
  - vm_compute; reflexivity.
  - unfold inode_at. split; [|split]; vm_compute; reflexivity.
  - vm_compute; reflexivity.
  - vm_compute; discriminate.
Defined.

Lemma unlink_missing_witness :
  File_Unlink (geo := small_geometry) 0 "/nope" small_opened
  = Done (-1, set_errno E_NO_SUCH_DIR small_opened)
  ∧ Dir_Unlink (geo := small_geometry) 0 (Chars "/nope") small_opened
    = Done (-1, set_errno E_NO_SUCH_FILE small_opened).
Proof.
  apply (unlink_missing (geo := small_geometry) 0 small_opened "/nope"
           (Build_path_result 0 (Some (-1)) (Some (c_str "nope")))).
  - vm_compute; reflexivity.
  - reflexivity.
  - vm_compute; reflexivity.
Defined.

(** ** Bits of a bitmap *)

Lemma bit_value b k :
  0 ≤ k → Z.land (Z.shiftr b k) 1 = Z.b2z (Z.testbit b k).
Proof.
  intros Hk. change 1 with (Z.ones 1). rewrite Z.land_ones by lia.
  change (2 ^ 1) with 2. rewrite <- Z.bit0_mod, Z.shiftr_spec by lia.
  by rewrite Z.add_0_l.
Qed.

Lemma land_bit_zero b k :
  0 ≤ k → (Z.land b (Z.shiftl 1 k) =? 0) = negb (Z.testbit b k).
Proof.
  intros Hk. rewrite Z.shiftl_1_l.
  destruct (Z.testbit b k) eqn:Hb; simpl.
  - apply Z.eqb_neq. intros H0.
    assert (Hbit : Z.testbit (Z.land b (2 ^ k)) k = true)
      by (by rewrite Z.land_spec, Hb, Z.pow2_bits_true).
    rewrite H0, Z.bits_0 in Hbit. discriminate.
  - apply Z.eqb_eq. apply Z.bits_inj'. intros n Hn.
    rewrite Z.land_spec, Z.bits_0, Z.pow2_bits_eqb by lia.
    destruct (k =? n) eqn:E; [|by rewrite andb_false_r].
    apply Z.eqb_eq in E. subst n. by rewrite Hb.
Qed.

(** Bit [j] of a sector buffer, most significant bit of each byte first. *)
Lemma first_zero_bit_spec b :
  match first_zero_bit bit_indices b with
  | Some k =>
      0 ≤ k ≤ 7 ∧ Z.testbit b (7 - k) = false
      ∧ ∀ k', 0 ≤ k' < k → Z.testbit b (7 - k') = true
  | None => ∀ k', 0 ≤ k' ≤ 7 → Z.testbit b (7 - k') = true
  end.
Proof.
  unfold bit_indices. cbn [first_zero_bit].
  rewrite !land_bit_zero by lia.
  change (7 - 0) with 7. change (7 - 1) with 6. change (7 - 2) with 5.
  change (7 - 3) with 4. change (7 - 4) with 3. change (7 - 5) with 2.
  change (7 - 6) with 1. change (7 - 7) with 0.
  destruct (Z.testbit b 7) eqn:B7; cbn [negb].
  2: { split; [lia|]. split; [done|]. intros; lia. }
  destruct (Z.testbit b 6) eqn:B6; cbn [negb].
  2: { split; [lia|]. split; [done|]. intros k' Hk'.
       assert (k' = 0) as -> by lia. done. }
  destruct (Z.testbit b 5) eqn:B5; cbn [negb].
  2: { split; [lia|]. split; [done|]. intros k' Hk'.
       assert (k' = 0 ∨ k' = 1) as [->| ->] by lia; done. }
  destruct (Z.testbit b 4) eqn:B4; cbn [negb].
  2: { split; [lia|]. split; [done|]. intros k' Hk'.
       assert (k' = 0 ∨ k' = 1 ∨ k' = 2) as [->|[->| ->]] by lia; done. }
  destruct (Z.testbit b 3) eqn:B3; cbn [negb].
  2: { split; [lia|]. split; [done|]. intros k' Hk'.
       assert (k' = 0 ∨ k' = 1 ∨ k' = 2 ∨ k' = 3) as [->|[->|[->| ->]]] by lia;
         done. }
  destruct (Z.testbit b 2) eqn:B2; cbn [negb].
  2: { split; [lia|]. split; [done|]. intros k' Hk'.
       assert (k' = 0 ∨ k' = 1 ∨ k' = 2 ∨ k' = 3 ∨ k' = 4)
         as [->|[->|[->|[->| ->]]]] by lia; done. }
  destruct (Z.testbit b 1) eqn:B1; cbn [negb].
  2: { split; [lia|]. split; [done|]. intros k' Hk'.
       assert (k' = 0 ∨ k' = 1 ∨ k' = 2 ∨ k' = 3 ∨ k' = 4 ∨ k' = 5)
         as [->|[->|[->|[->|[->| ->]]]]] by lia; done. }
  destruct (Z.testbit b 0) eqn:B0; cbn [negb].
  2: { split; [lia|]. split; [done|]. intros k' Hk'.
       assert (k' = 0 ∨ k' = 1 ∨ k' = 2 ∨ k' = 3 ∨ k' = 4 ∨ k' = 5 ∨ k' = 6)
         as [->|[->|[->|[->|[->|[->| ->]]]]]] by lia; done. }
  intros k' Hk'.
  assert (k' = 0 ∨ k' = 1 ∨ k' = 2 ∨ k' = 3 ∨ k' = 4 ∨ k' = 5 ∨ k' = 6 ∨ k' = 7)
    as [->|[->|[->|[->|[->|[->|[->| ->]]]]]]] by lia; done.
Qed.

Lemma testbit_255 k : 0 ≤ k ≤ 7 → Z.testbit 255 k = true.
Proof.
  intros Hk.
  assert (k = 0 ∨ k = 1 ∨ k = 2 ∨ k = 3 ∨ k = 4 ∨ k = 5 ∨ k = 6 ∨ k = 7)
    as [->|[->|[->|[->|[->|[->|[->| ->]]]]]]] by lia; reflexivity.
Qed.

(** The byte loop of [bitmap_first_unused] on one sector: where it stops,
    and what it has seen before. *)
Lemma scan_bytes_spec todo bitmap bb position nbits :
  0 ≤ bb →
  match scan_bytes todo bitmap bb position nbits with
  | Found byte bit pos =>
      bb ≤ byte < bb + Z.of_nat todo ∧ 0 ≤ bit ≤ 7
      ∧ pos = position + 8 * (byte - bb) + bit
      ∧ Z.testbit (byte_at bitmap byte) (7 - bit) = false
      ∧ ∀ j, 8 * bb ≤ j < 8 * byte + bit →
             Z.testbit (byte_at bitmap (j / 8)) (7 - j mod 8) = true
  | Exhausted p n =>
      p = position + 8 * Z.of_nat todo ∧ n = nbits - 8 * Z.of_nat todo
      ∧ ∀ j, 8 * bb ≤ j < 8 * (bb + Z.of_nat todo) →
             Z.testbit (byte_at bitmap (j / 8)) (7 - j mod 8) = true
  end.
Proof.
  revert bb position nbits.
  induction todo as [|todo IH]; intros bb position nbits Hbb.
  { simpl. split; [lia|]. split; [lia|]. intros; lia. }
  cbn [scan_bytes].
  assert (Hfull : (∀ k', 0 ≤ k' ≤ 7 → Z.testbit (byte_at bitmap bb) (7 - k') = true) →
    match scan_bytes todo bitmap (bb + 1) (position + 8) (nbits - 8) with
    | Found byte bit pos =>
        bb ≤ byte < bb + Z.of_nat (S todo) ∧ 0 ≤ bit ≤ 7
        ∧ pos = position + 8 * (byte - bb) + bit
        ∧ Z.testbit (byte_at bitmap byte) (7 - bit) = false
        ∧ ∀ j, 8 * bb ≤ j < 8 * byte + bit →
               Z.testbit (byte_at bitmap (j / 8)) (7 - j mod 8) = true
    | Exhausted p n =>
        p = position + 8 * Z.of_nat (S todo) ∧ n = nbits - 8 * Z.of_nat (S todo)
        ∧ ∀ j, 8 * bb ≤ j < 8 * (bb + Z.of_nat (S todo)) →
               Z.testbit (byte_at bitmap (j / 8)) (7 - j mod 8) = true
    end).
  { intros Hall. specialize (IH (bb + 1) (position + 8) (nbits - 8) ltac:(lia)).
    assert (Hhere : ∀ j, 8 * bb ≤ j < 8 * (bb + 1) →
              Z.testbit (byte_at bitmap (j / 8)) (7 - j mod 8) = true).
    { intros j Hj. replace (j / 8) with bb by (Z.to_euclidean_division_equations; lia).
      apply Hall. Z.to_euclidean_division_equations; lia. }
    destruct (scan_bytes todo bitmap (bb + 1) (position + 8) (nbits - 8))
      as [byte bit pos|p n].
    - destruct IH as (H1 & H2 & H3 & H4 & H5).
      split; [lia|]. split; [lia|]. split; [lia|]. split; [done|].
      intros j Hj. destruct (Z_lt_le_dec j (8 * (bb + 1))); [apply Hhere|apply H5]; lia.
    - destruct IH as (H1 & H2 & H3).
      split; [lia|]. split; [lia|].
      intros j Hj. destruct (Z_lt_le_dec j (8 * (bb + 1))); [apply Hhere|apply H3]; lia. }
  destruct (byte_at bitmap bb =? 255) eqn:E255.
  { apply Hfull. apply Z.eqb_eq in E255. rewrite E255.
    intros k' Hk'. apply testbit_255. lia. }
  pose proof (first_zero_bit_spec (byte_at bitmap bb)) as Hfz.
  destruct (first_zero_bit bit_indices (byte_at bitmap bb)) as [bit|];
    [|by apply Hfull].
  destruct Hfz as (Hb & Hz & Hbefore).
  split; [lia|]. split; [done|]. split; [lia|]. split; [done|].
  intros j Hj. replace (j / 8) with bb by (Z.to_euclidean_division_equations; lia).
  replace (j mod 8) with (j - 8 * bb) by (Z.to_euclidean_division_equations; lia).
  apply Hbefore. lia.
Qed.

(** ** Sectors *)

Lemma wf_diskb_true d : wf_diskb d = true → wf_disk d.
Proof.
  unfold wf_diskb, wf_disk. rewrite forallb_forall, Forall_forall.
  intros H b Hb. apply Nat.eqb_eq, H. by apply list_elem_of_In.
Qed.

Lemma Disk_Read_Some d s b :
  Disk_Read d s = Some b → 0 ≤ s < Z.of_nat (length d) ∧ d !! Z.to_nat s = Some b.
Proof.
  unfold Disk_Read. destruct (s <? 0) eqn:E; [discriminate|]. intros H.
  split; [|done]. apply lookup_lt_Some in H. lia.
Qed.

Lemma Disk_Read_in_range d s :
  0 ≤ s < Z.of_nat (length d) → ∃ b, Disk_Read d s = Some b.
Proof.
  intros Hs. unfold Disk_Read. destruct (s <? 0) eqn:E; [lia|].
  destruct (lookup_lt_is_Some_2 d (Z.to_nat s)) as [b Hb]; [lia|]. by exists b.
Qed.

Lemma Disk_Write_in_range d s b :
  0 ≤ s < Z.of_nat (length d) → Disk_Write d s b = Some (<[Z.to_nat s := b]> d).
Proof.
  intros Hs. unfold Disk_Write.
  destruct ((0 <=? s) && (s <? Z.of_nat (length d))) eqn:E; [done|].
  apply andb_false_iff in E as [E|E]; lia.
Qed.

Lemma Disk_Write_length d s b d' : Disk_Write d s b = Some d' → length d' = length d.
Proof.
  unfold Disk_Write. destruct (_ && _); [|discriminate].
  intros [= <-]. apply length_insert.
Qed.

Lemma Disk_Write__length d s b : length (Disk_Write_ d s b) = length d.
Proof.
  unfold Disk_Write_. destruct (Disk_Write d s b) eqn:E; [|done].
  by eapply Disk_Write_length.
Qed.

Lemma Disk_Read_Write_eq d s b d' :
  Disk_Write d s b = Some d' → Disk_Read d' s = Some b.
Proof.
  unfold Disk_Write, Disk_Read.
  destruct ((0 <=? s) && (s <? Z.of_nat (length d))) eqn:E; [|discriminate].
  apply andb_prop in E as [E1 E2]. intros [= <-].
  destruct (s <? 0) eqn:E3; [lia|]. apply list_lookup_insert_eq. lia.
Qed.

Lemma Disk_Read_Write_ne d s b d' s' :
  Disk_Write d s b = Some d' → s' ≠ s → Disk_Read d' s' = Disk_Read d s'.
Proof.
  unfold Disk_Write, Disk_Read.
  destruct ((0 <=? s) && (s <? Z.of_nat (length d))) eqn:E; [|discriminate].
  apply andb_prop in E as [E1 E2]. intros [= <-] Hne.
  destruct (s' <? 0) eqn:E3; [done|]. apply list_lookup_insert_ne. lia.
Qed.

Lemma Disk_Read_Write__eq d s b b0 :
  Disk_Read d s = Some b0 → Disk_Read (Disk_Write_ d s b) s = Some b.
Proof.
  intros [Hs _]%Disk_Read_Some. unfold Disk_Write_.
  rewrite Disk_Write_in_range by done.
  eapply Disk_Read_Write_eq. by apply Disk_Write_in_range.
Qed.

Lemma Disk_Read_Write__ne d s b s' :
  s' ≠ s → Disk_Read (Disk_Write_ d s b) s' = Disk_Read d s'.
Proof.
  intros Hne. unfold Disk_Write_. destruct (Disk_Write d s b) eqn:E; [|done].
  by eapply Disk_Read_Write_ne.
Qed.

Lemma wf_disk_read d s b : wf_disk d → Disk_Read d s = Some b → length b = 512%nat.
Proof.
  intros Hwf [_ Hl]%Disk_Read_Some. unfold wf_disk in Hwf.
  rewrite Forall_lookup in Hwf. by eapply Hwf.
Qed.

Lemma wf_disk_write d s b d' :
  wf_disk d → length b = 512%nat → Disk_Write d s b = Some d' → wf_disk d'.
Proof.
  unfold Disk_Write. destruct (_ && _); [|discriminate].
  intros Hwf Hb [= <-]. by apply Forall_insert.
Qed.

Lemma wf_disk_write_ d s b :
  wf_disk d → length b = 512%nat → wf_disk (Disk_Write_ d s b).
Proof.
  intros Hwf Hb. unfold Disk_Write_. destruct (Disk_Write d s b) eqn:E; [|done].
  by eapply wf_disk_write.
Qed.

Lemma length_set_byte buf i b : length (set_byte buf i b) = length buf.
Proof. apply length_insert. Qed.

Lemma byte_at_set_byte_ne buf i j b :
  0 ≤ i → 0 ≤ j → i ≠ j → byte_at (set_byte buf i b) j = byte_at buf j.
Proof.
  intros Hi Hj Hne. unfold byte_at, set_byte. rewrite !nth_lookup.
  rewrite list_lookup_insert_ne by lia. reflexivity.
Qed.

Lemma set_byte_same buf i :
  0 ≤ i < Z.of_nat (length buf) → set_byte buf i (byte_at buf i) = buf.
Proof.
  intros Hi. unfold set_byte, byte_at. apply list_insert_id.
  destruct (lookup_lt_is_Some_2 buf (Z.to_nat i)) as [x Hx]; [lia|].
  rewrite Hx. f_equal. rewrite nth_lookup, Hx. reflexivity.
Qed.

Lemma set_byte_set_byte buf i a b :
  set_byte (set_byte buf i a) i b = set_byte buf i b.
Proof. apply list_insert_insert_eq. Qed.

(** ** [bitmap_first_unused] *)

Lemma bitmap_bit_in_sector d start k bm j :
  0 ≤ j < 4096 →
  Disk_Read d (start + k) = Some bm →
  bitmap_bit d start (4096 * k + j)
  = Z.b2z (Z.testbit (byte_at bm (j / 8)) (7 - j mod 8)).
Proof.
  intros Hj Hread. unfold bitmap_bit. change (SECTOR_SIZE * 8) with 4096.
  replace ((4096 * k + j) / 4096) with k
    by (Z.to_euclidean_division_equations; lia).
  rewrite Hread.
  replace ((4096 * k + j) mod 4096) with j
    by (Z.to_euclidean_division_equations; lia).
  replace ((4096 * k + j) mod 8) with (j mod 8)
    by (Z.to_euclidean_division_equations; lia).
  apply bit_value. Z.to_euclidean_division_equations; lia.
Qed.

Lemma bitmap_bit_split i :
  0 ≤ i → i = 4096 * (i / 4096) + i mod 4096 ∧ 0 ≤ i mod 4096 < 4096 ∧ 0 ≤ i / 4096.
Proof. intros Hi. Z.to_euclidean_division_equations; lia. Qed.

(** Where the sector loop stops. *)
Lemma bitmap_first_unused_loop_spec start :
  0 ≤ start →
  ∀ fuel d bs nbits pos d',
    0 ≤ bs →
    bitmap_first_unused_loop fuel d start bs (4096 * bs) nbits = Done (pos, d') →
    (pos = -1 ∧ d' = d
     ∧ ∀ i, 4096 * bs ≤ i < 4096 * bs + nbits → bitmap_bit d start i = 1)
    ∨ (∃ bm,
         4096 * bs ≤ pos
         ∧ Disk_Read d (start + pos / 4096) = Some bm
         ∧ Z.testbit (byte_at bm (pos mod 4096 / 8)) (7 - pos mod 8) = false
         ∧ d' = Disk_Write_ d (start + pos / 4096)
                  (set_byte bm (pos mod 4096 / 8)
                     (Z.lor (byte_at bm (pos mod 4096 / 8))
                        (Z.shiftl 1 (7 - pos mod 8))))
         ∧ ∀ i, 4096 * bs ≤ i < pos → bitmap_bit d start i = 1).
Proof.
  intros Hstart.
  induction fuel as [|fuel IH]; intros d bs nbits pos d' Hbs; [discriminate|].
  cbn [bitmap_first_unused_loop].
  destruct (0 <? nbits) eqn:En.
  2: { intros [= <- <-]. left. split; [done|]. split; [done|]. intros; lia. }
  destruct (Disk_Read d (start + bs)) as [bm|] eqn:Hread.
  2: { destruct (0 <=? start + bs) eqn:E; [discriminate|lia]. }
  pose proof (scan_bytes_spec 512 bm 0 (4096 * bs) nbits ltac:(lia)) as Hscan.
  assert (Hsector : ∀ j, 0 ≤ j < 4096 →
            Z.testbit (byte_at bm (j / 8)) (7 - j mod 8) = true →
            bitmap_bit d start (4096 * bs + j) = 1).
  { intros j Hj Hbit. by rewrite (bitmap_bit_in_sector d start bs bm j), Hbit. }
  destruct (scan_bytes 512 bm 0 (4096 * bs) nbits) as [byte bit p|p n].
  - destruct Hscan as (Hbyte & Hbit & -> & Hzero & Hbefore).
    intros [= <- <-]. right. exists bm.
    replace ((4096 * bs + 8 * (byte - 0) + bit) / 4096) with bs
      by (Z.to_euclidean_division_equations; lia).
    replace ((4096 * bs + 8 * (byte - 0) + bit) mod 4096 / 8) with byte
      by (Z.to_euclidean_division_equations; lia).
    replace ((4096 * bs + 8 * (byte - 0) + bit) mod 8) with bit
      by (Z.to_euclidean_division_equations; lia).
    split; [lia|]. split; [done|]. split; [done|]. split; [done|].
    intros i Hi. replace i with (4096 * bs + (i - 4096 * bs)) by lia.
    apply Hsector; [lia|]. apply Hbefore. lia.
  - destruct Hscan as (-> & -> & Hall).
    replace (4096 * bs + 8 * Z.of_nat 512) with (4096 * (bs + 1)) by lia.
    intros Hloop.
    assert (Hthis : ∀ i, 4096 * bs ≤ i < 4096 * (bs + 1) → bitmap_bit d start i = 1).
    { intros i Hi. replace i with (4096 * bs + (i - 4096 * bs)) by lia.
      apply Hsector; [lia|]. apply Hall. lia. }
    destruct (IH d (bs + 1) _ pos d' ltac:(lia) Hloop)
      as [(-> & -> & Hbits)|(bm' & Hpos & Hr & Hz & Hd & Hbits)].
    + left. split; [done|]. split; [done|]. intros i Hi.
      destruct (Z_lt_le_dec i (4096 * (bs + 1))); [apply Hthis|apply Hbits]; lia.
    + right. exists bm'. split; [lia|]. split; [done|]. split; [done|].
      split; [done|]. intros i Hi.
      destruct (Z_lt_le_dec i (4096 * (bs + 1))); [apply Hthis|apply Hbits]; lia.
Qed.

(** X11: [bitmap_first_unused] hands out the lowest clear bit.  When it
    returns a position, that bit was 0 and is now 1, every lower bit is 1,
    no other bit of the bitmap and no other sector of the disk has
    changed. *)
Theorem bitmap_first_unused_found start num nbits d pos d' :
  0 ≤ start → wf_disk d →
  bitmap_first_unused start num nbits d = Done (pos, d') →
  0 ≤ pos →
  bitmap_bit d start pos = 0
  ∧ bitmap_bit d' start pos = 1
  ∧ (∀ i, 0 ≤ i < pos → bitmap_bit d start i = 1)
  ∧ (∀ i, 0 ≤ i → i ≠ pos → bitmap_bit d' start i = bitmap_bit d start i)
  ∧ (∀ s, s ≠ start + pos / 4096 → Disk_Read d' s = Disk_Read d s)
  ∧ wf_disk d'.
Proof.
  intros Hstart Hwf Hrun Hpos. unfold bitmap_first_unused in Hrun.
  change 0 with (4096 * 0) in Hrun at 2.
  destruct (bitmap_first_unused_loop_spec start Hstart _ d 0 nbits _ d'
              (Z.le_refl 0) Hrun)
    as [(-> & _)|(bm & _ & Hread & Hzero & -> & Hbefore)]; [lia|].
  destruct (bitmap_bit_split pos Hpos) as (Hsplit & Hmod & Hdiv).
  set (k := pos / 4096) in *. set (j := pos mod 4096) in *.
  assert (Hj8 : pos mod 8 = j mod 8)
    by (subst j; Z.to_euclidean_division_equations; lia).
  rewrite Hj8 in *.
  assert (Hbyte : 0 ≤ j / 8 < 512) by (Z.to_euclidean_division_equations; lia).
  assert (Hbit : 0 ≤ 7 - j mod 8 ≤ 7) by (Z.to_euclidean_division_equations; lia).
  pose proof (wf_disk_read _ _ _ Hwf Hread) as Hlen.
  set (bm' := set_byte bm (j / 8)
                (Z.lor (byte_at bm (j / 8)) (Z.shiftl 1 (7 - j mod 8)))).
  assert (Hread' : Disk_Read (Disk_Write_ d (start + k) bm') (start + k) = Some bm')
    by (by eapply Disk_Read_Write__eq).
  split.
  { rewrite Hsplit. fold j. rewrite (bitmap_bit_in_sector d start k bm j) by done.
    by rewrite Hzero. }
  split.
  { rewrite Hsplit. fold j.
    rewrite (bitmap_bit_in_sector _ start k bm' j) by done.
    unfold bm'. rewrite byte_at_set_byte by lia.
    rewrite Z.lor_spec, Z.shiftl_1_l, Z.pow2_bits_true by lia.
    by rewrite orb_true_r. }
  split; [intros i Hi; apply Hbefore; lia|].
  split.
  { intros i Hi Hne.
    destruct (bitmap_bit_split i Hi) as (Hisplit & Himod & Hidiv).
    destruct (decide (i / 4096 = k)) as [Hk|Hk].
    - rewrite Hisplit, Hk.
      rewrite (bitmap_bit_in_sector _ start k bm' _) by done.
      rewrite (bitmap_bit_in_sector d start k bm _) by done.
      f_equal. unfold bm'.
      destruct (decide (i mod 4096 / 8 = j / 8)) as [Hb|Hb].
      + rewrite Hb, byte_at_set_byte by lia.
        rewrite Z.lor_spec, Z.shiftl_1_l, Z.pow2_bits_false;
          [by rewrite orb_false_r|].
        intros Heq. apply Hne. rewrite Hisplit, Hsplit, Hk. fold j.
        Z.to_euclidean_division_equations; lia.
      + rewrite byte_at_set_byte_ne
          by (try done; Z.to_euclidean_division_equations; lia).
        reflexivity.
    - unfold bitmap_bit. change (SECTOR_SIZE * 8) with 4096.
      rewrite Disk_Read_Write__ne by lia. reflexivity. }
  split; [intros s Hs; by apply Disk_Read_Write__ne|].
  apply wf_disk_write_; [done|]. unfold bm'. by rewrite length_set_byte.
Qed.

(** A scan that finds no clear bit leaves the disk as it was. *)
Lemma bitmap_first_unused_none start num nbits d d' :
  0 ≤ start →
  bitmap_first_unused start num nbits d = Done (-1, d') →
  d' = d ∧ ∀ i, 0 ≤ i < nbits → bitmap_bit d start i = 1.
Proof.
  intros Hstart Hrun. unfold bitmap_first_unused in Hrun.
  change 0 with (4096 * 0) in Hrun at 2.
  destruct (bitmap_first_unused_loop_spec start Hstart _ d 0 nbits _ d'
              (Z.le_refl 0) Hrun)
    as [(_ & -> & Hbits)|(bm & Hpos & _)]; [|lia].
  split; [done|]. intros i Hi. apply Hbits. lia.
Qed.

(** X12: [bitmap_first_unused] returns -1 only when every one of the
    [nbits] bits it was asked to scan is 1, and then it changes nothing. *)
Theorem bitmap_first_unused_full start num nbits d d' :
  0 ≤ start →
  bitmap_first_unused start num nbits d = Done (-1, d') →
  d' = d ∧ ∀ i, 0 ≤ i < nbits → bitmap_bit d start i = 1.
Proof. apply bitmap_first_unused_none. Qed.

Lemma bitmap_first_unused_found_witness :
  bitmap_bit (disk small_opened) 2 12 = 0
  ∧ bitmap_bit (Disk_Write_ (disk small_opened) 2
                  (set_byte (Disk_Read_ (disk small_opened) 2 []) 1 248)) 2 12 = 1
  ∧ (∀ i, 0 ≤ i < 12 → bitmap_bit (disk small_opened) 2 i = 1)
  ∧ (∀ i, 0 ≤ i → i ≠ 12 →
          bitmap_bit (Disk_Write_ (disk small_opened) 2
                        (set_byte (Disk_Read_ (disk small_opened) 2 []) 1 248)) 2 i
          = bitmap_bit (disk small_opened) 2 i)
  ∧ (∀ s, s ≠ 2 + 12 / 4096 →
          Disk_Read (Disk_Write_ (disk small_opened) 2
                       (set_byte (Disk_Read_ (disk small_opened) 2 []) 1 248)) s
          = Disk_Read (disk small_opened) s)
  ∧ wf_disk (Disk_Write_ (disk small_opened) 2
               (set_byte (Disk_Read_ (disk small_opened) 2 []) 1 248)).
Proof.
  apply (bitmap_first_unused_found 2 1 8 (disk small_opened) 12).
  - lia.
  - apply wf_diskb_true. vm_compute; reflexivity.
  - vm_compute; reflexivity.
  - lia.
Defined.

Lemma bitmap_first_unused_full_witness :
  [replicate 512 255] = [replicate 512 255]
  ∧ ∀ i, 0 ≤ i < 8 → bitmap_bit [replicate 512 255] 0 i = 1.
Proof.
  apply (bitmap_first_unused_full 0 1 8 [replicate 512 255] [replicate 512 255]).
  - lia.
  - vm_compute; reflexivity.
Defined.

(** ** [bitmap_reset] *)

Lemma bitmap_reset_bits_spec bit :
  0 ≤ bit ≤ 7 → bitmap_reset_bits bit_indices bit = Some bit.
Proof.
  intros Hbit.
  assert (bit = 0 ∨ bit = 1 ∨ bit = 2 ∨ bit = 3 ∨ bit = 4 ∨ bit = 5 ∨ bit = 6
          ∨ bit = 7) as [->|[->|[->|[->|[->|[->|[->| ->]]]]]]] by lia;
    reflexivity.
Qed.

(** What [bitmap_reset] does for a bit index whose sector is on the disk. *)
Lemma bitmap_reset_spec start num ibit d bm :
  wf_disk d → 0 ≤ ibit < 512 * 512 →
  Disk_Read d (start + ibit / 4096) = Some bm →
  ∃ d',
    bitmap_reset start num ibit d = Done (0, d')
    ∧ bitmap_bit d' start (reset_target ibit) = 0
    ∧ (∀ i, 0 ≤ i → i ≠ reset_target ibit →
            bitmap_bit d' start i = bitmap_bit d start i)
    ∧ (∀ s, s ≠ start + ibit / 4096 → Disk_Read d' s = Disk_Read d s)
    ∧ wf_disk d'
    ∧ (ibit < 8 → reset_target ibit = ibit).
Proof.
  intros Hwf Hibit Hread.
  pose proof (wf_disk_read _ _ _ Hwf Hread) as Hlen.
  set (k := ibit / 4096) in *. set (byte := ibit / 512).
  set (bit := ibit mod 8).
  assert (Hk : 0 ≤ k) by (subst k; Z.to_euclidean_division_equations; lia).
  assert (Hbyte : 0 ≤ byte < 512)
    by (subst byte; Z.to_euclidean_division_equations; lia).
  assert (Hbit : 0 ≤ bit ≤ 7)
    by (subst bit; Z.to_euclidean_division_equations; lia).
  set (bm' := set_byte bm byte
                (Z.land (byte_at bm byte) (Z.lnot (Z.shiftl 1 (7 - bit))))).
  exists (Disk_Write_ d (start + k) bm').
  assert (Htarget : reset_target ibit = 4096 * k + (8 * byte + bit)).
  { unfold reset_target. fold k byte bit. lia. }
  assert (Hj : 0 ≤ 8 * byte + bit < 4096) by lia.
  assert (Hj8 : (8 * byte + bit) / 8 = byte ∧ (8 * byte + bit) mod 8 = bit)
    by (Z.to_euclidean_division_equations; lia).
  destruct Hj8 as [Hjb Hjm].
  assert (Hread' : Disk_Read (Disk_Write_ d (start + k) bm') (start + k) = Some bm')
    by (by eapply Disk_Read_Write__eq).
  split.
  { unfold bitmap_reset.
    rewrite Z.quot_div_nonneg, Z.rem_mod_nonneg, Z.quot_div_nonneg by lia.
    change (512 * 8) with 4096. fold k byte bit.
    unfold Disk_Read_. rewrite Hread.
    rewrite bitmap_reset_bits_spec by done.
    destruct ((0 <=? byte) && (byte <? 512)) eqn:E; [done|].
    apply andb_false_iff in E as [E|E]; lia. }
  split.
  { rewrite Htarget, (bitmap_bit_in_sector _ start k bm' _) by done.
    rewrite Hjb, Hjm. unfold bm'. rewrite byte_at_set_byte by lia.
    rewrite Z.land_spec, Z.lnot_spec, Z.shiftl_1_l, Z.pow2_bits_true by lia.
    by rewrite andb_false_r. }
  split.
  { intros i Hi Hne.
    destruct (bitmap_bit_split i Hi) as (Hisplit & Himod & Hidiv).
    destruct (decide (i / 4096 = k)) as [Hik|Hik].
    - rewrite Hisplit, Hik.
      rewrite (bitmap_bit_in_sector _ start k bm' _) by done.
      rewrite (bitmap_bit_in_sector d start k bm _) by done.
      f_equal. unfold bm'.
      destruct (decide (i mod 4096 / 8 = byte)) as [Hb|Hb].
      + rewrite Hb, byte_at_set_byte by lia.
        rewrite Z.land_spec, Z.lnot_spec, Z.shiftl_1_l, Z.pow2_bits_false;
          [by rewrite andb_true_r| |].
        * intros Heq. apply Hne. rewrite Htarget, Hisplit, Hik.
          Z.to_euclidean_division_equations; lia.
        * Z.to_euclidean_division_equations; lia.
      + rewrite byte_at_set_byte_ne
          by (try done; Z.to_euclidean_division_equations; lia).
        reflexivity.
    - unfold bitmap_bit. change (SECTOR_SIZE * 8) with 4096.
      rewrite Disk_Read_Write__ne by lia. reflexivity. }
  split; [intros s Hs; by apply Disk_Read_Write__ne|].
  split.
  { apply wf_disk_write_; [done|]. unfold bm'. by rewrite length_set_byte. }
  intros Hsmall. unfold reset_target. Z.to_euclidean_division_equations; lia.
Qed.

(** X13: which bit [bitmap_reset] clears.  For [ibit >= 0] whose sector
    is on the disk the call returns 0 and clears bit [reset_target ibit],
    that is byte [ibit / 512] (not [ibit / 8]) of the sector, bit
    [ibit mod 8]; no other bit changes.  The bit cleared is [ibit] itself
    when [ibit < 8]. *)
Theorem bitmap_reset_clears_target start num ibit d bm :
  wf_disk d → 0 ≤ ibit < 512 * 512 →
  Disk_Read d (start + ibit / 4096) = Some bm →
  ∃ d',
    bitmap_reset start num ibit d = Done (0, d')
    ∧ bitmap_bit d' start (reset_target ibit) = 0
    ∧ (∀ i, 0 ≤ i → i ≠ reset_target ibit →
            bitmap_bit d' start i = bitmap_bit d start i)
    ∧ (∀ s, s ≠ start + ibit / 4096 → Disk_Read d' s = Disk_Read d s)
    ∧ wf_disk d'
    ∧ (ibit < 8 → reset_target ibit = ibit).
Proof. apply bitmap_reset_spec. Qed.

Lemma bitmap_reset_clears_target_witness :
  ∃ d',
    bitmap_reset 2 1 9 (disk small_opened) = Done (0, d')
    ∧ bitmap_bit d' 2 (reset_target 9) = 0
    ∧ (∀ i, 0 ≤ i → i ≠ reset_target 9 →
            bitmap_bit d' 2 i = bitmap_bit (disk small_opened) 2 i)
    ∧ (∀ s, s ≠ 2 + 9 / 4096 → Disk_Read d' s = Disk_Read (disk small_opened) s)
    ∧ wf_disk d'
    ∧ (9 < 8 → reset_target 9 = 9).
Proof.
  apply (bitmap_reset_clears_target 2 1 9 (disk small_opened)
           (Disk_Read_ (disk small_opened) 2 [])).
  - apply wf_diskb_true. vm_compute; reflexivity.
  - lia.
  - vm_compute; reflexivity.
Defined.

(** The sector loop ends on every bitmap whose sectors are on the disk. *)
Lemma bitmap_first_unused_loop_returns start :
  ∀ fuel d bs position nbits,
    0 ≤ start + bs →
    start + bs + (nbits - 1) / 4096 < Z.of_nat (length d) →
    (Z.to_nat nbits < fuel)%nat →
    ∃ pos d',
      bitmap_first_unused_loop fuel d start bs position nbits = Done (pos, d')
      ∧ length d' = length d
      ∧ (pos = -1 ∨ position ≤ pos < position + 4096 * ((nbits + 4095) / 4096)).
Proof.
  induction fuel as [|fuel IH]; intros d bs position nbits Hbs Hdisk Hfuel; [lia|].
  cbn [bitmap_first_unused_loop].
  destruct (0 <? nbits) eqn:En.
  2: { exists (-1), d. split; [done|]. split; [done|]. by left. }
  apply Z.ltb_lt in En.
  destruct (Disk_Read_in_range d (start + bs)) as [bm Hread].
  { split; [done|]. Z.to_euclidean_division_equations; lia. }
  rewrite Hread.
  pose proof (scan_bytes_spec 512 bm 0 position nbits ltac:(lia)) as Hscan.
  destruct (scan_bytes 512 bm 0 position nbits) as [byte bit p|p n].
  - destruct Hscan as (Hbyte & Hbit & -> & _).
    eexists _, _. split; [done|]. split; [apply Disk_Write__length|].
    right. Z.to_euclidean_division_equations; lia.
  - destruct Hscan as (-> & -> & _).
    destruct (IH d (bs + 1) (position + 8 * Z.of_nat 512)
                (nbits - 8 * Z.of_nat 512)) as (pos & d' & Hrun & Hlen & Hpos).
    + lia.
    + Z.to_euclidean_division_equations; lia.
    + lia.
    + exists pos, d'. split; [done|]. split; [done|].
      destruct Hpos as [->|Hpos]; [by left|right].
      Z.to_euclidean_division_equations; lia.
Qed.

(** X14: [bitmap_first_unused] returns whenever the bitmap sectors it has
    to scan are on the disk: -1 or a position inside the sectors scanned,
    which may lie beyond [nbits]; the disk keeps its number of sectors. *)
Theorem bitmap_first_unused_returns start num nbits d :
  0 ≤ start → start + (nbits - 1) / 4096 < Z.of_nat (length d) →
  ∃ pos d',
    bitmap_first_unused start num nbits d = Done (pos, d')
    ∧ length d' = length d
    ∧ (pos = -1 ∨ 0 ≤ pos < 4096 * ((nbits + 4095) / 4096)).
Proof.
  intros Hstart Hdisk. unfold bitmap_first_unused.
  destruct (bitmap_first_unused_loop_returns start
              (S (Z.to_nat nbits + Z.to_nat (- start))) d 0 0 nbits)
    as (pos & d' & Hrun & Hlen & Hpos); [lia|lia|lia|].
  exists pos, d'. split; [done|]. split; [done|]. lia.
Qed.

Lemma bitmap_first_unused_returns_witness :
  ∃ pos d',
    bitmap_first_unused 2 1 8 (disk small_opened) = Done (pos, d')
    ∧ length d' = length (disk small_opened)
    ∧ (pos = -1 ∨ 0 ≤ pos < 4096 * ((8 + 4095) / 4096)).
Proof.
  apply (bitmap_first_unused_returns 2 1 8 (disk small_opened)).
  - lia.
  - vm_compute; reflexivity.
Defined.

(** ** [bitmap_init] *)

Lemma length_zeros n : length (zeros n) = Z.to_nat n.
Proof. apply length_replicate. Qed.

Lemma byte_at_zeros n j : byte_at (zeros n) j = 0.
Proof.
  unfold byte_at, zeros. rewrite nth_lookup.
  destruct (replicate (Z.to_nat n) 0 !! Z.to_nat j) as [x|] eqn:E; [|done].
  by apply lookup_replicate in E as [-> _].
Qed.

Lemma byte_at_memset_zeros temp j :
  0 ≤ temp ≤ 512 → 0 ≤ j →
  byte_at (memset (zeros 512) 255 temp) j = if j <? temp then 255 else 0.
Proof.
  intros Htemp Hj. unfold byte_at, memset, zeros. rewrite nth_lookup.
  destruct (j <? temp) eqn:E.
  - apply Z.ltb_lt in E. rewrite lookup_app_l by (rewrite length_replicate; lia).
    rewrite lookup_replicate_2 by lia. done.
  - apply Z.ltb_ge in E. rewrite lookup_app_r by (rewrite length_replicate; lia).
    rewrite length_replicate, lookup_drop.
    destruct (replicate (Z.to_nat 512) 0 !! _) as [x|] eqn:E'; [|done].
    by apply lookup_replicate in E' as [-> _].
Qed.

Lemma length_memset_zeros temp :
  0 ≤ temp ≤ 512 → length (memset (zeros 512) 255 temp) = 512%nat.
Proof.
  intros Htemp. unfold memset, zeros.
  rewrite length_app, length_replicate, length_drop, length_replicate. lia.
Qed.

(** The buffer [bitmap_init] writes for a prefix shorter than a sector:
    the whole bytes of the prefix, and of the bits left over only the last
    one. *)
Lemma bitmap_init_sector_spec nbits j :
  0 ≤ nbits < 4096 → 0 ≤ j < 4096 →
  length (bitmap_init_sector nbits).1 = 512%nat
  ∧ Z.testbit (byte_at (bitmap_init_sector nbits).1 (j / 8)) (7 - j mod 8)
    = (j <? 8 * (nbits / 8)) || (j =? nbits - 1)
  ∧ (bitmap_init_sector nbits).2 = 0.
Proof.
  intros Hn Hj. unfold bitmap_init_sector.
  destruct (512 * 8 <? nbits) eqn:E1; [lia|].
  destruct ((nbits <? 512 * 8) && (0 <? nbits)) eqn:E2; cbn [fst snd].
  2: { assert (nbits = 0) as -> by (apply andb_false_iff in E2 as [E|E]; lia).
       split; [by rewrite length_zeros|].
       rewrite byte_at_zeros, Z.bits_0.
       split; [|done]. symmetry. apply orb_false_iff.
       split; [apply Z.ltb_ge|apply Z.eqb_neq];
         Z.to_euclidean_division_equations; lia. }
  rewrite Z.quot_div_nonneg, Z.rem_mod_nonneg by lia.
  set (temp := nbits / 8).
  assert (Htemp : 0 ≤ temp < 512) by (subst temp; Z.to_euclidean_division_equations; lia).
  assert (Hjb : 0 ≤ j / 8 < 512 ∧ 0 ≤ j mod 8 ≤ 7)
    by (Z.to_euclidean_division_equations; lia).
  assert (Hwhole : Z.testbit (byte_at (memset (zeros 512) 255 temp) (j / 8))
                     (7 - j mod 8) = (j <? 8 * temp)).
  { rewrite byte_at_memset_zeros by lia.
    destruct (j / 8 <? temp) eqn:Ej.
    - rewrite testbit_255 by lia. symmetry. apply Z.ltb_lt.
      Z.to_euclidean_division_equations; lia.
    - rewrite Z.bits_0. symmetry. apply Z.ltb_ge.
      Z.to_euclidean_division_equations; lia. }
  destruct (decide (nbits mod 8 = 0)) as [Hm|Hm].
  - rewrite Hm. cbn [bitmap_init_bits bit_indices]. change (0 <? 0) with false.
    cbv iota.
    split; [apply length_memset_zeros; lia|]. split; [|done].
    rewrite Hwhole.
    destruct (j =? nbits - 1) eqn:E; [|by rewrite orb_false_r].
    rewrite orb_true_r. apply Z.ltb_lt.
    subst temp. Z.to_euclidean_division_equations; lia.
  - rewrite bitmap_init_bits_last by (Z.to_euclidean_division_equations; lia).
    split; [rewrite length_set_byte; apply length_memset_zeros; lia|].
    split; [|done].
    destruct (decide (j / 8 = temp)) as [Heq|Hne].
    + rewrite Heq, byte_at_set_byte by (rewrite length_memset_zeros; lia).
      rewrite Z.pow2_bits_eqb by (Z.to_euclidean_division_equations; lia).
      replace (j <? 8 * temp) with false
        by (symmetry; apply Z.ltb_ge; Z.to_euclidean_division_equations; lia).
      cbn [orb].
      destruct (j =? nbits - 1) eqn:E.
      * apply Z.eqb_eq. subst temp. Z.to_euclidean_division_equations; lia.
      * apply Z.eqb_neq. subst temp. Z.to_euclidean_division_equations; lia.
    + rewrite byte_at_set_byte_ne by lia. rewrite Hwhole.
      destruct (j =? nbits - 1) eqn:E; [|by rewrite orb_false_r].
      rewrite orb_true_r. apply Z.ltb_lt.
      subst temp. Z.to_euclidean_division_equations; lia.
Qed.

Lemma length_bitmap_init_bits bits bitmap temp md :
  length (bitmap_init_bits bits bitmap temp md) = length bitmap.
Proof.
  revert bitmap md. induction bits as [|b bits IH]; intros bitmap md; [done|].
  cbn [bitmap_init_bits]. destruct (0 <? md); [|apply IH].
  by rewrite IH, length_set_byte.
Qed.

Lemma length_bitmap_init_sector nbits :
  length (bitmap_init_sector nbits).1 = 512%nat.
Proof.
  unfold bitmap_init_sector.
  destruct (512 * 8 <? nbits) eqn:E1; cbn [fst].
  { apply length_memset_zeros. lia. }
  destruct ((nbits <? 512 * 8) && (0 <? nbits)) eqn:E2; cbn [fst];
    [|by rewrite length_zeros].
  apply andb_prop in E2 as [E2 E3].
  rewrite length_bitmap_init_bits. apply length_memset_zeros.
  rewrite Z.quot_div_nonneg by lia. Z.to_euclidean_division_equations; lia.
Qed.

(** The sector loop of [bitmap_init] writes the sectors
    [start + beginSector ..] and nothing else. *)
Lemma bitmap_init_loop_length rounds start bs nbits d :
  length (bitmap_init_loop rounds start bs nbits d) = length d.
Proof.
  revert bs nbits d. induction rounds as [|rounds IH]; intros bs nbits d; [done|].
  cbn [bitmap_init_loop]. destruct (bitmap_init_sector nbits) as [bm n'].
  by rewrite IH, Disk_Write__length.
Qed.

Lemma bitmap_init_loop_wf rounds start bs nbits d :
  wf_disk d → wf_disk (bitmap_init_loop rounds start bs nbits d).
Proof.
  revert bs nbits d. induction rounds as [|rounds IH]; intros bs nbits d Hwf; [done|].
  cbn [bitmap_init_loop]. pose proof (length_bitmap_init_sector nbits) as Hlen.
  destruct (bitmap_init_sector nbits) as [bm n']. apply IH.
  by apply wf_disk_write_.
Qed.

Lemma bitmap_init_loop_frame rounds start bs nbits d s :
  s < start + bs ∨ start + bs + Z.of_nat rounds ≤ s →
  Disk_Read (bitmap_init_loop rounds start bs nbits d) s = Disk_Read d s.
Proof.
  revert bs nbits d. induction rounds as [|rounds IH]; intros bs nbits d Hs; [done|].
  cbn [bitmap_init_loop]. destruct (bitmap_init_sector nbits) as [bm n'].
  rewrite IH by lia. apply Disk_Read_Write__ne. lia.
Qed.

Lemma bitmap_init_loop_zero rounds start bs d s :
  start + bs ≤ s < start + bs + Z.of_nat rounds →
  0 ≤ s < Z.of_nat (length d) →
  Disk_Read (bitmap_init_loop rounds start bs 0 d) s = Some (zeros 512).
Proof.
  revert bs d. induction rounds as [|rounds IH]; intros bs d Hs Hd; [lia|].
  cbn [bitmap_init_loop]. change (bitmap_init_sector 0) with (zeros 512, 0).
  cbv iota beta.
  destruct (decide (s = start + bs)) as [->|Hne].
  - rewrite bitmap_init_loop_frame by lia.
    destruct (Disk_Read_in_range d (start + bs) Hd) as [b0 Hb0].
    by eapply Disk_Read_Write__eq.
  - apply IH; [lia|]. by rewrite Disk_Write__length.
Qed.

(** X15: what [bitmap_init] stores for a prefix shorter than one sector.
    Bit [i] of the bitmap is 1 exactly when [i] lies in the whole bytes of
    the prefix or is its last bit; the other bits of a partial last byte
    stay 0.  So the first [nbits] bits are set when [nbits mod 8] is 0 or
    1, and only then.  Sectors outside the bitmap are left alone. *)
Theorem bitmap_init_short_prefix start num nbits d :
  0 ≤ start → 0 < num → start + num ≤ Z.of_nat (length d) →
  0 ≤ nbits < 4096 →
  (∀ i, 0 ≤ i < 4096 * num →
        bitmap_bit (bitmap_init start num nbits d) start i
        = if (i <? 8 * (nbits / 8)) || (i =? nbits - 1) then 1 else 0)
  ∧ (∀ s, s < start ∨ start + num ≤ s →
          Disk_Read (bitmap_init start num nbits d) s = Disk_Read d s)
  ∧ length (bitmap_init start num nbits d) = length d.
Proof.
  intros Hstart Hnum Hdisk Hn. unfold bitmap_init.
  split; [|split; [|apply bitmap_init_loop_length]].
  2: { intros s Hs. apply bitmap_init_loop_frame. lia. }
  intros i Hi.
  destruct (bitmap_bit_split i ltac:(lia)) as (Hsplit & Hj & Hk).
  destruct (Z.to_nat num) as [|rounds] eqn:Hrounds; [lia|].
  cbn [bitmap_init_loop].
  destruct (bitmap_init_sector_spec nbits (i mod 4096) Hn Hj)
    as (Hlen & Hbits & Hrest).
  destruct (bitmap_init_sector nbits) as [bm n']. cbn [fst snd] in *. subst n'.
  destruct (Disk_Read_in_range d start ltac:(lia)) as [b0 Hb0].
  destruct (decide (i / 4096 = 0)) as [Hk0|Hk0].
  - rewrite Hsplit at 1. rewrite Hk0.
    rewrite (bitmap_bit_in_sector _ start 0 bm (i mod 4096)); [| done |].
    + rewrite Hbits.
      replace (i mod 4096) with i by (Z.to_euclidean_division_equations; lia).
      by destruct ((i <? 8 * (nbits / 8)) || (i =? nbits - 1)).
    + rewrite bitmap_init_loop_frame by lia.
      rewrite Z.add_0_r in *. by eapply Disk_Read_Write__eq.
  - rewrite Hsplit at 1.
    rewrite (bitmap_bit_in_sector _ start (i / 4096) (zeros 512) (i mod 4096));
      [| done |].
    + rewrite byte_at_zeros, Z.bits_0.
      replace ((i <? 8 * (nbits / 8)) || (i =? nbits - 1)) with false; [done|].
      symmetry. apply orb_false_iff.
      split; [apply Z.ltb_ge|apply Z.eqb_neq];
        Z.to_euclidean_division_equations; lia.
    + apply bitmap_init_loop_zero.
      * Z.to_euclidean_division_equations; lia.
      * rewrite Disk_Write__length. Z.to_euclidean_division_equations; lia.
Qed.

Lemma bitmap_init_short_prefix_witness :
  (∀ i, 0 ≤ i < 4096 * 2 →
        bitmap_bit (bitmap_init 1 2 11 (replicate 4 (zeros 512))) 1 i
        = if (i <? 8 * (11 / 8)) || (i =? 11 - 1) then 1 else 0)
  ∧ (∀ s, s < 1 ∨ 1 + 2 ≤ s →
          Disk_Read (bitmap_init 1 2 11 (replicate 4 (zeros 512))) s
          = Disk_Read (replicate 4 (zeros 512)) s)
  ∧ length (bitmap_init 1 2 11 (replicate 4 (zeros 512)))
    = length (replicate 4 (zeros 512)).
Proof.
  apply (bitmap_init_short_prefix 1 2 11 (replicate 4 (zeros 512))).
  - lia.
  - lia.
  - simpl. lia.
  - lia.
Defined.

(** ** [FS_Boot] *)

Lemma length_put_int buf off v : length (put_int buf off v) = length buf.
Proof. unfold put_int. by rewrite !length_set_byte. Qed.

Lemma bitmap_bit_ext d d' start i :
  Disk_Read d' (start + i / 4096) = Disk_Read d (start + i / 4096) →
  bitmap_bit d' start i = bitmap_bit d start i.
Proof.
  intros Heq. unfold bitmap_bit. change (SECTOR_SIZE * 8) with 4096.
  by rewrite Heq.
Qed.

Section Boot.
Context {geo : Geometry}.

Lemma format_inode_table_length n i d d' :
  format_inode_table n i d = (true, d') → length d' = length d.
Proof.
  revert i d. induction n as [|n IH]; intros i d; cbn [format_inode_table].
  - by intros [= <-].
  - cbv zeta. destruct (Disk_Write d _ _) as [d1|] eqn:Hw; [|discriminate].
    intros H. rewrite (IH _ _ H). by eapply Disk_Write_length.
Qed.

Lemma format_inode_table_frame n i d d' s :
  format_inode_table n i d = (true, d') →
  s < INODE_TABLE_START_SECTOR + i
  ∨ INODE_TABLE_START_SECTOR + i + Z.of_nat n ≤ s →
  Disk_Read d' s = Disk_Read d s.
Proof.
  revert i d. induction n as [|n IH]; intros i d; cbn [format_inode_table].
  - by intros [= <-].
  - cbv zeta. destruct (Disk_Write d _ _) as [d1|] eqn:Hw; [|discriminate].
    intros H Hs. rewrite (IH _ _ H) by lia.
    eapply Disk_Read_Write_ne; [done|lia].
Qed.

Lemma format_inode_table_wf n i d d' :
  wf_disk d → format_inode_table n i d = (true, d') → wf_disk d'.
Proof.
  revert i d. induction n as [|n IH]; intros i d Hwf; cbn [format_inode_table].
  - by intros [= <-].
  - cbv zeta. destruct (Disk_Write d _ _) as [d1|] eqn:Hw; [|discriminate].
    apply IH. eapply wf_disk_write; [done| |done].
    destruct (i =? 0); [|by rewrite length_zeros].
    unfold set_inode_type, set_inode_size. by rewrite !length_put_int, length_zeros.
Qed.

Lemma format_inode_table_spec n i d :
  0 ≤ INODE_TABLE_START_SECTOR + i →
  INODE_TABLE_START_SECTOR + i + Z.of_nat n ≤ Z.of_nat (length d) →
  ∃ d',
    format_inode_table n i d = (true, d')
    ∧ ∀ k, i ≤ k < i + Z.of_nat n →
           Disk_Read d' (INODE_TABLE_START_SECTOR + k)
           = Some (if k =? 0 then root_sector else zeros SECTOR_SIZE).
Proof.
  revert i d. induction n as [|n IH]; intros i d Hi Hd; cbn [format_inode_table].
  - exists d. split; [done|]. intros; lia.
  - cbv zeta. rewrite Disk_Write_in_range by lia.
    destruct (IH (i + 1) (<[Z.to_nat (INODE_TABLE_START_SECTOR + i) :=
                              if i =? 0 then root_sector else zeros SECTOR_SIZE]> d))
      as (d' & Hrun & Hsec); [lia|rewrite length_insert; lia|].
    exists d'. split; [done|]. intros k Hk.
    destruct (decide (k = i)) as [->|Hne]; [|apply Hsec; lia].
    rewrite (format_inode_table_frame _ _ _ _ _ Hrun) by lia.
    eapply Disk_Read_Write_eq. apply Disk_Write_in_range. lia.
Qed.

Lemma layout_order :
  0 ≤ MAX_FILES → 0 ≤ TOTAL_SECTORS →
  0 ≤ INODE_BITMAP_SECTORS ∧ 0 ≤ SECTOR_BITMAP_SECTORS ∧ 0 ≤ INODE_TABLE_SECTORS.
Proof.
  intros Hf Ht.
  unfold INODE_BITMAP_SECTORS, SECTOR_BITMAP_SECTORS, INODE_TABLE_SECTORS,
    INODE_BITMAP_SIZE, SECTOR_BITMAP_SIZE, to_size_t.
  change INODES_PER_SECTOR with 4. change SECTOR_SIZE with 512.
  split; [|split].
  - apply Z.quot_pos; [|lia].
    assert (0 ≤ (MAX_FILES + 7) ÷ 8) by (apply Z.quot_pos; lia). lia.
  - apply Z.quot_pos; [|lia].
    assert (0 ≤ (TOTAL_SECTORS + 7) ÷ 8) by (apply Z.quot_pos; lia). lia.
  - Z.to_euclidean_division_equations; lia.
Qed.

(** X16: how a boot ends.  [FS_Boot] always returns 0 or -1.  When it
    returns 0 the superblock of the disk carries the magic number, every
    entry of the open-file table is free and [osErrno] is as before; when
    it returns -1, [osErrno] is [E_GENERAL] and the open-file table has not
    been touched. *)
Theorem FS_Boot_outcome bs save_ok s :
  0 ≤ MAX_FILES →
  ∃ r s',
    FS_Boot bs save_ok s = Done (r, s')
    ∧ ((r = 0 ∧ check_magic (disk s') = 1
        ∧ open_files s' = replicate (Z.to_nat MAX_OPEN_FILES) free_entry
        ∧ osErrno s' = osErrno s)
       ∨ (r = -1 ∧ osErrno s' = E_GENERAL ∧ open_files s' = open_files s)).
Proof.
  intros Hf. unfold FS_Boot, bind, put_disk, get_disk. cbv beta iota.
  destruct bs as [| |sz image].
  - cbn [disk set_disk].
    set (d0 := replicate (Z.to_nat TOTAL_SECTORS) (zeros SECTOR_SIZE)).
    destruct (Disk_Write d0 SUPERBLOCK_START_SECTOR _) as [d1|] eqn:Hw.
    2: { eexists _, _. split; [reflexivity|]. right. by cbn. }
    cbv zeta.
    destruct (format_inode_table _ 0 _) as [[] d4] eqn:Hfmt.
    2: { eexists _, _. split; [reflexivity|]. right. by cbn. }
    destruct save_ok.
    2: { eexists _, _. split; [reflexivity|]. right. by cbn. }
    eexists _, _. split; [reflexivity|]. left. cbn.
    split; [done|]. split; [|done].
    assert (Ht : 0 < TOTAL_SECTORS).
    { unfold Disk_Write in Hw. subst d0. rewrite length_replicate in Hw.
      destruct (_ && _) eqn:E in Hw; [|discriminate].
      apply andb_prop in E as [_ E%Z.ltb_lt].
      unfold SUPERBLOCK_START_SECTOR in E. lia. }
    destruct (layout_order Hf ltac:(lia)) as (Hib & Hsb & Hit).
    unfold check_magic.
    rewrite (format_inode_table_frame _ _ _ _ _ Hfmt)
      by (unfold INODE_TABLE_START_SECTOR, SECTOR_BITMAP_START_SECTOR,
            INODE_BITMAP_START_SECTOR, SUPERBLOCK_START_SECTOR; lia).
    unfold bitmap_init.
    rewrite !bitmap_init_loop_frame
      by (unfold SECTOR_BITMAP_START_SECTOR, INODE_BITMAP_START_SECTOR,
            SUPERBLOCK_START_SECTOR; lia).
    rewrite (Disk_Read_Write_eq _ _ _ _ Hw). reflexivity.
  - eexists _, _. split; [reflexivity|]. right. by cbn.
  - destruct (negb (sz =? SECTOR_SIZE * TOTAL_SECTORS)).
    { eexists _, _. split; [reflexivity|]. right. by cbn. }
    destruct (check_magic image =? 1) eqn:Em.
    + eexists _, _. split; [reflexivity|]. left. cbn.
      split; [done|]. split; [|done]. by apply Z.eqb_eq.
    + eexists _, _. split; [reflexivity|]. right. by cbn.
Qed.

(** The state a successful format leaves. *)
Lemma FS_Boot_formats_state s :
  0 < MAX_FILES < 2 ^ 31 → 0 < TOTAL_SECTORS →
  DATABLOCK_START_SECTOR ≤ TOTAL_SECTORS →
  DATABLOCK_START_SECTOR < 4096 →
  ∃ s',
    FS_Boot NoBackstore true s = Done (0, s')
    ∧ wf_disk (disk s')
    ∧ Z.of_nat (length (disk s')) = TOTAL_SECTORS
    ∧ (∀ i, 0 ≤ i < 4096 * INODE_BITMAP_SECTORS →
            bitmap_bit (disk s') INODE_BITMAP_START_SECTOR i
            = if i =? 0 then 1 else 0)
    ∧ (∀ i, 0 ≤ i < 4096 * SECTOR_BITMAP_SECTORS →
            bitmap_bit (disk s') SECTOR_BITMAP_START_SECTOR i
            = if (i <? 8 * (DATABLOCK_START_SECTOR / 8))
                 || (i =? DATABLOCK_START_SECTOR - 1)
              then 1 else 0)
    ∧ (∃ buf, Disk_Read (disk s') INODE_TABLE_START_SECTOR = Some buf
              ∧ inode_type buf 0 = 1 ∧ inode_size buf 0 = 0)
    ∧ (∀ sec, INODE_TABLE_START_SECTOR < sec < TOTAL_SECTORS →
              Disk_Read (disk s') sec = Some (zeros 512))
    ∧ open_files s' = replicate (Z.to_nat MAX_OPEN_FILES) free_entry
    ∧ osErrno s' = osErrno s.
Proof.
  intros Hf Ht Hfit Hsmall.
  assert (Hlay : 1 ≤ INODE_BITMAP_SECTORS ∧ 1 ≤ SECTOR_BITMAP_SECTORS
                 ∧ 1 ≤ INODE_TABLE_SECTORS).
  { unfold INODE_BITMAP_SECTORS, SECTOR_BITMAP_SECTORS, INODE_TABLE_SECTORS,
      INODE_BITMAP_SIZE, SECTOR_BITMAP_SIZE, to_size_t in *.
    change INODES_PER_SECTOR with 4. change SECTOR_SIZE with 512.
    rewrite (Z.quot_div_nonneg (MAX_FILES + 7)) by lia.
    rewrite (Z.quot_div_nonneg (TOTAL_SECTORS + 7)) by lia.
    rewrite !Z.quot_div_nonneg by (try lia; Z.to_euclidean_division_equations; lia).
    Z.to_euclidean_division_equations; lia. }
  destruct Hlay as (Hib & Hsb & Hit).
  unfold DATABLOCK_START_SECTOR in Hfit, Hsmall.
  assert (Hits : INODE_TABLE_START_SECTOR
                 = SECTOR_BITMAP_START_SECTOR + SECTOR_BITMAP_SECTORS) by done.
  assert (Hsbs : SECTOR_BITMAP_START_SECTOR = 1 + INODE_BITMAP_SECTORS) by done.
  set (d0 := replicate (Z.to_nat TOTAL_SECTORS) (zeros SECTOR_SIZE)).
  set (magic := put_int (zeros SECTOR_SIZE) 0 OS_MAGIC).
  set (d1 := <[Z.to_nat SUPERBLOCK_START_SECTOR := magic]> d0).
  set (d2 := bitmap_init INODE_BITMAP_START_SECTOR INODE_BITMAP_SECTORS 1 d1).
  set (d3 := bitmap_init SECTOR_BITMAP_START_SECTOR SECTOR_BITMAP_SECTORS
               (INODE_TABLE_START_SECTOR + INODE_TABLE_SECTORS) d2).
  assert (Hl0 : Z.of_nat (length d0) = TOTAL_SECTORS)
    by (subst d0; rewrite length_replicate; lia).
  assert (Hw : Disk_Write d0 SUPERBLOCK_START_SECTOR magic = Some d1)
    by (apply Disk_Write_in_range; unfold SUPERBLOCK_START_SECTOR; lia).
  assert (Hl1 : length d1 = length d0) by (by eapply Disk_Write_length).
  destruct (bitmap_init_short_prefix INODE_BITMAP_START_SECTOR
              INODE_BITMAP_SECTORS 1 d1)
    as (Hbits2 & Hframe2 & Hl2);
    [unfold INODE_BITMAP_START_SECTOR; lia|lia
    |unfold INODE_BITMAP_START_SECTOR; lia|lia|].
  fold d2 in Hbits2, Hframe2, Hl2.
  destruct (bitmap_init_short_prefix SECTOR_BITMAP_START_SECTOR
              SECTOR_BITMAP_SECTORS (INODE_TABLE_START_SECTOR + INODE_TABLE_SECTORS)
              d2)
    as (Hbits3 & Hframe3 & Hl3); [lia|lia|lia|lia|].
  fold d3 in Hbits3, Hframe3, Hl3.
  destruct (format_inode_table_spec (Z.to_nat INODE_TABLE_SECTORS) 0 d3)
    as (d4 & Hfmt & Hsec); [lia|lia|].
  pose proof (format_inode_table_length _ _ _ _ Hfmt) as Hl4.
  assert (Hwf0 : wf_disk d0).
  { apply Forall_replicate. by rewrite length_zeros. }
  assert (Hwf4 : wf_disk d4).
  { eapply format_inode_table_wf; [|done].
    apply bitmap_init_loop_wf, bitmap_init_loop_wf.
    eapply wf_disk_write; [done| |done].
    subst magic. by rewrite length_put_int, length_zeros. }
  exists (set_open_files (replicate (Z.to_nat MAX_OPEN_FILES) free_entry)
            (set_disk d4 (set_disk d0 s))).
  split.
  { unfold FS_Boot, bind, put_disk, get_disk. cbv beta iota.
    cbn [disk set_disk]. fold d0 magic. rewrite Hw. cbv zeta.
    fold d2. unfold DATABLOCK_START_SECTOR. fold d3. rewrite Hfmt.
    reflexivity. }
  cbn [disk set_disk set_open_files open_files osErrno].
  split; [done|]. split; [lia|].
  split.
  { intros i Hi.
    rewrite (bitmap_bit_ext d3).
    2: { apply (format_inode_table_frame _ _ _ _ _ Hfmt).
         unfold INODE_BITMAP_START_SECTOR. Z.to_euclidean_division_equations; lia. }
    rewrite (bitmap_bit_ext d2).
    2: { apply Hframe3. unfold INODE_BITMAP_START_SECTOR.
         Z.to_euclidean_division_equations; lia. }
    rewrite Hbits2 by done. change (8 * (1 / 8)) with 0. change (1 - 1) with 0.
    replace (i <? 0) with false by (symmetry; apply Z.ltb_ge; lia). done. }
  split.
  { intros i Hi.
    rewrite (bitmap_bit_ext d3).
    2: { apply (format_inode_table_frame _ _ _ _ _ Hfmt).
         Z.to_euclidean_division_equations; lia. }
    by apply Hbits3. }
  split.
  { exists root_sector. split; [|split; vm_compute; reflexivity].
    replace INODE_TABLE_START_SECTOR with (INODE_TABLE_START_SECTOR + 0) at 1 by lia.
    rewrite Hsec by lia. reflexivity. }
  split; [|done].
  intros sec Hs.
  destruct (Z_lt_le_dec sec (INODE_TABLE_START_SECTOR + INODE_TABLE_SECTORS))
    as [Hin|Hout].
  - replace sec with (INODE_TABLE_START_SECTOR + (sec - INODE_TABLE_START_SECTOR))
      by lia.
    rewrite Hsec by lia.
    destruct (sec - INODE_TABLE_START_SECTOR =? 0) eqn:E; [lia|done].
  - rewrite (format_inode_table_frame _ _ _ _ _ Hfmt) by lia.
    rewrite Hframe3, Hframe2
      by (unfold INODE_BITMAP_START_SECTOR in *; lia).
    rewrite (Disk_Read_Write_ne _ _ _ _ _ Hw)
      by (unfold SUPERBLOCK_START_SECTOR, INODE_BITMAP_START_SECTOR in *; lia).
    subst d0. unfold Disk_Read.
    destruct (sec <? 0) eqn:E;
      [unfold INODE_BITMAP_START_SECTOR in *; lia|].
    rewrite lookup_replicate_2 by lia. reflexivity.
Qed.

(** X17: what formatting leaves on the disk.  On a geometry whose layout
    fits the disk, [FS_Boot] on a missing backstore returns 0 and leaves:
    a disk of [TOTAL_SECTORS] sectors of 512 bytes; an inode bitmap with
    bit 0 set and no other; a sector bitmap with the bits of the whole
    bytes below [DATABLOCK_START_SECTOR] and bit
    [DATABLOCK_START_SECTOR - 1] set and no other; the root inode as an
    empty directory; every sector after the first sector of the inode table
    filled with zeros. *)
Theorem FS_Boot_formats s :
  0 < MAX_FILES < 2 ^ 31 → 0 < TOTAL_SECTORS →
  DATABLOCK_START_SECTOR ≤ TOTAL_SECTORS →
  DATABLOCK_START_SECTOR < 4096 →
  ∃ s',
    FS_Boot NoBackstore true s = Done (0, s')
    ∧ wf_disk (disk s')
    ∧ Z.of_nat (length (disk s')) = TOTAL_SECTORS
    ∧ (∀ i, 0 ≤ i < 4096 * INODE_BITMAP_SECTORS →
            bitmap_bit (disk s') INODE_BITMAP_START_SECTOR i
            = if i =? 0 then 1 else 0)
    ∧ (∀ i, 0 ≤ i < 4096 * SECTOR_BITMAP_SECTORS →
            bitmap_bit (disk s') SECTOR_BITMAP_START_SECTOR i
            = if (i <? 8 * (DATABLOCK_START_SECTOR / 8))
                 || (i =? DATABLOCK_START_SECTOR - 1)
              then 1 else 0)
    ∧ (∃ buf, Disk_Read (disk s') INODE_TABLE_START_SECTOR = Some buf
              ∧ inode_type buf 0 = 1 ∧ inode_size buf 0 = 0)
    ∧ (∀ sec, INODE_TABLE_START_SECTOR < sec < TOTAL_SECTORS →
              Disk_Read (disk s') sec = Some (zeros 512)).
Proof.
  intros Hf Ht Hfit Hsmall.
  destruct (FS_Boot_formats_state s Hf Ht Hfit Hsmall)
    as (s' & Hboot & Hwf & Hlen & Hib & Hsb & Hroot & Hzero & _).
  exists s'. split; [done|]. split; [done|]. split; [done|]. split; [done|].
  split; [done|]. split; done.
Qed.

End Boot.

Lemma FS_Boot_outcome_witness :
  ∃ r s',
    FS_Boot (geo := small_geometry) (Backstore 100 (disk small_opened)) true
      small_opened = Done (r, s')
    ∧ ((r = 0 ∧ check_magic (disk s') = 1
        ∧ open_files s' = replicate (Z.to_nat MAX_OPEN_FILES) free_entry
        ∧ osErrno s' = osErrno small_opened)
       ∨ (r = -1 ∧ osErrno s' = E_GENERAL
          ∧ open_files s' = open_files small_opened)).
Proof.
  apply (FS_Boot_outcome (geo := small_geometry)
           (Backstore 100 (disk small_opened)) true small_opened).
  simpl. lia.
Defined.

Lemma FS_Boot_formats_witness :
  ∃ s',
    FS_Boot (geo := small_geometry) NoBackstore true (initial_state E_CREATE)
    = Done (0, s')
    ∧ wf_disk (disk s')
    ∧ Z.of_nat (length (disk s')) = TOTAL_SECTORS (Geometry := small_geometry)
    ∧ (∀ i, 0 ≤ i < 4096 * INODE_BITMAP_SECTORS (geo := small_geometry) →
            bitmap_bit (disk s') INODE_BITMAP_START_SECTOR i
            = if i =? 0 then 1 else 0)
    ∧ (∀ i, 0 ≤ i < 4096 * SECTOR_BITMAP_SECTORS (geo := small_geometry) →
            bitmap_bit (disk s') (SECTOR_BITMAP_START_SECTOR (geo := small_geometry)) i
            = if (i <? 8 * (DATABLOCK_START_SECTOR (geo := small_geometry) / 8))
                 || (i =? DATABLOCK_START_SECTOR (geo := small_geometry) - 1)
              then 1 else 0)
    ∧ (∃ buf, Disk_Read (disk s')
                (INODE_TABLE_START_SECTOR (geo := small_geometry)) = Some buf
              ∧ inode_type buf 0 = 1 ∧ inode_size buf 0 = 0)
    ∧ (∀ sec, INODE_TABLE_START_SECTOR (geo := small_geometry) < sec
              < TOTAL_SECTORS (Geometry := small_geometry) →
              Disk_Read (disk s') sec = Some (zeros 512)).
Proof.
  apply (FS_Boot_formats (geo := small_geometry) (initial_state E_CREATE)).
  - simpl. lia.
  - simpl. lia.
  - vm_compute. discriminate.
  - vm_compute. reflexivity.
Defined.

(** ** Writing *)

(** The inner loop of [File_Write] on a fresh sector buffer: how far it
    gets and what it leaves in the buffer. *)
Lemma write_bytes_spec buffer fuel wb bb count tempsize :
  0 ≤ bb ≤ 512 → 0 ≤ tempsize → 512 - bb ≤ Z.of_nat fuel →
  length wb = 512%nat →
  ∃ wb',
    write_bytes fuel buffer wb bb count tempsize
    = (wb', count + Z.min (512 - bb) tempsize,
       tempsize - Z.min (512 - bb) tempsize)
    ∧ length wb' = 512%nat
    ∧ (∀ j, 0 ≤ j < Z.min (512 - bb) tempsize →
            byte_at wb' (bb + j) = byte_at buffer (count + j))
    ∧ (∀ j, 0 ≤ j < bb ∨ bb + Z.min (512 - bb) tempsize ≤ j →
            byte_at wb' j = byte_at wb j).
Proof.
  revert wb bb count tempsize.
  induction fuel as [|fuel IH]; intros wb bb count tempsize Hbb Ht Hfuel Hlen;
    cbn [write_bytes].
  - exists wb. replace (Z.min (512 - bb) tempsize) with 0 by lia.
    rewrite Z.add_0_r, Z.sub_0_r. split; [done|]. split; [done|].
    split; [intros; lia|done].
  - destruct ((bb <? 512) && (0 <? tempsize)) eqn:E.
    + apply andb_prop in E as [E1%Z.ltb_lt E2%Z.ltb_lt].
      destruct (IH (set_byte wb bb (byte_at buffer count)) (bb + 1) (count + 1)
                  (tempsize - 1))
        as (wb' & Heq & Hlen' & Hin & Hout);
        [lia|lia|lia|by rewrite length_set_byte|].
      exists wb'. rewrite Heq.
      replace (Z.min (512 - (bb + 1)) (tempsize - 1))
        with (Z.min (512 - bb) tempsize - 1) in * by lia.
      split; [f_equal; [f_equal|]; lia|]. split; [done|]. split.
      * intros j Hj. destruct (decide (j = 0)) as [->|Hj0].
        -- rewrite Z.add_0_r, Hout by lia. rewrite Z.add_0_r.
           apply byte_at_set_byte. lia.
        -- replace (bb + j) with (bb + 1 + (j - 1)) by lia.
           rewrite Hin by lia. f_equal. lia.
      * intros j Hj. rewrite Hout by lia. apply byte_at_set_byte_ne; lia.
    + exists wb.
      assert (Z.min (512 - bb) tempsize = 0) as ->
        by (apply andb_false_iff in E as [E|E]; lia).
      rewrite Z.add_0_r, Z.sub_0_r. split; [done|]. split; [done|].
      split; [intros; lia|done].
Qed.

Section Writing.
Context {geo : Geometry}.

Lemma file_write_loop_eq left d nbuf node pos size buffer bs count tempsize :
  file_write_loop left d nbuf node pos size buffer bs count tempsize =
  if count <? size then
    match bitmap_first_unused SECTOR_BITMAP_START_SECTOR SECTOR_BITMAP_SECTORS
            SECTOR_BITMAP_SIZE d with
    | Fault f => Fault f
    | Done (firstUnused, d) =>
        match left with
        | O => Fault OutOfBounds
        | S left' =>
            let nbuf := set_inode_data nbuf node bs firstUnused in
            let beginByte := if count =? 0 then Z.rem pos 512 else 0 in
            if beginByte <? 0 then Fault OutOfBounds
            else
              let '(writeBuffer, count, tempsize) :=
                write_bytes 512 buffer (zeros 512) beginByte count tempsize in
              let d := Disk_Write_ d (inode_data nbuf node bs) writeBuffer in
              file_write_loop left' d nbuf node pos size buffer
                (bs + 1) count tempsize
        end
    end
  else Done (count, nbuf, d).
Proof. destruct left; reflexivity. Qed.

(** The rounds of [File_Write] after the first one. *)
Lemma file_write_loop_rest node pos size buffer left :
  0 ≤ SECTOR_BITMAP_START_SECTOR →
  ∀ d nbuf bs count tempsize,
    0 < count → count + tempsize = size →
    0 ≤ tempsize ≤ 512 * Z.of_nat left →
    SECTOR_BITMAP_START_SECTOR + (SECTOR_BITMAP_SIZE - 1) / 4096
    < Z.of_nat (length d) →
    ∃ nbuf' d',
      file_write_loop left d nbuf node pos size buffer bs count tempsize
      = Done (size, nbuf', d')
      ∧ length d' = length d.
Proof.
  intros Hstart.
  induction left as [|left IH]; intros d nbuf bs count tempsize Hc Hsum Ht Hd;
    rewrite file_write_loop_eq.
  - destruct (count <? size) eqn:E; [lia|].
    exists nbuf, d. split; [do 3 f_equal; lia|done].
  - destruct (count <? size) eqn:E.
    2: { exists nbuf, d. split; [do 3 f_equal; lia|done]. }
    destruct (bitmap_first_unused_returns SECTOR_BITMAP_START_SECTOR
                SECTOR_BITMAP_SECTORS SECTOR_BITMAP_SIZE d Hstart Hd)
      as (fu & d1 & Hrun & Hl1 & _).
    rewrite Hrun. cbv zeta.
    destruct (count =? 0) eqn:Ec; [lia|].
    change (0 <? 0) with false. cbv iota.
    destruct (write_bytes_spec buffer 512 (zeros 512) 0 count tempsize)
      as (wb & Hw & _); [lia|lia|lia|by rewrite length_zeros|].
    rewrite Hw.
    destruct (IH (Disk_Write_ d1
                    (inode_data (set_inode_data nbuf node bs fu) node bs) wb)
                (set_inode_data nbuf node bs fu) (bs + 1)
                (count + Z.min (512 - 0) tempsize)
                (tempsize - Z.min (512 - 0) tempsize))
      as (nbuf' & d' & Heq & Hl'); [lia|lia|lia| |].
    { rewrite Disk_Write__length. lia. }
    exists nbuf', d'. split; [done|].
    rewrite Hl', Disk_Write__length. done.
Qed.

(** The loop of [File_Write] runs to the end of the request whatever the
    sector bitmap holds. *)
Lemma file_write_loop_total d buf node pos size buffer :
  0 ≤ pos → 0 < size →
  pos + size ≤ 512 * MAX_SECTORS_PER_FILE →
  0 ≤ SECTOR_BITMAP_START_SECTOR →
  SECTOR_BITMAP_START_SECTOR + (SECTOR_BITMAP_SIZE - 1) / 4096
  < Z.of_nat (length d) →
  ∃ nbuf' d',
    file_write_loop (Z.to_nat (MAX_SECTORS_PER_FILE - pos ÷ SECTOR_SIZE)) d buf node
      pos size buffer (pos ÷ SECTOR_SIZE) 0 size = Done (size, nbuf', d')
    ∧ length d' = length d.
Proof.
  intros Hpos Hsize Hfits Hstart Hd.
  change MAX_SECTORS_PER_FILE with 30 in *.
  set (b := pos ÷ SECTOR_SIZE).
  assert (Hb : b = pos / 512) by (apply Z.quot_div_nonneg; lia).
  assert (Hbr : 0 ≤ b < 30) by (rewrite Hb; Z.to_euclidean_division_equations; lia).
  destruct (Z.to_nat (30 - b)) as [|left] eqn:Hleft; [lia|].
  rewrite file_write_loop_eq.
  destruct (0 <? size) eqn:E; [|lia].
  destruct (bitmap_first_unused_returns SECTOR_BITMAP_START_SECTOR
              SECTOR_BITMAP_SECTORS SECTOR_BITMAP_SIZE d Hstart Hd)
    as (fu & d1 & Hrun & Hl1 & _).
  rewrite Hrun. cbv zeta. change (0 =? 0) with true. cbv iota.
  rewrite Z.rem_mod_nonneg by lia.
  set (o := pos mod 512).
  assert (Ho : 0 ≤ o < 512) by (subst o; Z.to_euclidean_division_equations; lia).
  destruct (o <? 0) eqn:Eo; [lia|].
  destruct (write_bytes_spec buffer 512 (zeros 512) o 0 size)
    as (wb & Hw & _); [lia|lia|lia|by rewrite length_zeros|].
  rewrite Hw.
  destruct (file_write_loop_rest node pos size buffer left Hstart
              (Disk_Write_ d1
                 (inode_data (set_inode_data buf node b fu) node b) wb)
              (set_inode_data buf node b fu) (b + 1)
              (0 + Z.min (512 - o) size) (size - Z.min (512 - o) size))
    as (nbuf' & d' & Heq & Hl'); [lia|lia| | |].
  { subst o. rewrite Hb in Hleft. Z.to_euclidean_division_equations; lia. }
  { rewrite Disk_Write__length. lia. }
  exists nbuf', d'. split; [done|].
  rewrite Hl', Disk_Write__length. done.
Qed.

End Writing.

(** ** Integers in sector buffers *)

Lemma to_int_small z : - 2 ^ 31 ≤ z < 2 ^ 31 → to_int z = z.
Proof.
  intros Hz. unfold to_int.
  change (2 ^ 31) with 2147483648 in *. change (2 ^ 32) with 4294967296.
  Z.to_euclidean_division_equations; lia.
Qed.

Lemma byte_at_put_int_ne buf off v j :
  0 ≤ off → 0 ≤ j → j < off ∨ off + 4 ≤ j →
  byte_at (put_int buf off v) j = byte_at buf j.
Proof.
  intros Hoff Hj Hne. unfold put_int.
  rewrite !byte_at_set_byte_ne by lia. reflexivity.
Qed.

Lemma get_put_int buf off v :
  0 ≤ off → off + 4 ≤ Z.of_nat (length buf) →
  get_int (put_int buf off v) off = to_int v.
Proof.
  intros Hoff Hlen. unfold get_int, put_int.
  set (u := v mod 2 ^ 32).
  rewrite (byte_at_set_byte _ (off + 3)) by (rewrite !length_set_byte; lia).
  rewrite (byte_at_set_byte_ne _ (off + 3) (off + 2)) by lia.
  rewrite (byte_at_set_byte _ (off + 2)) by (rewrite !length_set_byte; lia).
  rewrite (byte_at_set_byte_ne _ (off + 3) (off + 1)) by lia.
  rewrite (byte_at_set_byte_ne _ (off + 2) (off + 1)) by lia.
  rewrite (byte_at_set_byte _ (off + 1)) by (rewrite !length_set_byte; lia).
  rewrite (byte_at_set_byte_ne _ (off + 3) off) by lia.
  rewrite (byte_at_set_byte_ne _ (off + 2) off) by lia.
  rewrite (byte_at_set_byte_ne _ (off + 1) off) by lia.
  rewrite (byte_at_set_byte _ off) by lia.
  assert (Hu : u mod 256 + 2 ^ 8 * (u / 2 ^ 8 mod 256)
               + 2 ^ 16 * (u / 2 ^ 16 mod 256) + 2 ^ 24 * (u / 2 ^ 24 mod 256) = u).
  { assert (0 ≤ u < 2 ^ 32) by (subst u; apply Z.mod_pos_bound; lia).
    change (2 ^ 8) with 256. change (2 ^ 16) with 65536.
    change (2 ^ 24) with 16777216. change (2 ^ 32) with 4294967296 in *.
    Z.to_euclidean_division_equations; lia. }
  rewrite Hu. subst u. unfold to_int.
  change (2 ^ 31) with 2147483648. change (2 ^ 32) with 4294967296.
  Z.to_euclidean_division_equations; lia.
Qed.

Lemma get_put_int_ne buf off off' v :
  0 ≤ off → 0 ≤ off' → off' + 4 ≤ off ∨ off + 4 ≤ off' →
  get_int (put_int buf off v) off' = get_int buf off'.
Proof.
  intros Hoff Hoff' Hne. unfold get_int.
  rewrite !byte_at_put_int_ne by lia. reflexivity.
Qed.

(** ** Writing and reading back *)

Lemma to_int_range z : - 2 ^ 31 ≤ to_int z < 2 ^ 31.
Proof.
  unfold to_int. change (2 ^ 31) with 2147483648. change (2 ^ 32) with 4294967296.
  Z.to_euclidean_division_equations; lia.
Qed.

Lemma bitmap_first_unused_length start num nbits d pos d' :
  0 ≤ start →
  bitmap_first_unused start num nbits d = Done (pos, d') → length d' = length d.
Proof.
  intros Hstart Hrun. unfold bitmap_first_unused in Hrun.
  change 0 with (4096 * 0) in Hrun at 2.
  destruct (bitmap_first_unused_loop_spec start Hstart _ d 0 nbits _ d'
              (Z.le_refl 0) Hrun)
    as [(_ & -> & _)|(bm & _ & _ & _ & -> & _)]; [done|].
  apply Disk_Write__length.
Qed.

(** The inner loop of [File_Read] when the request ends inside the
    sector. *)
Lemma read_bytes_data temp fuel bb count size data :
  length temp = 512%nat → 0 ≤ bb → 0 ≤ size - count →
  bb + (size - count) ≤ 512 → size - count ≤ Z.of_nat fuel →
  read_bytes fuel temp bb count size data
  = (size, data ++ take (Z.to_nat (size - count)) (drop (Z.to_nat bb) temp)).
Proof.
  intros Hlen. revert bb count data.
  induction fuel as [|fuel IH]; intros bb count data Hbb Hc Hfit Hfuel;
    cbn [read_bytes].
  - replace (size - count) with 0 by lia. rewrite take_0, app_nil_r.
    f_equal. lia.
  - destruct ((bb <? 512) && (count <? size)) eqn:E.
    + apply andb_prop in E as [E1%Z.ltb_lt E2%Z.ltb_lt].
      rewrite IH by lia. f_equal. rewrite <- app_assoc. f_equal.
      destruct (lookup_lt_is_Some_2 temp (Z.to_nat bb)) as [x Hx]; [lia|].
      rewrite (drop_S _ _ _ Hx).
      replace (Z.to_nat (size - count)) with (S (Z.to_nat (size - (count + 1))))
        by lia.
      replace (Z.to_nat (bb + 1)) with (S (Z.to_nat bb)) by lia.
      cbn [take app]. f_equal.
      unfold byte_at. by rewrite nth_lookup, Hx.
    + assert (size - count = 0) as ->
        by (apply andb_false_iff in E as [E|E]; lia).
      rewrite take_0, app_nil_r. f_equal.
      apply andb_false_iff in E as [E|E]; lia.
Qed.

Lemma take_drop_bytes wb buffer o n :
  0 ≤ o → o + n ≤ Z.of_nat (length wb) → n ≤ Z.of_nat (length buffer) →
  (∀ j, 0 ≤ j < n → byte_at wb (o + j) = byte_at buffer j) →
  take (Z.to_nat n) (drop (Z.to_nat o) wb) = take (Z.to_nat n) buffer.
Proof.
  intros Ho Hwb Hbuf Hbytes. apply list_eq. intros i.
  destruct (decide (i < Z.to_nat n)%nat) as [Hi|Hi].
  - rewrite !lookup_take_lt by done. rewrite lookup_drop.
    specialize (Hbytes (Z.of_nat i) ltac:(lia)). unfold byte_at in Hbytes.
    rewrite !nth_lookup in Hbytes.
    replace (Z.to_nat (o + Z.of_nat i)) with (Z.to_nat o + i)%nat in Hbytes by lia.
    rewrite Nat2Z.id in Hbytes.
    destruct (lookup_lt_is_Some_2 wb (Z.to_nat o + i)) as [x Hx]; [lia|].
    destruct (lookup_lt_is_Some_2 buffer i) as [y Hy]; [lia|].
    rewrite Hx, Hy in *. cbn in Hbytes. by subst.
  - rewrite !lookup_take_ge by lia. done.
Qed.

Section WriteRead.
Context {geo : Geometry}.

Lemma inode_start_entry_of_range sector :
  - 2 ^ 31 ≤ inode_start_entry_of sector < 2 ^ 31.
Proof. apply to_int_range. Qed.

(** The [assert] on the offset of an inode in its sector. *)
Lemma offset_in_sector_bounds n :
  0 < n < 2 ^ 31 →
  offset_in_sector (n - inode_start_entry_of (inode_sector_of n)) = true →
  0 ≤ n - inode_start_entry_of (inode_sector_of n) < 4.
Proof.
  intros Hn Hassert. unfold offset_in_sector in Hassert.
  apply andb_prop in Hassert as [H1%Z.leb_le H2%Z.ltb_lt].
  pose proof (inode_start_entry_of_range (inode_sector_of n)) as Hr.
  set (k := inode_start_entry_of (inode_sector_of n)) in *.
  unfold to_size_t in H2. change INODES_PER_SECTOR with 4 in H2.
  assert (Hk : 0 ≤ n - k < 2 ^ 64).
  { split; [done|].
    apply Z.lt_trans with (2 ^ 32); [|done].
    change (2 ^ 32) with (2 ^ 31 + 2 ^ 31). lia. }
  rewrite Z.mod_small in H2 by done. lia.
Qed.

(** The loop of [File_Write] stores sector numbers in [data[]] only: the
    size and the type of the inode in the local buffer stay as they
    were. *)
Lemma file_write_loop_inode node pos size buffer left :
  0 ≤ node →
  ∀ d nbuf bs count tempsize c nbuf' d',
    0 ≤ bs →
    file_write_loop left d nbuf node pos size buffer bs count tempsize
    = Done (c, nbuf', d') →
    length nbuf' = length nbuf
    ∧ inode_size nbuf' node = inode_size nbuf node
    ∧ inode_type nbuf' node = inode_type nbuf node.
Proof.
  intros Hnode.
  induction left as [|left IH]; intros d nbuf bs count tempsize c nbuf' d' Hbs;
    rewrite file_write_loop_eq; destruct (count <? size).
  2, 4: intros [= _ <- _]; done.
  - destruct (bitmap_first_unused _ _ _ d) as [[fu d1]|]; discriminate.
  - destruct (bitmap_first_unused _ _ _ d) as [[fu d1]|]; [|discriminate].
    cbv zeta.
    destruct ((if count =? 0 then Z.rem pos 512 else 0) <? 0); [discriminate|].
    destruct (write_bytes _ _ _ _ _ _) as [[wb count'] tempsize'].
    intros (Hl & Hs & Ht)%IH; [|lia].
    rewrite Hl, Hs, Ht.
    unfold set_inode_data, inode_size, inode_type.
    rewrite length_put_int, !get_put_int_ne by lia. done.
Qed.


(** [File_Read] of a request that ends inside the sector of the current
    position. *)
Lemma File_Read_one_sector s fd e size buf base u :
  lookup_fd (open_files s) fd = Some e →
  f_inode e ≠ 0 →
  inode_at (disk s) (f_inode e) buf base →
  0 ≤ f_pos e < 512 * MAX_SECTORS_PER_FILE →
  0 < size → f_pos e mod 512 + size ≤ 512 →
  inode_data buf base (f_pos e / 512) = u → u ≠ 0 →
  length (Disk_Read_ (disk s) u (zeros 512)) = 512%nat →
  File_Read fd size s
  = Done ((size, take (Z.to_nat size)
                   (drop (Z.to_nat (f_pos e mod 512))
                      (Disk_Read_ (disk s) u (zeros 512)))),
          set_open_files
            (store_fd (open_files s) fd
               {| f_inode := f_inode e; f_size := f_size e;
                  f_pos := f_pos e + size |}) s).
Proof.
  intros Hfd Hopen (Hread & Hassert & ->) Hpos Hsize Hfit Hdata Hu Hlwb.
  change MAX_SECTORS_PER_FILE with 30 in Hpos.
  assert (Hb : f_pos e ÷ 512 = f_pos e / 512) by (apply Z.quot_div_nonneg; lia).
  assert (Hbr : 0 ≤ f_pos e / 512 < 30) by (Z.to_euclidean_division_equations; lia).
  assert (Ho : 0 ≤ f_pos e mod 512 < 512) by (Z.to_euclidean_division_equations; lia).
  unfold File_Read, bind, file_entry, get_disk, ret, set_file_entry, crash.
  rewrite Hfd. destruct (f_inode e =? 0) eqn:E0; [lia|].
  rewrite Hread, Hassert, Hb.
  destruct (f_pos e / 512 <? 0) eqn:Eb; [lia|]. cbn [andb].
  change MAX_SECTORS_PER_FILE with 30.
  destruct (Z.to_nat (30 - f_pos e / 512)) as [|left] eqn:Hleft; [lia|].
  rewrite file_read_loop_eq.
  destruct (0 <? size) eqn:E; [|lia].
  cbv zeta. rewrite Hdata.
  destruct (u =? 0) eqn:Eu; [lia|].
  change (0 =? 0) with true. cbv iota.
  rewrite Z.rem_mod_nonneg by lia.
  destruct (f_pos e mod 512 <? 0) eqn:Eo; [lia|].
  rewrite (read_bytes_data _ 512 _ 0 size []) by (try done; lia).
  rewrite file_read_loop_eq, Z.ltb_irrefl.
  rewrite Z.sub_0_r, app_nil_l. reflexivity.
Qed.

(** [File_Write] of a request that ends inside the sector of the current
    position: the state it leaves. *)
Lemma File_Write_one_sector s fd e buffer size buf base u d1 wb :
  lookup_fd (open_files s) fd = Some e →
  f_inode e ≠ 0 →
  inode_at (disk s) (f_inode e) buf base →
  0 ≤ f_pos e < 512 * MAX_SECTORS_PER_FILE →
  0 < size ≤ Z.of_nat (length buffer) →
  f_pos e mod 512 + size ≤ 512 →
  bitmap_first_unused SECTOR_BITMAP_START_SECTOR SECTOR_BITMAP_SECTORS
    SECTOR_BITMAP_SIZE (disk s) = Done (u, d1) →
  inode_data (set_inode_data buf base (f_pos e / 512) u) base (f_pos e / 512) = u →
  write_bytes 512 buffer (zeros 512) (f_pos e mod 512) 0 size = (wb, size, 0) →
  File_Write fd buffer size s
  = Done (size,
          set_open_files
            (store_fd (open_files s) fd
               {| f_inode := f_inode e; f_size := f_size e + size;
                  f_pos := f_pos e + size |})
            (set_disk
               (Disk_Write_ (Disk_Write_ d1 u wb) (inode_sector_of (f_inode e))
                  (set_inode_size (set_inode_data buf base (f_pos e / 512) u) base
                     (inode_size (set_inode_data buf base (f_pos e / 512) u) base
                      + size))) s)).
Proof.
  intros Hfd Hopen (Hread & Hassert & ->) Hpos Hsize Hfit Halloc Hdata Hw.
  change MAX_SECTORS_PER_FILE with 30 in Hpos.
  assert (Hb : f_pos e ÷ SECTOR_SIZE = f_pos e / 512)
    by (apply Z.quot_div_nonneg; lia).
  assert (Hbr : 0 ≤ f_pos e / 512 < 30) by (Z.to_euclidean_division_equations; lia).
  assert (Ho : 0 ≤ f_pos e mod 512 < 512) by (Z.to_euclidean_division_equations; lia).
  unfold File_Write, bind, file_entry, get_disk, ret, set_file_entry, crash,
    put_disk.
  rewrite Hfd. destruct (f_inode e =? 0) eqn:E0; [lia|].
  rewrite Hread, Hassert, Hb.
  destruct (Z.of_nat (length buffer) <? size) eqn:El; [lia|].
  destruct (f_pos e / 512 <? 0) eqn:Eb; [lia|]. cbn [andb].
  change MAX_SECTORS_PER_FILE with 30.
  destruct (Z.to_nat (30 - f_pos e / 512)) as [|left] eqn:Hleft; [lia|].
  rewrite file_write_loop_eq.
  destruct (0 <? size) eqn:E; [|lia].
  rewrite Halloc. cbv zeta. change (0 =? 0) with true. cbv iota.
  rewrite Z.rem_mod_nonneg by lia.
  destruct (f_pos e mod 512 <? 0) eqn:Eo; [lia|].
  rewrite Hw, Hdata.
  rewrite file_write_loop_eq, Z.ltb_irrefl. reflexivity.
Qed.

(** X19: what one descriptor writes, another reads.  Two descriptors are
    open on the same file at the same position, and the request fits in
    the rest of the sector of that position.  The sector bitmap hands out
    a sector [u] of the disk other than the sector of the inode.  Then
    [File_Write] of [size] bytes through the first descriptor returns
    [size], and [File_Read] of [size] bytes through the second one returns
    [size] with exactly the bytes written. *)
Theorem File_Write_then_Read s fd1 fd2 e1 e2 buffer size buf base u d1 :
  lookup_fd (open_files s) fd1 = Some e1 →
  lookup_fd (open_files s) fd2 = Some e2 →
  fd1 ≠ fd2 →
  f_inode e2 = f_inode e1 → f_pos e2 = f_pos e1 →
  0 < f_inode e1 < 2 ^ 31 →
  inode_at (disk s) (f_inode e1) buf base →
  wf_disk (disk s) →
  0 ≤ f_pos e1 < 512 * MAX_SECTORS_PER_FILE →
  0 < size ≤ Z.of_nat (length buffer) →
  f_pos e1 mod 512 + size ≤ 512 →
  0 ≤ SECTOR_BITMAP_START_SECTOR →
  bitmap_first_unused SECTOR_BITMAP_START_SECTOR SECTOR_BITMAP_SECTORS
    SECTOR_BITMAP_SIZE (disk s) = Done (u, d1) →
  0 < u < Z.of_nat (length (disk s)) → u < 2 ^ 31 →
  u ≠ inode_sector_of (f_inode e1) →
  ∃ s1 s2,
    File_Write fd1 buffer size s = Done (size, s1)
    ∧ File_Read fd2 size s1 = Done ((size, take (Z.to_nat size) buffer), s2).
Proof.
  intros Hfd1 Hfd2 Hne Hino Hp2 Hn Hinode Hwf Hpos Hsize Hfit
    Hstart Halloc Hu Hu31 Hsec.
  pose proof Hinode as (Hread & Hassert & Hbase).
  set (isec := inode_sector_of (f_inode e1)) in *.
  set (off := f_inode e1 - inode_start_entry_of isec) in *.
  set (b := f_pos e1 / 512).
  set (o := f_pos e1 mod 512) in *.
  assert (Hbr : 0 ≤ b < 30)
    by (subst b; change MAX_SECTORS_PER_FILE with 30 in Hpos;
        Z.to_euclidean_division_equations; lia).
  assert (Ho : 0 ≤ o < 512) by (subst o; Z.to_euclidean_division_equations; lia).
  assert (Hoff : 0 ≤ off < 4) by (by apply offset_in_sector_bounds).
  assert (Hnode : 0 ≤ base ≤ 384) by (subst base; change sizeof_inode with 128; lia).
  pose proof (wf_disk_read _ _ _ Hwf Hread) as Hlbuf.
  pose proof (bitmap_first_unused_length _ _ _ _ _ _ Hstart Halloc) as Hl1.
  destruct (write_bytes_spec buffer 512 (zeros 512) o 0 size)
    as (wb & Hw & Hlwb & Hin & _); [lia|lia|lia|by rewrite length_zeros|].
  replace (Z.min (512 - o) size) with size in * by lia.
  rewrite Z.add_0_l, Z.sub_diag in Hw.
  set (nbuf1 := set_inode_data buf base b u).
  assert (Hdata1 : inode_data nbuf1 base b = u).
  { unfold inode_data, nbuf1, set_inode_data.
    rewrite get_put_int by lia. apply to_int_small.
    change (2 ^ 31) with 2147483648 in *. lia. }
  set (nbuf3 := set_inode_size nbuf1 base (inode_size nbuf1 base + size)).
  set (d2 := Disk_Write_ d1 u wb).
  set (d3 := Disk_Write_ d2 isec nbuf3).
  set (t1 := store_fd (open_files s) fd1
               {| f_inode := f_inode e1; f_size := f_size e1 + size;
                  f_pos := f_pos e1 + size |}).
  assert (Hisec : 0 ≤ isec < Z.of_nat (length (disk s)))
    by (by apply Disk_Read_Some in Hread as [? _]).
  assert (Hl2 : length d2 = length (disk s))
    by (subst d2; by rewrite Disk_Write__length).
  assert (Hread3 : Disk_Read d3 isec = Some nbuf3).
  { destruct (Disk_Read_in_range d2 isec) as [x Hx]; [lia|].
    by eapply Disk_Read_Write__eq. }
  assert (Hreadu : Disk_Read d3 u = Some wb).
  { subst d3. rewrite Disk_Read_Write__ne by done.
    destruct (Disk_Read_in_range d1 u) as [x Hx]; [lia|].
    by eapply Disk_Read_Write__eq. }
  assert (Hdata3 : inode_data nbuf3 base b = u).
  { rewrite <- Hdata1. unfold inode_data, nbuf3, set_inode_size.
    apply get_put_int_ne; lia. }
  exists (set_open_files t1 (set_disk d3 s)).
  eexists. split.
  { apply (File_Write_one_sector s fd1 e1 buffer size buf base u d1 wb);
      try done; lia. }
  assert (Hfd2' : lookup_fd (open_files (set_open_files t1 (set_disk d3 s))) fd2
                  = Some e2).
  { cbn [open_files set_open_files]. subst t1.
    rewrite lookup_store_ne; [done| |done]. by eapply lookup_fd_nonneg. }
  assert (Hsector : Disk_Read_ (disk (set_open_files t1 (set_disk d3 s))) u
                      (zeros 512) = wb).
  { cbn [disk set_open_files set_disk]. unfold Disk_Read_. by rewrite Hreadu. }
  rewrite (File_Read_one_sector _ fd2 e2 size nbuf3 base u Hfd2').
  - rewrite Hsector, Hp2. fold o.
    rewrite (take_drop_bytes wb buffer o size) by (try lia; done).
    reflexivity.
  - lia.
  - rewrite Hino. unfold inode_at. cbn [disk set_open_files set_disk].
    fold isec. by rewrite Hread3.
  - by rewrite Hp2.
  - lia.
  - by rewrite Hp2.
  - by rewrite Hp2.
  - lia.
  - by rewrite Hsector.
Qed.

End WriteRead.


Lemma File_Write_then_Read_witness :
  ∃ s1 s2,
    File_Write (geo := small_geometry) 0 (c_str "hello") 5 small_shared
    = Done (5, s1)
    ∧ File_Read (geo := small_geometry) 1 5 s1
      = Done ((5, take (Z.to_nat 5) (c_str "hello")), s2).
Proof.
  eapply (File_Write_then_Read (geo := small_geometry) small_shared 0 1
            {| f_inode := 1; f_size := 0; f_pos := 0 |}
            {| f_inode := 1; f_size := 0; f_pos := 0 |}
            (c_str "hello") 5 (Disk_Read_ (disk small_shared) 3 []) 128 10).
  - vm_compute; reflexivity.
  - vm_compute; reflexivity.
  - lia.
  - reflexivity.
  - reflexivity.
  - simpl; lia.
  - unfold inode_at. split; [|split]; vm_compute; reflexivity.
  - apply wf_diskb_true. vm_compute; reflexivity.
  - split; [simpl; lia|vm_compute; reflexivity].
  - split; [lia|vm_compute; discriminate].
  - vm_compute; discriminate.
  - vm_compute; discriminate.
  - vm_compute; reflexivity.
  - split; vm_compute; reflexivity.
  - vm_compute; reflexivity.
  - vm_compute; discriminate.
Defined.

(** ** Allocation in the first bitmap sector *)

(** X20: [bitmap_first_unused] scans whole sectors.  Called with
    [nbits > 0] on a bitmap whose first sector has a clear bit, it hands
    out the lowest clear bit [j] of that sector, whether or not [j] is
    below [nbits], and sets it. *)
Theorem bitmap_first_unused_first_sector start num nbits d bm j :
  0 < nbits → 0 ≤ j < 4096 →
  Disk_Read d start = Some bm →
  bitmap_bit d start j = 0 →
  (∀ i, 0 ≤ i < j → bitmap_bit d start i = 1) →
  bitmap_first_unused start num nbits d
  = Done (j, Disk_Write_ d start
               (set_byte bm (j / 8)
                  (Z.lor (byte_at bm (j / 8)) (Z.shiftl 1 (7 - j mod 8))))).
Proof.
  intros Hn Hj Hread Hzero Hones.
  assert (Hbit : ∀ i, 0 ≤ i < 4096 →
            bitmap_bit d start i
            = Z.b2z (Z.testbit (byte_at bm (i / 8)) (7 - i mod 8))).
  { intros i Hi. rewrite <- (bitmap_bit_in_sector d start 0 bm i Hi).
    - f_equal; lia.
    - by rewrite Z.add_0_r. }
  unfold bitmap_first_unused. cbn [bitmap_first_unused_loop].
  destruct (0 <? nbits) eqn:En; [|lia].
  rewrite Z.add_0_r, Hread.
  pose proof (scan_bytes_spec 512 bm 0 0 nbits ltac:(lia)) as Hscan.
  destruct (scan_bytes 512 bm 0 0 nbits) as [byte bit pos|p n].
  - destruct Hscan as (Hbyte & Hbitr & -> & Hclear & Hbefore).
    assert (Hpos : 0 + 8 * (byte - 0) + bit = j).
    { set (pos := 0 + 8 * (byte - 0) + bit).
      assert (Hp : 0 ≤ pos < 4096) by (subst pos; lia).
      assert (Hpb : pos / 8 = byte ∧ pos mod 8 = bit)
        by (subst pos; Z.to_euclidean_division_equations; lia).
      destruct Hpb as [Hpb Hpm].
      destruct (Z.lt_trichotomy pos j) as [Hlt|[Heq|Hgt]]; [|done|].
      - specialize (Hones pos ltac:(lia)). rewrite Hbit in Hones by done.
        rewrite Hpb, Hpm, Hclear in Hones. discriminate.
      - specialize (Hbefore j ltac:(subst pos; lia)).
        rewrite Hbit, Hbefore in Hzero by done. discriminate. }
    rewrite Hpos.
    replace byte with (j / 8) by (Z.to_euclidean_division_equations; lia).
    replace bit with (j mod 8) by (Z.to_euclidean_division_equations; lia).
    reflexivity.
  - destruct Hscan as (_ & _ & Hall).
    specialize (Hall j ltac:(lia)).
    rewrite Hbit, Hall in Hzero by done. discriminate.
Qed.

Lemma bitmap_first_unused_first_sector_witness :
  bitmap_first_unused 2 1 8 (disk small_opened)
  = Done (12, Disk_Write_ (disk small_opened) 2
                (set_byte (Disk_Read_ (disk small_opened) 2 []) (12 / 8)
                   (Z.lor (byte_at (Disk_Read_ (disk small_opened) 2 []) (12 / 8))
                      (Z.shiftl 1 (7 - 12 mod 8))))).
Proof.
  apply (bitmap_first_unused_first_sector 2 1 8 (disk small_opened)
           (Disk_Read_ (disk small_opened) 2 []) 12).
  - lia.
  - lia.
  - vm_compute; reflexivity.
  - vm_compute; reflexivity.
  - intros i Hi.
    assert (i = 0 ∨ i = 1 ∨ i = 2 ∨ i = 3 ∨ i = 4 ∨ i = 5 ∨ i = 6 ∨ i = 7
            ∨ i = 8 ∨ i = 9 ∨ i = 10 ∨ i = 11)
      as [->|[->|[->|[->|[->|[->|[->|[->|[->|[->|[->| ->]]]]]]]]]]] by lia;
      vm_compute; reflexivity.
Defined.

(** ** Names and directory entries *)

Lemma illegal_filename_false name :
  illegal_filename name = false →
  Z.of_nat (length name) ≤ 15 ∧ Forall (λ c, c ≠ 0 ∧ c ≠ 47) name.
Proof.
  unfold illegal_filename. change (MAX_NAME - 1) with 15.
  destruct (15 <? Z.of_nat (length name)) eqn:E; [discriminate|].
  intros H%negb_false_iff. split; [lia|].
  rewrite forallb_forall in H. apply Forall_forall. intros c Hc.
  apply list_elem_of_In in Hc. specialize (H c Hc).
  split; intros ->; discriminate H.
Qed.

Lemma take_cstr_app_zero name rest :
  Forall (λ c, c ≠ 0) name → take_cstr (name ++ 0 :: rest) = name.
Proof.
  induction 1 as [|x name Hx Hname IH]; simpl; [done|].
  destruct (x =? 0) eqn:E; [lia|]. by f_equal.
Qed.

Lemma take_cstr_insert l i b j :
  (j < i)%nat → l !! j = Some 0 → take_cstr (<[i:=b]> l) = take_cstr l.
Proof.
  revert i j. induction l as [|x l IH]; intros i j Hji Hj; [done|].
  destruct i as [|i]; [lia|]. simpl.
  destruct (x =? 0) eqn:E; [done|]. f_equal.
  destruct j as [|j]; simpl in Hj.
  - injection Hj as ->. discriminate.
  - apply (IH i j); [lia|done].
Qed.

Lemma take_cstr_put_int l off v j :
  0 ≤ off → (j < Z.to_nat off)%nat → l !! j = Some 0 →
  take_cstr (put_int l off v) = take_cstr l.
Proof.
  intros Hoff Hj Hl. unfold put_int, set_byte.
  rewrite (take_cstr_insert _ _ _ j);
    [|lia|by rewrite !list_lookup_insert_ne by lia].
  rewrite (take_cstr_insert _ _ _ j);
    [|lia|by rewrite !list_lookup_insert_ne by lia].
  rewrite (take_cstr_insert _ _ _ j);
    [|lia|by rewrite !list_lookup_insert_ne by lia].
  by rewrite (take_cstr_insert _ _ _ j).
Qed.

Lemma bytes_eqb_refl a : bytes_eqb a a = true.
Proof. induction a as [|x a IH]; simpl; [done|]. by rewrite Z.eqb_refl. Qed.

Lemma strsep_all_no_slash l cur :
  Forall (λ c, c ≠ 47) l → strsep_all l cur = [rev cur ++ l].
Proof.
  revert cur. induction l as [|x l IH]; intros cur Hl; simpl.
  - by rewrite app_nil_r.
  - inversion Hl as [|? ? Hx Hl']; subst.
    destruct (x =? 47) eqn:E; [lia|].
    rewrite IH by done. simpl. by rewrite <- app_assoc.
Qed.

(** The directory entry [add_inode] writes at the start of a fresh
    sector. *)
Lemma first_dirent_written name c :
  Z.of_nat (length name) ≤ 15 → Forall (λ x, x ≠ 0) name →
  - 2 ^ 31 ≤ c < 2 ^ 31 →
  length (put_int (strncpy_at (zeros SECTOR_SIZE) 0 name MAX_NAME) (0 + MAX_NAME) c)
  = 512%nat
  ∧ dirent_fname
      (put_int (strncpy_at (zeros SECTOR_SIZE) 0 name MAX_NAME) (0 + MAX_NAME) c) 0
    = name
  ∧ dirent_inode
      (put_int (strncpy_at (zeros SECTOR_SIZE) 0 name MAX_NAME) (0 + MAX_NAME) c) 0
    = c.
Proof.
  intros Hlen Hnz Hc.
  assert (Hcopy : strncpy_at (zeros SECTOR_SIZE) 0 name MAX_NAME
                  = name ++ 0 :: replicate (15 - length name) 0 ++ replicate 496 0).
  { unfold strncpy_at. change (Z.to_nat 0) with 0%nat.
    change (Z.to_nat MAX_NAME) with 16%nat. rewrite take_0. cbn [app].
    rewrite take_app_ge by lia.
    assert (Hpad : take (16 - length name) (zeros MAX_NAME)
                   = 0 :: replicate (15 - length name) 0).
    { unfold zeros. change (Z.to_nat MAX_NAME) with 16%nat.
      rewrite take_replicate.
      replace ((16 - length name) `min` 16)%nat with (S (15 - length name)) by lia.
      reflexivity. }
    rewrite Hpad. rewrite <- app_assoc. f_equal. cbn [app]. f_equal. f_equal.
    rewrite length_app. cbn [length]. rewrite length_replicate.
    unfold zeros. change (Z.to_nat SECTOR_SIZE) with 512%nat.
    rewrite drop_replicate. f_equal. lia. }
  rewrite Hcopy.
  set (X := name ++ 0 :: replicate (15 - length name) 0 ++ replicate 496 0).
  assert (HlX : length X = 512%nat).
  { subst X. rewrite length_app. cbn [length].
    rewrite length_app, !length_replicate. lia. }
  split; [by rewrite length_put_int|]. split.
  - unfold dirent_fname, cstr_at. change (Z.to_nat (0 * sizeof_dirent)) with 0%nat.
    rewrite drop_0.
    rewrite (take_cstr_put_int X _ _ (length name)).
    + by apply take_cstr_app_zero.
    + done.
    + change (Z.to_nat (0 + MAX_NAME)) with 16%nat. lia.
    + subst X. rewrite lookup_app_r by lia. by rewrite Nat.sub_diag.
  - unfold dirent_inode. change (0 * sizeof_dirent + MAX_NAME) with (0 + MAX_NAME).
    rewrite get_put_int by (change (0 + MAX_NAME) with 16; lia).
    by apply to_int_small.
Qed.

(** ** Clearing an inode record *)

Lemma length_memzero_at buf off n :
  0 ≤ off → 0 ≤ n → off + n ≤ Z.of_nat (length buf) →
  length (memzero_at buf off n) = length buf.
Proof.
  intros Hoff Hn Hfit. unfold memzero_at, memset.
  rewrite !length_app, length_take, length_replicate, !length_drop. lia.
Qed.

Lemma byte_at_memzero_at buf off n j :
  0 ≤ off → 0 ≤ n → off + n ≤ Z.of_nat (length buf) → 0 ≤ j →
  byte_at (memzero_at buf off n) j
  = if (off <=? j) && (j <? off + n) then 0 else byte_at buf j.
Proof.
  intros Hoff Hn Hfit Hj. unfold byte_at, memzero_at, memset.
  rewrite !nth_lookup.
  destruct (Z_lt_le_dec j off) as [Hlt|Hge].
  - replace ((off <=? j) && (j <? off + n)) with false
      by (symmetry; apply andb_false_iff; left; apply Z.leb_gt; lia).
    rewrite lookup_app_l by (rewrite length_take; lia).
    by rewrite lookup_take_lt by lia.
  - rewrite lookup_app_r by (rewrite length_take; lia).
    rewrite length_take.
    replace (Z.to_nat j - Z.to_nat off `min` length buf)%nat
      with (Z.to_nat (j - off)) by lia.
    destruct (Z_lt_le_dec j (off + n)) as [Hin|Hout].
    + replace ((off <=? j) && (j <? off + n)) with true
        by (symmetry; apply andb_true_intro;
            split; [apply Z.leb_le|apply Z.ltb_lt]; lia).
      rewrite lookup_app_l by (rewrite length_replicate; lia).
      by rewrite lookup_replicate_2 by lia.
    + replace ((off <=? j) && (j <? off + n)) with false
        by (symmetry; apply andb_false_iff; right; apply Z.ltb_ge; lia).
      rewrite lookup_app_r by (rewrite length_replicate; lia).
      rewrite length_replicate, !lookup_drop. do 2 f_equal. lia.
Qed.

Lemma get_int_ext b1 b2 off :
  (∀ k, 0 ≤ k < 4 → byte_at b1 (off + k) = byte_at b2 (off + k)) →
  get_int b1 off = get_int b2 off.
Proof.
  intros H. unfold get_int.
  rewrite (H 1), (H 2), (H 3) by lia.
  specialize (H 0 ltac:(lia)). rewrite Z.add_0_r in H. by rewrite H.
Qed.

Lemma get_int_memzero_at_ne buf off n i :
  0 ≤ off → 0 ≤ n → off + n ≤ Z.of_nat (length buf) → 0 ≤ i →
  i + 4 ≤ off ∨ off + n ≤ i →
  get_int (memzero_at buf off n) i = get_int buf i.
Proof.
  intros Hoff Hn Hfit Hi Hne. apply get_int_ext. intros k Hk.
  rewrite byte_at_memzero_at by lia.
  destruct ((off <=? i + k) && (i + k <? off + n)) eqn:E; [|done].
  apply andb_prop in E as [E1%Z.leb_le E2%Z.ltb_lt]. lia.
Qed.

Lemma get_int_memzero_at_in buf off n i :
  0 ≤ off → 0 ≤ n → off + n ≤ Z.of_nat (length buf) →
  off ≤ i → i + 4 ≤ off + n →
  get_int (memzero_at buf off n) i = 0.
Proof.
  intros Hoff Hn Hfit Hi Hin. unfold get_int.
  rewrite !byte_at_memzero_at by lia.
  repeat match goal with
         | |- context [(?a <=? ?b) && (?c <? ?d)] =>
             replace ((a <=? b) && (c <? d)) with true
               by (symmetry; apply andb_true_intro;
                   split; [apply Z.leb_le|apply Z.ltb_lt]; lia)
         end.
  reflexivity.
Qed.

(** ** The first entry of a directory *)

Section CreateFirst.
Context {geo : Geometry}.

Lemma inode_start_entry_of_table_start :
  inode_start_entry_of INODE_TABLE_START_SECTOR = 0.
Proof. unfold inode_start_entry_of. rewrite Z.sub_diag. reflexivity. Qed.

Lemma inode_sector_of_first c :
  0 ≤ c < 4 → 0 ≤ INODE_TABLE_START_SECTOR < 2 ^ 31 →
  inode_sector_of c = INODE_TABLE_START_SECTOR.
Proof.
  intros Hc Hits. unfold inode_sector_of, to_size_t.
  change INODES_PER_SECTOR with 4.
  rewrite (Z.mod_small c) by lia.
  replace (c / 4) with 0 by (Z.to_euclidean_division_equations; lia).
  rewrite Z.add_0_r, Z.mod_small by lia. apply to_int_small. lia.
Qed.

Lemma offset_in_sector_first c : 0 ≤ c < 4 → offset_in_sector c = true.
Proof.
  intros Hc. unfold offset_in_sector, to_size_t. change INODES_PER_SECTOR with 4.
  rewrite Z.mod_small by lia.
  apply andb_true_intro. split; [apply Z.leb_le|apply Z.ltb_lt]; lia.
Qed.

Lemma layout_increasing :
  0 < MAX_FILES → 0 < TOTAL_SECTORS →
  INODE_BITMAP_START_SECTOR = 1
  ∧ 1 < SECTOR_BITMAP_START_SECTOR < INODE_TABLE_START_SECTOR
  ∧ 0 < INODE_BITMAP_SIZE ∧ 0 < SECTOR_BITMAP_SIZE.
Proof.
  intros Hf Ht.
  unfold INODE_TABLE_START_SECTOR, SECTOR_BITMAP_START_SECTOR,
    INODE_BITMAP_START_SECTOR, INODE_BITMAP_SECTORS, SECTOR_BITMAP_SECTORS,
    INODE_BITMAP_SIZE, SECTOR_BITMAP_SIZE.
  change SECTOR_SIZE with 512.
  rewrite (Z.quot_div_nonneg (MAX_FILES + 7)) by lia.
  rewrite (Z.quot_div_nonneg (TOTAL_SECTORS + 7)) by lia.
  rewrite !Z.quot_div_nonneg by (try lia; Z.to_euclidean_division_equations; lia).
  Z.to_euclidean_division_equations; lia.
Qed.

(** The walk of ["/name"] on a disk whose root directory is empty. *)
Lemma follow_path_empty_root d nm rbuf :
  Disk_Read d INODE_TABLE_START_SECTOR = Some rbuf →
  inode_type rbuf 0 = 1 → inode_size rbuf 0 = 0 →
  c_str nm ≠ [] → illegal_filename (c_str nm) = false →
  follow_path d (String "/" nm)
  = Done (Build_path_result 0 (Some (-1)) (Some (c_str nm))).
Proof.
  intros Hread Htype Hsize Hne Hlegal.
  destruct (illegal_filename_false _ Hlegal) as [Hlen Hchars].
  unfold follow_path. rewrite c_str_slash, Hread.
  rewrite take_ge by (change (Z.to_nat (MAX_PATH - 1)) with 255%nat; lia).
  rewrite strsep_all_no_slash by (eapply Forall_impl; [exact Hchars|]; by intros x [_ ?]).
  cbn [rev app follow_tokens].
  destruct (c_str nm) as [|a name] eqn:Hname; [done|].
  rewrite Hlegal. change (0 <? 0) with false. cbv iota.
  unfold find_child_inode. rewrite inode_start_entry_of_table_start.
  change (0 - 0) with 0. rewrite offset_in_sector_first by lia.
  change (0 * sizeof_inode) with 0. rewrite Htype, Hsize.
  change (1 =? 1) with true. cbv iota.
  change (Z.to_nat MAX_SECTORS_PER_FILE) with 30%nat.
  cbn [find_child_loop]. change (0 <? 0) with false. cbv iota.
  cbn [follow_tokens]. reflexivity.
Qed.


(** [add_inode] for the first entry of an empty root directory: the child
    [c] is the lowest free inode, in the sector of the root inode, and the
    sector [u] is the lowest free sector. *)
Lemma add_inode_empty_root type name d rbuf c u :
  0 < MAX_FILES → 0 < TOTAL_SECTORS →
  INODE_TABLE_START_SECTOR < 2 ^ 31 →
  wf_disk d →
  Disk_Read d INODE_TABLE_START_SECTOR = Some rbuf →
  inode_type rbuf 0 = 1 → inode_size rbuf 0 = 0 →
  Z.of_nat (length name) ≤ 15 → Forall (λ x, x ≠ 0) name →
  type = 0 ∨ type = 1 →
  1 ≤ c ≤ 3 →
  bitmap_bit d INODE_BITMAP_START_SECTOR c = 0 →
  (∀ i, 0 ≤ i < c → bitmap_bit d INODE_BITMAP_START_SECTOR i = 1) →
  0 ≤ u < 4096 → u < Z.of_nat (length d) → u ≠ INODE_TABLE_START_SECTOR →
  bitmap_bit d SECTOR_BITMAP_START_SECTOR u = 0 →
  (∀ i, 0 ≤ i < u → bitmap_bit d SECTOR_BITMAP_START_SECTOR i = 1) →
  ∃ d5 buf1 dbuf,
    add_inode type 0 name d = Done (0, d5)
    ∧ Disk_Read d5 INODE_TABLE_START_SECTOR = Some buf1
    ∧ Disk_Read d5 u = Some dbuf
    ∧ inode_type buf1 0 = 1 ∧ inode_size buf1 0 = 1 ∧ inode_data buf1 0 0 = u
    ∧ inode_type buf1 (c * sizeof_inode) = type
    ∧ inode_size buf1 (c * sizeof_inode) = 0
    ∧ dirent_fname dbuf 0 = name ∧ dirent_inode dbuf 0 = c
    ∧ (∀ i, 0 ≤ i < MAX_SECTORS_PER_FILE →
            inode_data buf1 (c * sizeof_inode) i = 0)
    ∧ wf_disk d5.
Proof.
  intros Hf Ht Hits31 Hwf Hread Htype Hsize Hlen Hnz Hty Hc Hc0 Hc1
    Hu Hulen Hune Hu0 Hu1.
  destruct (layout_increasing Hf Ht) as (Hibs & Hsbs & Hisz & Hssz).
  pose proof (wf_disk_read _ _ _ Hwf Hread) as Hlr.
  assert (Hitsr : 0 ≤ INODE_TABLE_START_SECTOR < Z.of_nat (length d))
    by (by apply Disk_Read_Some in Hread as [? _]).
  destruct (Disk_Read_in_range d INODE_BITMAP_START_SECTOR) as [bmi Hbmi]; [lia|].
  destruct (Disk_Read_in_range d SECTOR_BITMAP_START_SECTOR) as [bms Hbms]; [lia|].
  (* the inode *)
  pose proof (bitmap_first_unused_first_sector INODE_BITMAP_START_SECTOR
                INODE_BITMAP_SECTORS INODE_BITMAP_SIZE d bmi c Hisz ltac:(lia)
                Hbmi Hc0 Hc1) as Halloc1.
  set (d1 := Disk_Write_ d INODE_BITMAP_START_SECTOR _) in Halloc1.
  assert (Hl1 : length d1 = length d) by apply Disk_Write__length.
  assert (Hr1 : Disk_Read d1 INODE_TABLE_START_SECTOR = Some rbuf).
  { subst d1. rewrite Disk_Read_Write__ne by lia. done. }
  set (cb := c * sizeof_inode).
  assert (Hcb : cb = c * 128) by done.
  set (cbuf := set_inode_type (memzero_at rbuf cb sizeof_inode) cb type).
  assert (Hlz : length (memzero_at rbuf cb sizeof_inode) = 512%nat).
  { rewrite length_memzero_at; [done|lia|done|].
    change sizeof_inode with 128. lia. }
  assert (Hlc : length cbuf = 512%nat)
    by (unfold cbuf, set_inode_type; by rewrite length_put_int).
  set (d2 := <[Z.to_nat INODE_TABLE_START_SECTOR := cbuf]> d1).
  assert (Hw2 : Disk_Write d1 INODE_TABLE_START_SECTOR cbuf = Some d2)
    by (apply Disk_Write_in_range; lia).
  assert (Hl2 : length d2 = length d) by (subst d2; rewrite length_insert; lia).
  assert (Hr2 : Disk_Read d2 INODE_TABLE_START_SECTOR = Some cbuf)
    by (by eapply Disk_Read_Write_eq).
  assert (Hc_type0 : inode_type cbuf 0 = 1).
  { unfold inode_type, cbuf, set_inode_type.
    rewrite get_put_int_ne by lia.
    rewrite get_int_memzero_at_ne by (change sizeof_inode with 128; lia).
    exact Htype. }
  assert (Hc_size0 : inode_size cbuf 0 = 0).
  { unfold inode_size, cbuf, set_inode_type.
    rewrite get_put_int_ne by lia.
    rewrite get_int_memzero_at_ne by (change sizeof_inode with 128; lia).
    exact Hsize. }
  assert (Hc_typec : inode_type cbuf cb = type).
  { unfold inode_type, cbuf, set_inode_type.
    rewrite get_put_int by lia. apply to_int_small.
    change (2 ^ 31) with 2147483648. lia. }
  assert (Hc_sizec : inode_size cbuf cb = 0).
  { unfold inode_size, cbuf, set_inode_type.
    rewrite get_put_int_ne by lia.
    apply get_int_memzero_at_in; change sizeof_inode with 128; lia. }
  (* the sector *)
  assert (Hbits2 : ∀ i, 0 ≤ i < 4096 →
            bitmap_bit d2 SECTOR_BITMAP_START_SECTOR i
            = bitmap_bit d SECTOR_BITMAP_START_SECTOR i).
  { intros i Hi. apply bitmap_bit_ext.
    replace (i / 4096) with 0 by (Z.to_euclidean_division_equations; lia).
    rewrite Z.add_0_r.
    rewrite (Disk_Read_Write_ne _ _ _ _ _ Hw2) by lia.
    subst d1. apply Disk_Read_Write__ne. lia. }
  assert (Hbms2 : Disk_Read d2 SECTOR_BITMAP_START_SECTOR = Some bms).
  { rewrite (Disk_Read_Write_ne _ _ _ _ _ Hw2) by lia.
    subst d1. rewrite Disk_Read_Write__ne by lia. done. }
  pose proof (bitmap_first_unused_first_sector SECTOR_BITMAP_START_SECTOR
                SECTOR_BITMAP_SECTORS SECTOR_BITMAP_SIZE d2 bms u Hssz Hu Hbms2)
    as Halloc2.
  rewrite Hbits2 in Halloc2 by done. specialize (Halloc2 Hu0).
  assert (Hu1' : ∀ i, 0 ≤ i < u → bitmap_bit d2 SECTOR_BITMAP_START_SECTOR i = 1)
    by (intros i Hi; rewrite Hbits2 by lia; by apply Hu1).
  specialize (Halloc2 Hu1').
  set (d3 := Disk_Write_ d2 SECTOR_BITMAP_START_SECTOR _) in Halloc2.
  assert (Hl3 : length d3 = length d)
    by (subst d3; rewrite Disk_Write__length; done).
  set (pbuf := set_inode_data cbuf 0 0 u).
  assert (Hlp : length pbuf = 512%nat)
    by (unfold pbuf, set_inode_data; by rewrite length_put_int).
  assert (Hp_size0 : inode_size pbuf 0 = 0).
  { unfold inode_size, pbuf, set_inode_data.
    rewrite get_put_int_ne by lia. exact Hc_size0. }
  assert (Hp_data : inode_data pbuf 0 0 = u).
  { unfold inode_data, pbuf, set_inode_data.
    rewrite get_put_int by lia. apply to_int_small.
    change (2 ^ 31) with 2147483648. lia. }
  destruct (first_dirent_written name c Hlen Hnz) as (Hld & Hdname & Hdino).
  { change (2 ^ 31) with 2147483648. lia. }
  set (dbuf := put_int (strncpy_at (zeros SECTOR_SIZE) 0 name MAX_NAME)
                 (0 + MAX_NAME) c) in *.
  set (d4 := <[Z.to_nat u := dbuf]> d3).
  assert (Hw4 : Disk_Write d3 u dbuf = Some d4)
    by (apply Disk_Write_in_range; lia).
  set (buf1 := set_inode_size pbuf 0 (0 + 1)).
  assert (Hlb : length buf1 = 512%nat)
    by (unfold buf1, set_inode_size; by rewrite length_put_int).
  set (d5 := <[Z.to_nat INODE_TABLE_START_SECTOR := buf1]> d4).
  assert (Hw5 : Disk_Write d4 INODE_TABLE_START_SECTOR buf1 = Some d5).
  { apply Disk_Write_in_range. subst d4. rewrite length_insert. lia. }
  exists d5, buf1, dbuf.
  split.
  { unfold add_inode, rbind. rewrite Halloc1.
    destruct (c <? 0) eqn:Ec; [lia|].
    rewrite !inode_sector_of_first by lia.
    rewrite Hr1, inode_start_entry_of_table_start, Z.sub_0_r.
    rewrite offset_in_sector_first by lia. cbn [negb]. fold cb cbuf.
    rewrite Hw2, Hr2. change (0 - 0) with 0.
    rewrite offset_in_sector_first by lia. cbn [negb].
    change (0 * sizeof_inode) with 0.
    rewrite Hc_type0. change (1 =? 1) with true. cbn [negb].
    rewrite Hc_size0.
    change (to_int (to_size_t 0 / DIRENTS_PER_SECTOR)) with 0.
    change (to_size_t (0 * DIRENTS_PER_SECTOR) =? to_size_t 0) with true.
    cbv iota. rewrite Halloc2.
    destruct (u <? 0) eqn:Eu; [lia|].
    change ((0 <=? 0) && (0 <? MAX_SECTORS_PER_FILE)) with true. cbv iota.
    fold pbuf. unfold add_dirent.
    change (to_int (to_size_t (0 * DIRENTS_PER_SECTOR))) with 0.
    rewrite Hp_size0. change (0 - 0) with 0.
    change ((0 <=? 0) && (0 <? DIRENTS_PER_SECTOR)) with true. cbv iota.
    change (0 * sizeof_dirent) with 0. fold dbuf.
    rewrite Hp_data, Hw4. fold buf1. rewrite Hw5. reflexivity. }
  split; [by eapply Disk_Read_Write_eq|].
  split.
  { rewrite (Disk_Read_Write_ne _ _ _ _ _ Hw5) by done.
    by eapply Disk_Read_Write_eq. }
  split.
  { unfold inode_type, buf1, set_inode_size, pbuf, set_inode_data.
    rewrite !get_put_int_ne by lia. exact Hc_type0. }
  split.
  { unfold inode_size, buf1, set_inode_size. by rewrite get_put_int by lia. }
  split.
  { unfold inode_data, buf1, set_inode_size.
    rewrite get_put_int_ne by lia. exact Hp_data. }
  split.
  { unfold inode_type, buf1, set_inode_size, pbuf, set_inode_data.
    rewrite !get_put_int_ne by lia. exact Hc_typec. }
  split.
  { unfold inode_size, buf1, set_inode_size, pbuf, set_inode_data.
    rewrite !get_put_int_ne by lia. exact Hc_sizec. }
  split; [done|]. split; [done|]. split.
  { intros i Hi. change MAX_SECTORS_PER_FILE with 30 in Hi.
    unfold inode_data, buf1, set_inode_size, pbuf, set_inode_data, cbuf,
      set_inode_type.
    rewrite !get_put_int_ne by lia.
    apply get_int_memzero_at_in; change sizeof_inode with 128; lia. }
  eapply wf_disk_write; [|exact Hlb|exact Hw5].
  eapply wf_disk_write; [|exact Hld|exact Hw4].
  apply wf_disk_write_; [|by rewrite length_set_byte; eapply wf_disk_read].
  eapply wf_disk_write; [|exact Hlc|exact Hw2].
  apply wf_disk_write_; [done|].
  rewrite length_set_byte. by eapply wf_disk_read.
Qed.

(** The walk of ["/name"] when the name is the first entry of the root
    directory. *)
Lemma follow_path_first_entry d nm buf1 dbuf c u :
  0 ≤ INODE_TABLE_START_SECTOR < 2 ^ 31 →
  Disk_Read d INODE_TABLE_START_SECTOR = Some buf1 →
  Disk_Read d u = Some dbuf →
  inode_type buf1 0 = 1 → inode_size buf1 0 = 1 → inode_data buf1 0 0 = u →
  dirent_fname dbuf 0 = c_str nm → dirent_inode dbuf 0 = c → 0 ≤ c ≤ 3 →
  c_str nm ≠ [] → illegal_filename (c_str nm) = false →
  follow_path d (String "/" nm)
  = Done (Build_path_result 0 (Some c) (Some (c_str nm))).
Proof.
  intros Hits Hread Hreadu Htype Hsize Hdata Hdname Hdino Hc Hne Hlegal.
  destruct (illegal_filename_false _ Hlegal) as [Hlen Hchars].
  unfold follow_path. rewrite c_str_slash, Hread.
  rewrite take_ge by (change (Z.to_nat (MAX_PATH - 1)) with 255%nat; lia).
  rewrite strsep_all_no_slash by (eapply Forall_impl; [exact Hchars|]; by intros x [_ ?]).
  cbn [rev app follow_tokens].
  destruct (c_str nm) as [|a name] eqn:Hname; [done|].
  rewrite Hlegal. change (0 <? 0) with false. cbv iota.
  unfold find_child_inode. rewrite inode_start_entry_of_table_start.
  change (0 - 0) with 0. rewrite offset_in_sector_first by lia.
  change (0 * sizeof_inode) with 0. rewrite Htype, Hsize.
  change (1 =? 1) with true. cbv iota.
  change (Z.to_nat MAX_SECTORS_PER_FILE) with 30%nat.
  cbn [find_child_loop]. change (0 <? 1) with true. cbv iota.
  rewrite Hdata, Hreadu.
  change (seqZ 0 DIRENTS_PER_SECTOR) with (0 :: seqZ 1 24).
  cbn [scan_dirents]. change (1 <? 0) with false. cbv iota.
  rewrite Hdname, bytes_eqb_refl, Hdino.
  rewrite inode_sector_of_first by lia. rewrite Z.eqb_refl.
  cbn [follow_tokens].
  destruct (c <? -1) eqn:Ec; [lia|]. reflexivity.
Qed.

(** Creating the first entry of an empty root directory, and what the
    disk holds afterwards. *)
Lemma create_in_empty_root junk type nm s rbuf c u :
  0 < MAX_FILES → 0 < TOTAL_SECTORS →
  INODE_TABLE_START_SECTOR < 2 ^ 31 →
  wf_disk (disk s) →
  Disk_Read (disk s) INODE_TABLE_START_SECTOR = Some rbuf →
  inode_type rbuf 0 = 1 → inode_size rbuf 0 = 0 →
  c_str nm ≠ [] → illegal_filename (c_str nm) = false →
  type = 0 ∨ type = 1 →
  1 ≤ c ≤ 3 →
  bitmap_bit (disk s) INODE_BITMAP_START_SECTOR c = 0 →
  (∀ i, 0 ≤ i < c → bitmap_bit (disk s) INODE_BITMAP_START_SECTOR i = 1) →
  0 ≤ u < 4096 → u < Z.of_nat (length (disk s)) →
  u ≠ INODE_TABLE_START_SECTOR →
  bitmap_bit (disk s) SECTOR_BITMAP_START_SECTOR u = 0 →
  (∀ i, 0 ≤ i < u → bitmap_bit (disk s) SECTOR_BITMAP_START_SECTOR i = 1) →
  ∃ d5 buf1,
    create_file_or_directory junk type (String "/" nm) s
    = Done (0, set_disk d5 s)
    ∧ follow_path d5 (String "/" nm)
      = Done (Build_path_result 0 (Some c) (Some (c_str nm)))
    ∧ Disk_Read d5 INODE_TABLE_START_SECTOR = Some buf1
    ∧ inode_type buf1 0 = 1 ∧ inode_size buf1 0 = 1
    ∧ inode_type buf1 (c * sizeof_inode) = type
    ∧ inode_size buf1 (c * sizeof_inode) = 0
    ∧ (∃ dbuf, Disk_Read d5 u = Some dbuf ∧ inode_data buf1 0 0 = u
               ∧ dirent_fname dbuf 0 = c_str nm ∧ dirent_inode dbuf 0 = c)
    ∧ (∀ i, 0 ≤ i < MAX_SECTORS_PER_FILE →
            inode_data buf1 (c * sizeof_inode) i = 0)
    ∧ wf_disk d5.
Proof.
  intros Hf Ht Hits31 Hwf Hread Htype Hsize Hne Hlegal Hty Hc Hc0 Hc1
    Hu Hulen Hune Hu0 Hu1.
  destruct (illegal_filename_false _ Hlegal) as [Hlen Hchars].
  assert (Hnz : Forall (λ x, x ≠ 0) (c_str nm))
    by (eapply Forall_impl; [exact Hchars|]; by intros x [? _]).
  assert (Hits : 0 ≤ INODE_TABLE_START_SECTOR)
    by (by apply Disk_Read_Some in Hread as [[? _] _]).
  destruct (add_inode_empty_root type (c_str nm) (disk s) rbuf c u
              Hf Ht Hits31 Hwf Hread Htype Hsize Hlen Hnz Hty Hc Hc0 Hc1
              Hu Hulen Hune Hu0 Hu1)
    as (d5 & buf1 & dbuf & Hadd & Hr5 & Hru & Ht0 & Hs0 & Hd0 & Htc & Hsc
        & Hdn & Hdi & Hzero & Hwf5).
  exists d5, buf1. split.
  { unfold create_file_or_directory, bind, pure_disk, on_disk, ret, fail_with.
    rewrite (follow_path_empty_root _ _ _ Hread Htype Hsize Hne Hlegal).
    cbn [fp_ret child_of fp_last_inode fname_of fp_last_fname default].
    change (0 <=? 0) with true. change (0 <=? -1) with false. cbv iota.
    cbn [disk]. unfold id. rewrite Hadd. reflexivity. }
  split.
  { apply (follow_path_first_entry d5 nm buf1 dbuf c u); try done; lia. }
  do 5 (split; [done|]). split; [by exists dbuf|]. done.
Qed.

(** X21: the first name created in an empty root directory can be
    resolved at once.  The root inode is an empty directory, the name is
    legal, the lowest free inode [c] lies in the sector of the root inode
    and the lowest free sector [u] is a sector of the disk other than
    that one.  Then [File_Create] ([type] 0) and [Dir_Create] ([type] 1)
    on ["/name"] return 0, touch neither the open-file table nor
    [osErrno], and [follow_path] on the new disk finds the name in the
    root with inode [c]. *)
Theorem create_first_entry junk type nm s rbuf c u :
  0 < MAX_FILES → 0 < TOTAL_SECTORS →
  INODE_TABLE_START_SECTOR < 2 ^ 31 →
  wf_disk (disk s) →
  Disk_Read (disk s) INODE_TABLE_START_SECTOR = Some rbuf →
  inode_type rbuf 0 = 1 → inode_size rbuf 0 = 0 →
  c_str nm ≠ [] → illegal_filename (c_str nm) = false →
  type = 0 ∨ type = 1 →
  1 ≤ c ≤ 3 →
  bitmap_bit (disk s) INODE_BITMAP_START_SECTOR c = 0 →
  (∀ i, 0 ≤ i < c → bitmap_bit (disk s) INODE_BITMAP_START_SECTOR i = 1) →
  0 ≤ u < 4096 → u < Z.of_nat (length (disk s)) →
  u ≠ INODE_TABLE_START_SECTOR →
  bitmap_bit (disk s) SECTOR_BITMAP_START_SECTOR u = 0 →
  (∀ i, 0 ≤ i < u → bitmap_bit (disk s) SECTOR_BITMAP_START_SECTOR i = 1) →
  ∃ s1,
    create_file_or_directory junk type (String "/" nm) s = Done (0, s1)
    ∧ open_files s1 = open_files s ∧ osErrno s1 = osErrno s
    ∧ follow_path (disk s1) (String "/" nm)
      = Done (Build_path_result 0 (Some c) (Some (c_str nm))).
Proof.
  intros Hf Ht Hits31 Hwf Hread Htype Hsize Hne Hlegal Hty Hc Hc0 Hc1
    Hu Hulen Hune Hu0 Hu1.
  destruct (create_in_empty_root junk type nm s rbuf c u
              Hf Ht Hits31 Hwf Hread Htype Hsize Hne Hlegal Hty Hc Hc0 Hc1
              Hu Hulen Hune Hu0 Hu1)
    as (d5 & buf1 & Hcreate & Hpath & _).
  exists (set_disk d5 s). split; [done|]. split; [done|]. split; [done|].
  exact Hpath.
Qed.

(** [File_Open] on a path that resolves to a regular file, with a free
    descriptor. *)
Lemma File_Open_regular junk file s r c buf base :
  follow_path (disk s) file = Done r →
  fp_last_inode r = Some c → 0 ≤ c →
  inode_at (disk s) c buf base → inode_type buf base = 0 →
  0 ≤ new_file_fd (open_files s) →
  File_Open junk file s
  = Done (new_file_fd (open_files s),
          set_open_files
            (store_fd (open_files s) (new_file_fd (open_files s))
               {| f_inode := c; f_size := inode_size buf base; f_pos := 0 |}) s).
Proof.
  intros Hpath Hc Hpos (Hread & Hassert & ->) Htype Hfd.
  unfold File_Open, bind, get_files, pure_disk, get_disk, fail_with,
    set_file_entry, ret, crash.
  destruct (new_file_fd (open_files s) <? 0) eqn:E; [lia|].
  rewrite Hpath. unfold child_of. rewrite Hc.
  destruct (0 <=? c) eqn:Ec; [|lia].
  rewrite Hread, Hassert, Htype. reflexivity.
Qed.

End CreateFirst.

Lemma create_first_entry_witness :
  ∃ s1,
    create_file_or_directory (geo := small_geometry) 0 0 "/a.txt" small_fresh
    = Done (0, s1)
    ∧ open_files s1 = open_files small_fresh ∧ osErrno s1 = osErrno small_fresh
    ∧ follow_path (geo := small_geometry) (disk s1) "/a.txt"
      = Done (Build_path_result 0 (Some 1) (Some (c_str "a.txt"))).
Proof.
  apply (create_first_entry (geo := small_geometry) 0 0 "a.txt" small_fresh
           (Disk_Read_ (disk small_fresh) 3 []) 1 9).
  - simpl; lia.
  - simpl; lia.
  - vm_compute; reflexivity.
  - apply wf_diskb_true. vm_compute; reflexivity.
  - vm_compute; reflexivity.
  - vm_compute; reflexivity.
  - vm_compute; reflexivity.
  - vm_compute; discriminate.
  - vm_compute; reflexivity.
  - left; reflexivity.
  - lia.
  - vm_compute; reflexivity.
  - intros i Hi. assert (i = 0) as -> by lia. vm_compute; reflexivity.
  - lia.
  - vm_compute; reflexivity.
  - vm_compute; discriminate.
  - vm_compute; reflexivity.
  - intros i Hi.
    assert (i = 0 ∨ i = 1 ∨ i = 2 ∨ i = 3 ∨ i = 4 ∨ i = 5 ∨ i = 6 ∨ i = 7
            ∨ i = 8) as [->|[->|[->|[->|[->|[->|[->|[->| ->]]]]]]]] by lia;
      vm_compute; reflexivity.
Defined.

Section FreshVolume.
Context {geo : Geometry}.

Lemma inode_at_first d c buf :
  0 ≤ c < 4 → 0 ≤ INODE_TABLE_START_SECTOR < 2 ^ 31 →
  Disk_Read d INODE_TABLE_START_SECTOR = Some buf →
  inode_at d c buf (c * sizeof_inode).
Proof.
  intros Hc Hits Hread. unfold inode_at.
  rewrite inode_sector_of_first, inode_start_entry_of_table_start, Z.sub_0_r
    by done.
  split; [done|]. split; [by apply offset_in_sector_first|done].
Qed.

(** [Dir_Size] of the root directory: twenty bytes for each entry the
    root inode counts. *)
Lemma Dir_Size_root junk s buf :
  0 ≤ INODE_TABLE_START_SECTOR < 2 ^ 31 →
  Disk_Read (disk s) INODE_TABLE_START_SECTOR = Some buf →
  Dir_Size junk "/" s
  = Done (to_int (to_size_t (inode_size buf 0 * sizeof_dirent)), s).
Proof.
  intros Hits Hread.
  unfold Dir_Size, getInodeHelper, bind, pure_disk, get_disk, ret.
  rewrite (follow_path_root _ _ Hread). cbn [child_of fp_last_inode].
  change (0 <=? 0) with true. cbv beta iota.
  rewrite inode_sector_of_first by lia.
  rewrite Hread, inode_start_entry_of_table_start. change (0 - 0) with 0.
  rewrite offset_in_sector_first by lia. reflexivity.
Qed.

(** X22: a freshly formatted volume takes its first file.  On every
    geometry whose layout fits the disk and whose first free sector is a
    sector of the disk other than the first sector of the inode table,
    and for every legal name: [FS_Boot] on a missing backstore,
    [File_Create] of ["/name"] and [File_Open] of it return 0, 0 and the
    descriptor 0, which then holds inode 1 with size 0 at position 0;
    [Dir_Size] of the root is 0 before the create and 20 after it;
    [osErrno] is never written. *)
Theorem fresh_volume_create_open junk junk' junk'' nm s :
  0 < MAX_FILES < 2 ^ 31 → 0 < TOTAL_SECTORS →
  DATABLOCK_START_SECTOR ≤ TOTAL_SECTORS →
  DATABLOCK_START_SECTOR < 4096 →
  first_free_sector < TOTAL_SECTORS →
  first_free_sector ≠ INODE_TABLE_START_SECTOR →
  c_str nm ≠ [] → illegal_filename (c_str nm) = false →
  ∃ s0 s1 s2,
    FS_Boot NoBackstore true s = Done (0, s0)
    ∧ File_Create junk (String "/" nm) s0 = Done (0, s1)
    ∧ File_Open junk' (String "/" nm) s1 = Done (0, s2)
    ∧ lookup_fd (open_files s2) 0
      = Some {| f_inode := 1; f_size := 0; f_pos := 0 |}
    ∧ Dir_Size junk'' "/" s0 = Done (0, s0)
    ∧ Dir_Size junk'' "/" s1 = Done (20, s1)
    ∧ osErrno s2 = osErrno s.
Proof.
  intros Hf Ht Hfit Hsmall Hu Hune Hne Hlegal.
  destruct (FS_Boot_formats_state s Hf Ht Hfit Hsmall)
    as (s0 & Hboot & Hwf & Hlen & Hib & Hsb & (rbuf & Hread & Htype & Hsize)
        & _ & Htable & Herr).
  destruct (layout_increasing (proj1 Hf) Ht) as (Hibs & Hsbs & Hisz & Hssz).
  assert (Hlay : 1 ≤ INODE_BITMAP_SECTORS ∧ 1 ≤ SECTOR_BITMAP_SECTORS).
  { unfold INODE_TABLE_START_SECTOR, SECTOR_BITMAP_START_SECTOR in Hsbs. lia. }
  assert (Hits : 0 ≤ INODE_TABLE_START_SECTOR < 2 ^ 31).
  { unfold DATABLOCK_START_SECTOR in Hsmall.
    assert (0 ≤ INODE_TABLE_SECTORS)
      by (unfold INODE_TABLE_SECTORS, to_size_t;
          change INODES_PER_SECTOR with 4; Z.to_euclidean_division_equations; lia).
    change (2 ^ 31) with 2147483648. lia. }
  set (D := DATABLOCK_START_SECTOR) in *.
  assert (HD : 0 ≤ D) by (subst D; unfold DATABLOCK_START_SECTOR;
    assert (0 ≤ INODE_TABLE_SECTORS)
      by (unfold INODE_TABLE_SECTORS, to_size_t;
          change INODES_PER_SECTOR with 4; Z.to_euclidean_division_equations; lia);
    lia).
  set (u := first_free_sector) in *.
  assert (Hudef : (D mod 8 ≤ 1 ∧ u = D) ∨ (2 ≤ D mod 8 ∧ u = 8 * (D / 8))).
  { subst u. unfold first_free_sector. fold D.
    destruct (D mod 8 <=? 1) eqn:E; [left|right]; lia. }
  assert (Hur : 0 ≤ u < 4096)
    by (destruct Hudef as [[? ->]|[? ->]]; Z.to_euclidean_division_equations; lia).
  destruct (create_in_empty_root junk 0 nm s0 rbuf 1 u)
    as (d5 & buf1 & Hcreate & Hpath & Hr5 & Ht0 & Hs0 & Htc & Hsc & _);
    try done; try lia.
  - rewrite Hib by lia. reflexivity.
  - intros i Hi. rewrite Hib by lia. assert (i = 0) as -> by lia. reflexivity.
  - rewrite Hsb by lia.
    replace ((u <? 8 * (D / 8)) || (u =? D - 1)) with false; [done|].
    symmetry. apply orb_false_iff.
    split; [apply Z.ltb_ge|apply Z.eqb_neq];
      destruct Hudef as [[? ->]|[? ->]]; Z.to_euclidean_division_equations; lia.
  - intros i Hi. rewrite Hsb by lia.
    replace ((i <? 8 * (D / 8)) || (i =? D - 1)) with true; [done|].
    symmetry. apply orb_true_iff.
    destruct (Z_lt_le_dec i (8 * (D / 8))) as [Hlt|Hge];
      [left; by apply Z.ltb_lt|right; apply Z.eqb_eq].
    destruct Hudef as [[? ->]|[? ->]]; Z.to_euclidean_division_equations; lia.
  - exists s0, (set_disk d5 s0). eexists.
    split; [done|]. split; [exact Hcreate|].
    assert (Hfd : new_file_fd (open_files (set_disk d5 s0)) = 0).
    { cbn [open_files set_disk]. rewrite Htable. reflexivity. }
    pose proof (File_Open_regular junk' (String "/" nm) (set_disk d5 s0)
                  _ 1 buf1 (1 * sizeof_inode) Hpath eq_refl ltac:(lia)
                  (inode_at_first d5 1 buf1 ltac:(lia) Hits Hr5) Htc
                  ltac:(rewrite Hfd; lia)) as Hopen.
    rewrite Hfd, Hsc in Hopen.
    split; [exact Hopen|].
    cbn [open_files set_open_files set_disk osErrno].
    split; [rewrite Htable; reflexivity|].
    split.
    { rewrite (Dir_Size_root junk'' s0 rbuf Hits Hread), Hsize. reflexivity. }
    split; [|done].
    rewrite (Dir_Size_root junk'' (set_disk d5 s0) buf1 Hits Hr5), Hs0.
    reflexivity.
Qed.

End FreshVolume.

Lemma fresh_volume_create_open_witness :
  ∃ s0 s1 s2,
    FS_Boot (geo := small_geometry) NoBackstore true (initial_state E_CREATE)
    = Done (0, s0)
    ∧ File_Create (geo := small_geometry) 0 "/notes.txt" s0 = Done (0, s1)
    ∧ File_Open (geo := small_geometry) 0 "/notes.txt" s1 = Done (0, s2)
    ∧ lookup_fd (open_files s2) 0
      = Some {| f_inode := 1; f_size := 0; f_pos := 0 |}
    ∧ Dir_Size (geo := small_geometry) 0 "/" s0 = Done (0, s0)
    ∧ Dir_Size (geo := small_geometry) 0 "/" s1 = Done (20, s1)
    ∧ osErrno s2 = osErrno (initial_state E_CREATE).
Proof.
  apply (fresh_volume_create_open (geo := small_geometry) 0 0 0 "notes.txt"
           (initial_state E_CREATE)).
  - simpl; lia.
  - simpl; lia.
  - vm_compute; discriminate.
  - vm_compute; reflexivity.
  - vm_compute; reflexivity.
  - vm_compute; discriminate.
  - vm_compute; discriminate.
  - vm_compute; reflexivity.
Defined.

(** ** More on writing one sector *)

Section WriteSector.
Context {geo : Geometry}.

(** [File_Write] of a request that ends inside the sector of the current
    position, for any value [u] the allocator returns. *)
Lemma write_one_sector_facts s fd1 e1 buffer size buf base u d1 :
  lookup_fd (open_files s) fd1 = Some e1 →
  0 < f_inode e1 < 2 ^ 31 →
  inode_at (disk s) (f_inode e1) buf base →
  wf_disk (disk s) →
  0 ≤ f_pos e1 < 512 * MAX_SECTORS_PER_FILE →
  0 < size ≤ Z.of_nat (length buffer) →
  f_pos e1 mod 512 + size ≤ 512 →
  0 ≤ SECTOR_BITMAP_START_SECTOR →
  bitmap_first_unused SECTOR_BITMAP_START_SECTOR SECTOR_BITMAP_SECTORS
    SECTOR_BITMAP_SIZE (disk s) = Done (u, d1) →
  - 2 ^ 31 ≤ u < 2 ^ 31 →
  ∃ wb nbuf3,
    File_Write fd1 buffer size s
    = Done (size,
            set_open_files
              (store_fd (open_files s) fd1
                 {| f_inode := f_inode e1; f_size := f_size e1 + size;
                    f_pos := f_pos e1 + size |})
              (set_disk
                 (Disk_Write_ (Disk_Write_ d1 u wb)
                    (inode_sector_of (f_inode e1)) nbuf3) s))
    ∧ length wb = 512%nat
    ∧ (∀ j, 0 ≤ j < size → byte_at wb (f_pos e1 mod 512 + j) = byte_at buffer j)
    ∧ (∀ j, 0 ≤ j < f_pos e1 mod 512 → byte_at wb j = 0)
    ∧ Disk_Read (Disk_Write_ (Disk_Write_ d1 u wb)
                   (inode_sector_of (f_inode e1)) nbuf3)
        (inode_sector_of (f_inode e1)) = Some nbuf3
    ∧ inode_data nbuf3 base (f_pos e1 / 512) = u
    ∧ length d1 = length (disk s).
Proof.
  intros Hfd1 Hn Hinode Hwf Hpos Hsize Hfit Hstart Halloc Hu.
  pose proof Hinode as (Hread & Hassert & Hbase).
  set (isec := inode_sector_of (f_inode e1)) in *.
  set (off := f_inode e1 - inode_start_entry_of isec) in *.
  set (b := f_pos e1 / 512).
  set (o := f_pos e1 mod 512) in *.
  assert (Hbr : 0 ≤ b < 30)
    by (subst b; change MAX_SECTORS_PER_FILE with 30 in Hpos;
        Z.to_euclidean_division_equations; lia).
  assert (Ho : 0 ≤ o < 512) by (subst o; Z.to_euclidean_division_equations; lia).
  assert (Hoff : 0 ≤ off < 4) by (by apply offset_in_sector_bounds).
  assert (Hnode : 0 ≤ base ≤ 384) by (subst base; change sizeof_inode with 128; lia).
  pose proof (wf_disk_read _ _ _ Hwf Hread) as Hlbuf.
  pose proof (bitmap_first_unused_length _ _ _ _ _ _ Hstart Halloc) as Hl1.
  destruct (write_bytes_spec buffer 512 (zeros 512) o 0 size)
    as (wb & Hw & Hlwb & Hin & Hout); [lia|lia|lia|by rewrite length_zeros|].
  replace (Z.min (512 - o) size) with size in * by lia.
  rewrite Z.add_0_l, Z.sub_diag in Hw.
  set (nbuf1 := set_inode_data buf base b u).
  assert (Hdata1 : inode_data nbuf1 base b = u).
  { unfold inode_data, nbuf1, set_inode_data.
    rewrite get_put_int by lia. by apply to_int_small. }
  set (nbuf3 := set_inode_size nbuf1 base (inode_size nbuf1 base + size)).
  exists wb, nbuf3.
  split.
  { apply (File_Write_one_sector s fd1 e1 buffer size buf base u d1 wb);
      try done; lia. }
  split; [done|]. split; [done|].
  split.
  { intros j Hj. rewrite Hout by lia. apply byte_at_zeros. }
  split.
  { assert (Hisec : 0 ≤ isec < Z.of_nat (length (disk s)))
      by (by apply Disk_Read_Some in Hread as [? _]).
    destruct (Disk_Read_in_range (Disk_Write_ d1 u wb) isec) as [x Hx];
      [rewrite Disk_Write__length; lia|].
    by eapply Disk_Read_Write__eq. }
  split; [|done].
  unfold inode_data, nbuf3, set_inode_size.
  rewrite get_put_int_ne by lia. exact Hdata1.
Qed.

Lemma take_written_sector wb buffer o n :
  length wb = 512%nat → 0 ≤ o → 0 ≤ n → o + n ≤ 512 →
  n ≤ Z.of_nat (length buffer) →
  (∀ j, 0 ≤ j < n → byte_at wb (o + j) = byte_at buffer j) →
  (∀ j, 0 ≤ j < o → byte_at wb j = 0) →
  take (Z.to_nat (o + n)) wb = replicate (Z.to_nat o) 0 ++ take (Z.to_nat n) buffer.
Proof.
  intros Hlen Ho Hn Hfit Hbuf Hin Hout.
  rewrite <- (take_drop (Z.to_nat o) wb) at 1.
  rewrite take_app_ge by (rewrite length_take; lia).
  rewrite length_take.
  replace (Z.to_nat (o + n) - Z.to_nat o `min` length wb)%nat with (Z.to_nat n)
    by lia.
  rewrite (take_drop_bytes wb buffer o n) by (try done; lia).
  f_equal.
  pose proof (take_drop_bytes wb (replicate (Z.to_nat o) 0) 0 o) as Hz.
  change (Z.to_nat 0) with 0%nat in Hz. rewrite drop_0 in Hz.
  rewrite Hz; [by rewrite take_replicate, Nat.min_id|lia|lia| |].
  - rewrite length_replicate. lia.
  - intros j Hj. rewrite Z.add_0_l, Hout by done.
    unfold byte_at. rewrite nth_lookup, lookup_replicate_2 by lia. done.
Qed.


(** X25: a full disk is not reported.  When the sector bitmap has no free
    bit, [bitmap_first_unused] returns -1 and [File_Write] goes on with
    it: the call still returns [size] and leaves [osErrno] alone, no
    sector but the one of the inode changes, and a [File_Read] of [size]
    bytes through another descriptor at the same position returns [size]
    zero bytes. *)
Theorem File_Write_full_disk s fd1 fd2 e1 e2 buffer size buf base d1 :
  lookup_fd (open_files s) fd1 = Some e1 →
  lookup_fd (open_files s) fd2 = Some e2 →
  fd1 ≠ fd2 →
  f_inode e2 = f_inode e1 → f_pos e2 = f_pos e1 →
  0 < f_inode e1 < 2 ^ 31 →
  inode_at (disk s) (f_inode e1) buf base →
  wf_disk (disk s) →
  0 ≤ f_pos e1 < 512 * MAX_SECTORS_PER_FILE →
  0 < size ≤ Z.of_nat (length buffer) →
  f_pos e1 mod 512 + size ≤ 512 →
  0 ≤ SECTOR_BITMAP_START_SECTOR →
  bitmap_first_unused SECTOR_BITMAP_START_SECTOR SECTOR_BITMAP_SECTORS
    SECTOR_BITMAP_SIZE (disk s) = Done (-1, d1) →
  ∃ s1 s2,
    File_Write fd1 buffer size s = Done (size, s1)
    ∧ osErrno s1 = osErrno s
    ∧ (∀ sec, sec ≠ inode_sector_of (f_inode e1) →
              Disk_Read (disk s1) sec = Disk_Read (disk s) sec)
    ∧ File_Read fd2 size s1
      = Done ((size, replicate (Z.to_nat size) 0), s2).
Proof.
  intros Hfd1 Hfd2 Hne Hino Hp2 Hn Hinode Hwf Hpos Hsize Hfit Hstart Halloc.
  destruct (bitmap_first_unused_none _ _ _ _ _ Hstart Halloc) as [-> _].
  destruct (write_one_sector_facts s fd1 e1 buffer size buf base (-1) (disk s))
    as (wb & nbuf3 & Hwrite & Hlwb & Hin & Hout & Hread3 & Hdata3 & Hl1);
    try done.
  pose proof Hinode as (Hread & Hassert & Hbase).
  set (o := f_pos e1 mod 512) in *. set (b := f_pos e1 / 512) in *.
  assert (Ho : 0 ≤ o < 512) by (subst o; Z.to_euclidean_division_equations; lia).
  change (Disk_Write_ (disk s) (-1) wb) with (disk s) in *.
  set (d3 := Disk_Write_ (disk s) (inode_sector_of (f_inode e1)) nbuf3) in *.
  set (t1 := store_fd (open_files s) fd1
               {| f_inode := f_inode e1; f_size := f_size e1 + size;
                  f_pos := f_pos e1 + size |}) in *.
  assert (Hsector : Disk_Read_ (disk (set_open_files t1 (set_disk d3 s))) (-1)
                      (zeros 512) = zeros 512) by reflexivity.
  assert (Hfd2' : lookup_fd (open_files (set_open_files t1 (set_disk d3 s))) fd2
                  = Some e2).
  { cbn [open_files set_open_files]. subst t1.
    rewrite lookup_store_ne; [done| |done]. by eapply lookup_fd_nonneg. }
  exists (set_open_files t1 (set_disk d3 s)). eexists. split; [exact Hwrite|].
  split; [done|]. split.
  { intros sec Hsec. cbn [disk set_open_files set_disk]. subst d3.
    by apply Disk_Read_Write__ne. }
  rewrite (File_Read_one_sector _ fd2 e2 size nbuf3 base (-1) Hfd2').
  - rewrite Hsector, Hp2. fold o. unfold zeros.
    rewrite drop_replicate, take_replicate.
    replace (Z.to_nat size `min` (Z.to_nat 512 - Z.to_nat o))%nat
      with (Z.to_nat size) by lia.
    reflexivity.
  - lia.
  - rewrite Hino. unfold inode_at. cbn [disk set_open_files set_disk].
    by rewrite Hread3.
  - by rewrite Hp2.
  - lia.
  - by rewrite Hp2.
  - by rewrite Hp2.
  - lia.
  - by rewrite Hsector.
Qed.

End WriteSector.


Lemma File_Write_full_disk_witness :
  ∃ s1 s2,
    File_Write (geo := small_geometry) 0 (c_str "hello") 5 small_full
    = Done (5, s1)
    ∧ osErrno s1 = osErrno small_full
    ∧ (∀ sec, sec ≠ inode_sector_of (geo := small_geometry) 1 →
              Disk_Read (disk s1) sec = Disk_Read (disk small_full) sec)
    ∧ File_Read (geo := small_geometry) 1 5 s1
      = Done ((5, replicate (Z.to_nat 5) 0), s2).
Proof.
  eapply (File_Write_full_disk (geo := small_geometry) small_full 0 1
            {| f_inode := 1; f_size := 0; f_pos := 0 |}
            {| f_inode := 1; f_size := 0; f_pos := 0 |}
            (c_str "hello") 5 (Disk_Read_ (disk small_full) 3 []) 128).
  - vm_compute; reflexivity.
  - vm_compute; reflexivity.
  - lia.
  - reflexivity.
  - reflexivity.
  - simpl; lia.
  - unfold inode_at. split; [|split]; vm_compute; reflexivity.
  - apply wf_diskb_true. vm_compute; reflexivity.
  - split; [simpl; lia|vm_compute; reflexivity].
  - split; [lia|vm_compute; discriminate].
  - vm_compute; discriminate.
  - vm_compute; discriminate.
  - vm_compute; reflexivity.
Defined.

(** ** Allocating and freeing *)

Lemma Disk_Write__back d s x bm :
  Disk_Read d s = Some bm → Disk_Write_ (Disk_Write_ d s x) s bm = d.
Proof.
  intros [Hs Hl]%Disk_Read_Some. unfold Disk_Write_.
  rewrite (Disk_Write_in_range d s x) by done.
  rewrite Disk_Write_in_range by (rewrite length_insert; done).
  rewrite list_insert_insert_eq. by apply list_insert_id.
Qed.

Lemma land_lor_lnot b k :
  0 ≤ k → Z.testbit b k = false →
  Z.land (Z.lor b (Z.shiftl 1 k)) (Z.lnot (Z.shiftl 1 k)) = b.
Proof.
  intros Hk Hb. apply Z.bits_inj'. intros n Hn.
  rewrite Z.land_spec, Z.lor_spec, Z.lnot_spec, Z.shiftl_1_l by done.
  rewrite Z.pow2_bits_eqb by done.
  destruct (k =? n) eqn:E.
  - apply Z.eqb_eq in E. subst n. rewrite Hb. reflexivity.
  - cbn [negb]. by rewrite orb_false_r, andb_true_r.
Qed.

(** X26: allocating and freeing undo each other for the first eight
    bits.  When [bitmap_first_unused] hands out a position below 8,
    [bitmap_reset] of that position returns 0 and gives back the disk as
    it was before the allocation. *)
Theorem bitmap_alloc_reset_round_trip start num nbits d pos d' :
  0 ≤ start → wf_disk d →
  bitmap_first_unused start num nbits d = Done (pos, d') →
  0 ≤ pos < 8 →
  bitmap_reset start num pos d' = Done (0, d).
Proof.
  intros Hstart Hwf Hrun Hpos. unfold bitmap_first_unused in Hrun.
  change 0 with (4096 * 0) in Hrun at 2.
  destruct (bitmap_first_unused_loop_spec start Hstart _ d 0 nbits _ d'
              (Z.le_refl 0) Hrun)
    as [(-> & _)|(bm & _ & Hread & Hzero & -> & _)]; [lia|].
  replace (pos / 4096) with 0 in * by (Z.to_euclidean_division_equations; lia).
  replace (pos mod 4096 / 8) with 0 in *
    by (Z.to_euclidean_division_equations; lia).
  replace (pos mod 8) with pos in * by (Z.to_euclidean_division_equations; lia).
  rewrite Z.add_0_r in *.
  pose proof (wf_disk_read _ _ _ Hwf Hread) as Hlen.
  set (bm' := set_byte bm 0 (Z.lor (byte_at bm 0) (Z.shiftl 1 (7 - pos)))).
  unfold bitmap_reset.
  rewrite Z.quot_div_nonneg, Z.rem_mod_nonneg, Z.quot_div_nonneg by lia.
  replace (pos / (512 * 8)) with 0 by (Z.to_euclidean_division_equations; lia).
  replace (pos / 512) with 0 by (Z.to_euclidean_division_equations; lia).
  replace (pos mod 8) with pos by (Z.to_euclidean_division_equations; lia).
  rewrite Z.add_0_r. unfold Disk_Read_.
  rewrite (Disk_Read_Write__eq d start bm' bm Hread).
  rewrite bitmap_reset_bits_spec by lia.
  change ((0 <=? 0) && (0 <? 512)) with true. cbv iota.
  unfold bm'. rewrite byte_at_set_byte by lia.
  rewrite land_lor_lnot by (try done; lia).
  rewrite set_byte_set_byte, set_byte_same by lia.
  by rewrite Disk_Write__back.
Qed.

Lemma bitmap_alloc_reset_round_trip_witness :
  bitmap_reset 1 1 1 (Disk_Write_ (disk small_fresh) 1
                        (set_byte (Disk_Read_ (disk small_fresh) 1 []) 0 192))
  = Done (0, disk small_fresh).
Proof.
  apply (bitmap_alloc_reset_round_trip 1 1 3 (disk small_fresh) 1).
  - lia.
  - apply wf_diskb_true. vm_compute; reflexivity.
  - vm_compute; reflexivity.
  - lia.
Defined.

(** X27: from bit 8 on, [bitmap_reset] frees something else.  For
    [8 <= ibit < 4096] on a bitmap whose first sector is on the disk the
    call returns 0, yet bit [ibit] has afterwards the value it had before:
    an inode or a sector with such a number stays allocated. *)
Theorem bitmap_reset_misses_bit start num ibit d bm :
  wf_disk d → 8 ≤ ibit < 4096 →
  Disk_Read d start = Some bm →
  ∃ d',
    bitmap_reset start num ibit d = Done (0, d')
    ∧ bitmap_bit d' start ibit = bitmap_bit d start ibit.
Proof.
  intros Hwf Hibit Hread.
  destruct (bitmap_reset_spec start num ibit d bm Hwf ltac:(lia))
    as (d' & Hreset & _ & Hframe & _).
  { replace (ibit / 4096) with 0 by (Z.to_euclidean_division_equations; lia).
    by rewrite Z.add_0_r. }
  exists d'. split; [done|]. apply Hframe; [lia|].
  unfold reset_target. Z.to_euclidean_division_equations; lia.
Qed.

Lemma bitmap_reset_misses_bit_witness :
  ∃ d',
    bitmap_reset 2 1 9 (disk small_opened) = Done (0, d')
    ∧ bitmap_bit d' 2 9 = bitmap_bit (disk small_opened) 2 9.
Proof.
  apply (bitmap_reset_misses_bit 2 1 9 (disk small_opened)
           (Disk_Read_ (disk small_opened) 2 [])).
  - apply wf_diskb_true. vm_compute; reflexivity.
  - lia.
  - vm_compute; reflexivity.
Defined.

(** ** Creating a name twice *)

Section CreateTwice.
Context {geo : Geometry}.

(** X28: a name cannot be created twice.  In the situation of
    [create_first_entry], after the create has returned 0 a second
    [File_Create] or [Dir_Create] of the same path returns -1 with
    [E_CREATE] and changes neither the disk nor the open-file table. *)
Theorem create_twice junk junk' type type' nm s rbuf c u :
  0 < MAX_FILES → 0 < TOTAL_SECTORS →
  INODE_TABLE_START_SECTOR < 2 ^ 31 →
  wf_disk (disk s) →
  Disk_Read (disk s) INODE_TABLE_START_SECTOR = Some rbuf →
  inode_type rbuf 0 = 1 → inode_size rbuf 0 = 0 →
  c_str nm ≠ [] → illegal_filename (c_str nm) = false →
  type = 0 ∨ type = 1 →
  1 ≤ c ≤ 3 →
  bitmap_bit (disk s) INODE_BITMAP_START_SECTOR c = 0 →
  (∀ i, 0 ≤ i < c → bitmap_bit (disk s) INODE_BITMAP_START_SECTOR i = 1) →
  0 ≤ u < 4096 → u < Z.of_nat (length (disk s)) →
  u ≠ INODE_TABLE_START_SECTOR →
  bitmap_bit (disk s) SECTOR_BITMAP_START_SECTOR u = 0 →
  (∀ i, 0 ≤ i < u → bitmap_bit (disk s) SECTOR_BITMAP_START_SECTOR i = 1) →
  ∃ s1,
    create_file_or_directory junk type (String "/" nm) s = Done (0, s1)
    ∧ create_file_or_directory junk' type' (String "/" nm) s1
      = Done (-1, set_errno E_CREATE s1).
Proof.
  intros Hf Ht Hits31 Hwf Hread Htype Hsize Hne Hlegal Hty Hc Hc0 Hc1
    Hu Hulen Hune Hu0 Hu1.
  destruct (create_in_empty_root junk type nm s rbuf c u
              Hf Ht Hits31 Hwf Hread Htype Hsize Hne Hlegal Hty Hc Hc0 Hc1
              Hu Hulen Hune Hu0 Hu1)
    as (d5 & buf1 & Hcreate & Hpath & _).
  exists (set_disk d5 s). split; [done|].
  unfold create_file_or_directory, bind, pure_disk, fail_with.
  cbn [disk set_disk]. rewrite Hpath.
  cbn [fp_ret child_of fp_last_inode].
  change (0 <=? 0) with true. cbv iota.
  destruct (0 <=? c) eqn:Ec; [reflexivity|lia].
Qed.

End CreateTwice.

Lemma create_twice_witness :
  ∃ s1,
    create_file_or_directory (geo := small_geometry) 0 0 "/a.txt" small_fresh
    = Done (0, s1)
    ∧ create_file_or_directory (geo := small_geometry) 0 1 "/a.txt" s1
      = Done (-1, set_errno E_CREATE s1).
Proof.
  apply (create_twice (geo := small_geometry) 0 0 0 1 "a.txt" small_fresh
           (Disk_Read_ (disk small_fresh) 3 []) 1 9).
  - simpl; lia.
  - simpl; lia.
  - vm_compute; reflexivity.
  - apply wf_diskb_true. vm_compute; reflexivity.
  - vm_compute; reflexivity.
  - vm_compute; reflexivity.
  - vm_compute; reflexivity.
  - vm_compute; discriminate.
  - vm_compute; reflexivity.
  - left; reflexivity.
  - lia.
  - vm_compute; reflexivity.
  - intros i Hi. assert (i = 0) as -> by lia. vm_compute; reflexivity.
  - lia.
  - vm_compute; reflexivity.
  - vm_compute; discriminate.
  - vm_compute; reflexivity.
  - intros i Hi.
    assert (i = 0 ∨ i = 1 ∨ i = 2 ∨ i = 3 ∨ i = 4 ∨ i = 5 ∨ i = 6 ∨ i = 7
            ∨ i = 8) as [->|[->|[->|[->|[->|[->|[->|[->| ->]]]]]]]] by lia;
      vm_compute; reflexivity.
Defined.
